(** * Clarity Map: a shallow embedding of the journal's data plumbing

  The development follows the JavaScript sources of the repository:

  - [js/journal_data.js]  (classes [JournalDataManager] and [AIIntegration]),
  - [js/app.js]           (class [ClarityMapApp], the step controller),
  - the progress tracker and the mapping system (classes [ProgressTracker]
    and [MappingSystem]),
  - [Js/utils.js]         (the [Utils] helpers the classes call).

  Conventions of the embedding.

  - A JavaScript string is a Rocq [string], one character per code unit; the
    model therefore covers the strings whose code units are below 256, and
    the white space of [String.prototype.trim] is its part below 256.
  - A JavaScript value is a [value]: the JSON values, [undefined], and arrays
    that may carry named properties besides their items.  Objects list their
    own properties in insertion order; the special place ECMAScript gives to
    integer-like keys in the enumeration order is not modelled, and no
    statement below depends on the order of keys.
  - The code of a class body is strict mode code: assigning a property of a
    primitive throws a [TypeError].
  - A computation has an [outcome]: it returns, it throws, or it is [Stuck].
    [Stuck] marks the corners of the host language the embedding does not
    follow (reading a member inherited from a built-in prototype through a
    computed key, assigning an index or the length of an array, the
    [__proto__] setter, printing a number or an object as text).  Nothing is
    ever concluded from [Stuck]: the theorems conclude [Ok] or [Throw].
  - A number is an IEEE 754 binary64 float, as in the host language.
  - The clock ([new Date().toISOString()]) is a function [clock] giving the
    successive readings made during one call.
  - What the environment decides (what is in the storage slot, what
    [JSON.parse] makes of a text, whether a write to the storage succeeds,
    how the network answers) is an argument of the function that asks. *)

From Stdlib Require Import Bool Arith ZArith List String Ascii Lia Floats.
From Stdlib Require Import DecimalString.
Import ListNotations.

Local Open Scope string_scope.
Local Open Scope list_scope.

(** ** Strings of the host language *)

Module JsString.

(** White space and line terminators removed by [String.prototype.trim],
    among the code units below 256: TAB, LF, VT, FF, CR, SP and NBSP. *)
Definition is_white_space (c : ascii) : bool :=
  let n := nat_of_ascii c in
  (Nat.eqb n 9 || Nat.eqb n 10 || Nat.eqb n 11 || Nat.eqb n 12
   || Nat.eqb n 13 || Nat.eqb n 32 || Nat.eqb n 160)%bool.

Definition is_empty (s : string) : bool :=
  match s with EmptyString => true | String _ _ => false end.

Fixpoint trimStart (s : string) : string :=
  match s with
  | EmptyString => EmptyString
  | String c r => if is_white_space c then trimStart r else s
  end.

Fixpoint trimEnd (s : string) : string :=
  match s with
  | EmptyString => EmptyString
  | String c r =>
      let r' := trimEnd r in
      if (is_white_space c && is_empty r')%bool then EmptyString
      else String c r'
  end.

(** [s.trim()] *)
Definition trim (s : string) : string := trimEnd (trimStart s).

(** [s.split(sep)] for a separator of one code unit: never an empty list,
    [''.split(',')] is [['']]. *)
Fixpoint split (sep : ascii) (s : string) : list string :=
  match s with
  | EmptyString => [EmptyString]
  | String c r =>
      if Ascii.eqb c sep then EmptyString :: split sep r
      else match split sep r with
           | piece :: pieces => String c piece :: pieces
           | [] => [String c EmptyString]
           end
  end.

(** [pieces.join(sep)] on strings *)
Definition join (sep : string) (pieces : list string) : string :=
  String.concat sep pieces.

(** [s.toLowerCase()] on code units below 256: A-Z and the capital letters
    of Latin-1 (192-222 but the multiplication sign 215) move up by 32. *)
Definition lower_unit (c : ascii) : ascii :=
  let n := nat_of_ascii c in
  if ((Nat.leb 65 n && Nat.leb n 90)
      || (Nat.leb 192 n && Nat.leb n 222 && negb (Nat.eqb n 215)))%bool
  then ascii_of_nat (n + 32) else c.

Fixpoint toLowerCase (s : string) : string :=
  match s with
  | EmptyString => EmptyString
  | String c r => String (lower_unit c) (toLowerCase r)
  end.

(** [hay.includes(needle)] *)
Fixpoint includes (hay needle : string) : bool :=
  (String.prefix needle hay
   || match hay with
      | EmptyString => false
      | String _ r => includes r needle
      end)%bool.

(** The text of a natural number, as an array index is written. *)
Definition of_nat (n : nat) : string := NilZero.string_of_uint (Nat.to_uint n).

End JsString.

(** ** Numbers of the host language *)

Module JsMath.

Local Open Scope float_scope.

Definition of_nat (n : nat) : float :=
  PrimFloat.of_uint63 (Uint63.of_Z (Z.of_nat n)).

Definition of_Z (z : Z) : float :=
  if (z <? 0)%Z then - PrimFloat.of_uint63 (Uint63.of_Z (- z))
  else PrimFloat.of_uint63 (Uint63.of_Z z).

(** [Math.PI], the binary64 number nearest to pi. *)
Definition PI : float := 0x1.921fb54442d18p+1.

(** [Math.round(x)]: the integer nearest to [x], a tie going up.  A finite
    [x] below [2^52] in magnitude is [s * mant * 2^ex] exactly, with
    [ex < 0]; the rounding is then done on integers. *)
Definition round (x : float) : float :=
  if (PrimFloat.is_nan x || PrimFloat.is_infinity x)%bool then x
  else if PrimFloat.eqb x 0 then x
  else if PrimFloat.leb 0x1p+52 (PrimFloat.abs x) then x
  else
    let (m, e) := PrimFloat.frshiftexp (PrimFloat.abs x) in
    let mant := Uint63.to_Z (PrimFloat.normfr_mantissa m) in
    let ex := (Uint63.to_Z e - FloatOps.shift - 53)%Z in
    let den := (2 ^ (- ex))%Z in
    let s := if PrimFloat.ltb x 0 then (-1)%Z else 1%Z in
    let r := ((2 * s * mant + den) / (2 * den))%Z in
    if ((r =? 0)%Z && PrimFloat.ltb x 0)%bool then (-0) else of_Z r.

Definition is_negative_zero (x : float) : bool :=
  (PrimFloat.is_zero x && PrimFloat.get_sign x)%bool.

(** [Math.max(a, b)]: [NaN] when an argument is; of two zeros, the positive
    one when there is one. *)
Definition max (a b : float) : float :=
  if (PrimFloat.is_nan a || PrimFloat.is_nan b)%bool then PrimFloat.nan
  else if PrimFloat.ltb a b then b
  else if PrimFloat.ltb b a then a
  else if is_negative_zero a then b else a.


(** The natural number a float is, when it is one. *)
Definition to_nat (x : float) : option nat :=
  match Prim2SF x with
  | S754_zero _ => Some 0%nat
  | S754_finite false m e =>
      if (0 <=? e)%Z then Some (Z.to_nat (Z.pos m * 2 ^ e))
      else if (Z.pos m mod 2 ^ (- e) =? 0)%Z
           then Some (Z.to_nat (Z.pos m / 2 ^ (- e)))
           else None
  | _ => None
  end.

End JsMath.

(** ** Values, outcomes and property access *)

Module Js.

Inductive error : Type :=
| TypeError
| RangeError
| SyntaxError
| Error (message : string).

(** What a computation does: it returns, it throws, or it leaves the part of
    the host language the embedding follows. *)
Inductive outcome (A : Type) : Type :=
| Ok (a : A)
| Throw (e : error)
| Stuck.
Arguments Ok {A} a.
Arguments Throw {A} e.
Arguments Stuck {A}.

Definition bind {A B : Type} (m : outcome A) (k : A -> outcome B) : outcome B :=
  match m with
  | Ok a => k a
  | Throw e => Throw e
  | Stuck => Stuck
  end.

(** [try { m } catch (error) { handler }] *)
Definition try_catch {A : Type} (m : outcome A) (handler : error -> outcome A)
  : outcome A :=
  match m with
  | Throw e => handler e
  | other => other
  end.

Unset Elimination Schemes.
Inductive value : Type :=
| VUndef
| VNull
| VBool (b : bool)
| VNum (n : float)
| VStr (s : string)
| VArr (items : list value) (named : list (string * value))
| VObj (props : list (string * value)).
Set Elimination Schemes.

Definition props : Type := list (string * value).

(** Induction on values, with the hypothesis for the values an array or an
    object holds. *)
Definition value_ind (P : value -> Prop)
    (Hundef : P VUndef) (Hnull : P VNull)
    (Hbool : forall b, P (VBool b)) (Hnum : forall n, P (VNum n))
    (Hstr : forall s, P (VStr s))
    (Harr : forall items named,
        Forall P items -> Forall (fun kv => P (snd kv)) named ->
        P (VArr items named))
    (Hobj : forall ps, Forall (fun kv => P (snd kv)) ps -> P (VObj ps))
  : forall v, P v :=
  fix go (v : value) : P v :=
    let fix go_items (l : list value) : Forall P l :=
      match l with
      | [] => Forall_nil _
      | x :: r => Forall_cons x (go x) (go_items r)
      end in
    let fix go_props (l : props) : Forall (fun kv => P (snd kv)) l :=
      match l with
      | [] => Forall_nil _
      | kv :: r => Forall_cons kv (go (snd kv)) (go_props r)
      end in
    match v with
    | VUndef => Hundef
    | VNull => Hnull
    | VBool b => Hbool b
    | VNum n => Hnum n
    | VStr s => Hstr s
    | VArr items named => Harr items named (go_items items) (go_props named)
    | VObj ps => Hobj ps (go_props ps)
    end.

(** [!!v] *)
Definition truthy (v : value) : bool :=
  match v with
  | VUndef | VNull => false
  | VBool b => b
  | VNum n => negb (PrimFloat.eqb n 0%float || PrimFloat.is_nan n)
  | VStr s => negb (JsString.is_empty s)
  | VArr _ _ | VObj _ => true
  end.

(** [typeof v] *)
Definition typeof (v : value) : string :=
  match v with
  | VUndef => "undefined"
  | VNull => "object"
  | VBool _ => "boolean"
  | VNum _ => "number"
  | VStr _ => "string"
  | VArr _ _ | VObj _ => "object"
  end.

(** [Array.isArray(v)] *)
Definition isArray (v : value) : bool :=
  match v with VArr _ _ => true | _ => false end.

(** [a || b] *)
Definition or_else (a b : value) : value := if truthy a then a else b.

(** *** Own properties *)

Fixpoint lookup (k : string) (ps : props) : option value :=
  match ps with
  | [] => None
  | (k', v) :: r => if String.eqb k k' then Some v else lookup k r
  end.

Definition has_key (k : string) (ps : props) : bool :=
  match lookup k ps with Some _ => true | None => false end.

(** Assignment to an own property: the value is replaced in place, a new
    key goes last. *)
Fixpoint upsert (k : string) (v : value) (ps : props) : props :=
  match ps with
  | [] => [(k, v)]
  | (k', v') :: r =>
      if String.eqb k k' then (k, v) :: r else (k', v') :: upsert k v r
  end.

Definition keys (ps : props) : list string := map fst ps.

(** The array index a key denotes, when it is the canonical text of a
    natural number below [2^32 - 1]. *)
Definition index_of_key (k : string) : option N :=
  match NilZero.uint_of_string k with
  | Some u =>
      let n := N.of_uint u in
      if (String.eqb (NilZero.string_of_uint (N.to_uint n)) k
          && (n <? 4294967295)%N)%bool
      then Some n else None
  | None => None
  end.

Definition nth_item (items : list value) (n : N) : value :=
  if (n <? N.of_nat (List.length items))%N
  then nth (N.to_nat n) items VUndef else VUndef.

Definition nth_unit (s : string) (n : N) : value :=
  if (n <? N.of_nat (String.length s))%N
  then match String.get (N.to_nat n) s with
       | Some c => VStr (String c EmptyString)
       | None => VUndef
       end
  else VUndef.

(** The members of [Object.prototype]. *)
Definition object_prototype_names : list string :=
  ["constructor"; "__defineGetter__"; "__defineSetter__"; "hasOwnProperty";
   "__lookupGetter__"; "__lookupSetter__"; "isPrototypeOf";
   "propertyIsEnumerable"; "toString"; "valueOf"; "__proto__";
   "toLocaleString"].

Definition mem_string (k : string) (l : list string) : bool :=
  existsb (String.eqb k) l.

(** The property names of the journal document and of the answer of the
    text service: none of them is a member of a built-in prototype, so that
    reading one of them from a value that does not own it gives
    [undefined]. *)
Definition plain_names : list string :=
  ["metadata"; "created"; "lastModified"; "version"; "currentSection";
   "welcome"; "focus"; "influences"; "connections"; "mapping"; "patterns";
   "goals"; "roadmap"; "commitment";
   "lifeChallenge"; "lifeAreas"; "otherArea"; "wantMore";
   "energyGivers"; "energyDrainers"; "stuckRoutines"; "expectations";
   "pressures"; "repeatedBehaviors";
   "focusAreaRepeat"; "energyGiver1"; "energyConnection1"; "energyGiver2";
   "energyConnection2"; "energyDrainer1"; "drainerConnection1";
   "energyDrainer2"; "drainerConnection2"; "strongestPattern";
   "patternConnection"; "ahaReflection";
   "mapFocus"; "mapEnergyGivers"; "mapEnergyDrainers"; "mapPattern";
   "strongestNegative"; "strongestPositive"; "chainReaction";
   "leveragePoint";
   "mainLoop"; "loopType"; "selectedPattern"; "connectionToChange";
   "howToChange"; "systemImpact"; "keyLearning"; "readyToChange";
   "whyThisChange";
   "leveragePointGoal"; "goalStatement"; "goalImpact"; "successMetrics";
   "potentialObstacles";
   "roadmapGoal"; "milestone1"; "milestone2"; "milestone3";
   "milestone1Actions"; "milestone2Actions"; "milestone3Actions";
   "flexibilityPlan"; "supportSystem";
   "commitmentFoundation"; "patternToInterrupt"; "nowColumnImportant";
   "whatToGain"; "commitmentText"; "whenHard"; "supportWho";
   "supportEnvironment"; "whenStumble"; "reminderRitual"; "yourName";
   "signatureDate"; "finalReflection"; "oneWord";
   "candidates"; "content"; "parts"; "text"].

(** What a read finds beyond the own properties of a value that is not a
    plain object. *)
Definition inherited (k : string) : outcome value :=
  match index_of_key k with
  | Some _ => Ok VUndef
  | None => if mem_string k plain_names then Ok VUndef else Stuck
  end.

(** [v[k]] *)
Definition get (v : value) (k : string) : outcome value :=
  match v with
  | VUndef | VNull => Throw TypeError
  | VObj ps =>
      match lookup k ps with
      | Some x => Ok x
      | None => if mem_string k object_prototype_names then Stuck
                else Ok VUndef
      end
  | VArr items named =>
      match index_of_key k with
      | Some n => Ok (nth_item items n)
      | None =>
          if String.eqb k "length" then Ok (VNum (JsMath.of_nat (List.length items)))
          else match lookup k named with
               | Some x => Ok x
               | None => inherited k
               end
      end
  | VStr s =>
      match index_of_key k with
      | Some n => Ok (nth_unit s n)
      | None =>
          if String.eqb k "length"
          then Ok (VNum (JsMath.of_nat (String.length s)))
          else inherited k
      end
  | VBool _ | VNum _ => inherited k
  end.

(** [v[k] = x] in strict mode code; the result is the state of the object
    [v] after the assignment. *)
Definition set (v : value) (k : string) (x : value) : outcome value :=
  match v with
  | VUndef | VNull => Throw TypeError
  | VObj ps =>
      if String.eqb k "__proto__" then Stuck else Ok (VObj (upsert k x ps))
  | VArr items named =>
      if String.eqb k "__proto__" then Stuck
      else match index_of_key k with
           | Some _ => Stuck
           | None => if String.eqb k "length" then Stuck
                     else Ok (VArr items (upsert k x named))
           end
  | VBool _ | VNum _ | VStr _ =>
      if String.eqb k "__proto__" then Stuck else Throw TypeError
  end.

(** The object [v] after the object its property [k] refers to has been
    changed in place into [x]: no assignment takes place, the change is
    seen through the reference. *)
Definition seen_through (v : value) (k : string) (x : value) : value :=
  match v with
  | VObj ps => VObj (upsert k x ps)
  | VArr items named =>
      match index_of_key k with
      | Some n =>
          VArr (firstn (N.to_nat n) items ++ x :: skipn (S (N.to_nat n)) items)
               named
      | None => VArr items (upsert k x named)
      end
  | other => other
  end.

(** [v.hasOwnProperty(k)]: the method is looked up on [v] first, and an own
    property of that name (never a function in a document) is called
    instead of the built-in one. *)
Definition hasOwnProperty (v : value) (k : string) : outcome bool :=
  match v with
  | VUndef | VNull => Throw TypeError
  | VObj ps =>
      if has_key "hasOwnProperty" ps then Throw TypeError
      else Ok (has_key k ps)
  | VArr items named =>
      if has_key "hasOwnProperty" named then Throw TypeError
      else Ok (match index_of_key k with
               | Some n => (n <? N.of_nat (List.length items))%N
               | None => (String.eqb k "length" || has_key k named)%bool
               end)
  | VStr s =>
      Ok (match index_of_key k with
          | Some n => (n <? N.of_nat (String.length s))%N
          | None => String.eqb k "length"
          end)
  | VBool _ | VNum _ => Ok false
  end.

(** [Object.keys(v)] *)
Definition own_keys (v : value) : outcome (list string) :=
  match v with
  | VUndef | VNull => Throw TypeError
  | VObj ps => Ok (keys ps)
  | VArr items named =>
      Ok (map JsString.of_nat (seq 0 (List.length items)) ++ keys named)
  | VStr s => Ok (map JsString.of_nat (seq 0 (String.length s)))
  | VBool _ | VNum _ => Ok []
  end.

(** [String(v)] for the values whose text the embedding follows. *)
Definition to_text (v : value) : outcome string :=
  match v with
  | VUndef => Ok "undefined"
  | VNull => Ok "null"
  | VBool true => Ok "true"
  | VBool false => Ok "false"
  | VStr s => Ok s
  | VNum _ | VArr _ _ | VObj _ => Stuck
  end.

End Js.

Notation "x <- m ;; k" := (Js.bind m (fun x => k))
(at level 61, m at next level, right associativity).

(** ** [Utils]: cloning and the storage adapter *)

Module Utils.
Import Js.

(** [Utils.deepClone(obj)]: primitives are returned as they are, an array is
    mapped item by item (its named properties are not copied), an object is
    rebuilt key by key.  The documents never hold a [Date]. *)
Fixpoint deepClone (obj : value) : value :=
  match obj with
  | VArr items _ => VArr (map deepClone items) []
  | VObj ps => VObj (map (fun kv => (fst kv, deepClone (snd kv))) ps)
  | other => other
  end.

(** A text handed to [JSON.parse], given by what the parser makes of it:
    [None] when it throws a [SyntaxError]. *)
Inductive json_text : Type :=
| JsonText (parsed : option value).

Definition JSON_parse (t : json_text) : outcome value :=
  match t with
  | JsonText (Some v) => Ok v
  | JsonText None => Throw SyntaxError
  end.

(** [Utils.storage.get(key)] with its default [null]: the item of the slot,
    parsed; [null] when the slot is empty or the item does not parse. *)
Definition storage_get (item : option json_text) : value :=
  match item with
  | None => VNull
  | Some t =>
      match JSON_parse t with
      | Ok v => v
      | _ => VNull
      end
  end.

End Utils.

(** ** [JournalDataManager] *)

(** Successive readings of the clock during one call. *)
Definition clock : Type := nat -> string.

Definition later (n : nat) (clk : clock) : clock := fun i => clk (n + i).

Module JournalData.
Import Js.

Definition blank (name : string) : string * value := (name, VStr "").

(** [getDefaultDataStructure()] *)
Definition getDefaultDataStructure (clk : clock) : value :=
  VObj
    [ ("metadata",
       VObj [ ("created", VStr (clk 0));
              ("lastModified", VStr (clk 1));
              ("version", VStr "1.0");
              ("currentSection", VStr "welcome") ]);
      ("welcome", VObj []);
      ("focus",
       VObj [ blank "lifeChallenge"; ("lifeAreas", VArr [] []);
              blank "otherArea"; blank "wantMore" ]);
      ("influences",
       VObj [ blank "energyGivers"; blank "energyDrainers";
              blank "stuckRoutines"; blank "expectations"; blank "pressures";
              blank "repeatedBehaviors" ]);
      ("connections",
       VObj [ blank "focusAreaRepeat"; blank "energyGiver1";
              blank "energyConnection1"; blank "energyGiver2";
              blank "energyConnection2"; blank "energyDrainer1";
              blank "drainerConnection1"; blank "energyDrainer2";
              blank "drainerConnection2"; blank "strongestPattern";
              blank "patternConnection"; blank "ahaReflection" ]);
      ("mapping",
       VObj [ blank "mapFocus"; blank "mapEnergyGivers";
              blank "mapEnergyDrainers"; blank "mapPattern";
              blank "strongestNegative"; blank "strongestPositive";
              blank "chainReaction"; blank "leveragePoint" ]);
      ("patterns",
       VObj [ blank "mainLoop"; blank "loopType"; blank "selectedPattern";
              blank "connectionToChange"; blank "howToChange";
              blank "systemImpact"; blank "keyLearning"; blank "readyToChange";
              blank "whyThisChange" ]);
      ("goals",
       VObj [ blank "leveragePointGoal"; blank "goalStatement";
              blank "goalImpact"; blank "successMetrics";
              blank "potentialObstacles" ]);
      ("roadmap",
       VObj [ blank "roadmapGoal"; blank "milestone1"; blank "milestone2";
              blank "milestone3"; blank "milestone1Actions";
              blank "milestone2Actions"; blank "milestone3Actions";
              blank "flexibilityPlan"; blank "supportSystem" ]);
      ("commitment",
       VObj [ blank "commitmentFoundation"; blank "patternToInterrupt";
              blank "nowColumnImportant"; blank "whatToGain";
              blank "commitmentText"; blank "whenHard"; blank "supportWho";
              blank "supportEnvironment"; blank "whenStumble";
              blank "reminderRitual"; blank "yourName"; blank "signatureDate";
              blank "finalReflection"; blank "oneWord" ]) ].

(** [requiredSections.every(section => data.hasOwnProperty(section))] *)
Fixpoint every_own (data : value) (sections : list string) : outcome bool :=
  match sections with
  | [] => Ok true
  | s :: rest =>
      own <- hasOwnProperty data s ;;
      if own then every_own data rest else Ok false
  end.

(** [validateDataStructure(data)] *)
Definition validateDataStructure (data : value) : outcome bool :=
  if (negb (truthy data) || negb (String.eqb (typeof data) "object"))%bool
  then Ok false
  else every_own data ["metadata"; "focus"; "influences"; "connections"].

(** The test of [mergeObjects]:
    [source[key] && typeof source[key] === 'object' && !Array.isArray(source[key])] *)
Definition is_plain_object (v : value) : bool :=
  (truthy v && String.eqb (typeof v) "object" && negb (isArray v))%bool.

(** The inner function [mergeObjects(target, source)] of [mergeWithDefaults].
    The source mutates [target] in place; here the result is [target] after
    the call.  [merge_entry] is the body of the [forEach] callback, given the
    recursive call on the value of the entry. *)
Definition merge_entry (recur : value -> outcome value)
    (target : value) (key : string) (v : value) : outcome value :=
  if is_plain_object v then
    tk <- get target key ;;
    if truthy tk then
      sub <- recur tk ;;
      Ok (seen_through target key sub)
    else
      target1 <- set target key (VObj []) ;;
      sub <- recur (VObj []) ;;
      Ok (seen_through target1 key sub)
  else set target key v.

(** [Object.keys(source).forEach(key => ...)] over the properties of an
    object, and over the items of an array from the index [i] on. *)
Fixpoint each_entry (recur : value -> value -> outcome value)
    (target : value) (entries : props) {struct entries} : outcome value :=
  match entries with
  | [] => Ok target
  | (key, v) :: rest =>
      target' <- merge_entry (fun tk => recur tk v) target key v ;;
      each_entry recur target' rest
  end.

Fixpoint each_item (recur : value -> value -> outcome value)
    (target : value) (i : nat) (items : list value) {struct items}
  : outcome value :=
  match items with
  | [] => Ok target
  | v :: rest =>
      target' <- merge_entry (fun tk => recur tk v) target (JsString.of_nat i) v ;;
      each_item recur target' (S i) rest
  end.

Fixpoint mergeObjects (target source : value) {struct source} : outcome value :=
  match source with
  | VUndef | VNull => Throw TypeError
  | VBool _ | VNum _ => Ok target
  | VStr s =>
      fold_left
        (fun acc i =>
           t <- acc ;;
           set t (JsString.of_nat i) (nth_unit s (N.of_nat i)))
        (seq 0 (String.length s)) (Ok target)
  | VArr items named =>
      target' <- each_item mergeObjects target 0 items ;;
      each_entry mergeObjects target' named
  | VObj ps => each_entry mergeObjects target ps
  end.

(** [mergeWithDefaults(stored)] *)
Definition mergeWithDefaults (clk : clock) (stored : value) : outcome value :=
  let defaults := getDefaultDataStructure clk in
  let merged := Utils.deepClone defaults in
  merged <- mergeObjects merged stored ;;
  metadata <- get merged "metadata" ;;
  metadata <- set metadata "lastModified" (VStr (clk 2)) ;;
  Ok (seen_through merged "metadata" metadata).

(** [loadData()], given what [Utils.storage.get(this.storageKey)] returned *)
Definition loadData (clk : clock) (stored : value) : outcome value :=
  if truthy stored then
    valid <- validateDataStructure stored ;;
    if valid then mergeWithDefaults clk stored
    else Ok (getDefaultDataStructure clk)
  else Ok (getDefaultDataStructure clk).

(** *** The manager and its document *)

(** The custom events the manager dispatches on the window.  The time stamp
    of the detail is left out; [message] is [None] when the text is the one
    the engine gives to an error of its own. *)
Inductive event : Type :=
| JournalSave (status : string) (message : option string)
| JournalImport (status : string) (message : option string)
| JournalClear.

Definition message_of (e : error) : option string :=
  match e with
  | Error message => Some message
  | _ => None
  end.

(** The fields of a [JournalDataManager]: [data] is the in-memory document,
    [slot] what the storage holds under [storageKey] (the document that was
    serialised there), [savePending] whether the debounced save is armed. *)
Record manager : Type := Manager {
  data : value;
  autosaveEnabled : bool;
  lastSaved : option string;
  slot : option value;
  savePending : bool;
  events : list event
}.

Definition with_data (m : manager) (d : value) : manager :=
  Manager d (autosaveEnabled m) (lastSaved m) (slot m) (savePending m) (events m).

Definition dispatch (m : manager) (e : event) : manager :=
  Manager (data m) (autosaveEnabled m) (lastSaved m) (slot m) (savePending m)
          (events m ++ [e]).

(** [this.debouncedSave()]: the timer is armed again. *)
Definition debouncedSave (m : manager) : manager :=
  Manager (data m) (autosaveEnabled m) (lastSaved m) (slot m) true (events m).

(** [persistData()]; [write_ok] tells whether [Utils.storage.set] succeeds. *)
Definition persistData (clk : clock) (write_ok : bool) (m : manager)
  : bool * manager :=
  if write_ok then
    (true,
     dispatch
       (Manager (data m) (autosaveEnabled m) (Some (clk 0)) (Some (data m))
                (savePending m) (events m))
       (JournalSave "success" (Some "")))
  else (false, m).

(** [this.data.metadata.lastModified = new Date().toISOString()] on a
    document [d]: the document after the assignment, or what it throws. *)
Definition touch (now : string) (d : value) : outcome value :=
  metadata <- get d "metadata" ;;
  metadata <- set metadata "lastModified" (VStr now) ;;
  Ok (seen_through d "metadata" metadata).

(** [getField(section, fieldId, defaultValue)] *)
Definition getField (d : value) (section fieldId : string) (defaultValue : value)
  : outcome value :=
  try_catch
    (sec <- get d section ;;
     if truthy sec then
       own <- hasOwnProperty sec fieldId ;;
       if own then get sec fieldId else Ok defaultValue
     else Ok defaultValue)
    (fun _ => Ok defaultValue).

(** [saveField(section, fieldId, value)]: the flag returned, and the manager
    after the call.  An exception is caught where it is thrown: what was
    assigned before it stays assigned. *)
Definition saveField (clk : clock) (section fieldId : string) (v : value)
    (m : manager) : outcome bool * manager :=
  let d := data m in
  match get d section with
  | Ok sec =>
      match (if truthy sec then Ok d else set d section (VObj [])) with
      | Ok d1 =>
          match (sec1 <- get d1 section ;; set sec1 fieldId v) with
          | Ok sec2 =>
              let d2 := seen_through d1 section sec2 in
              match touch (clk 0) d2 with
              | Ok d3 => (Ok true, debouncedSave (with_data m d3))
              | Throw _ => (Ok false, with_data m d2)
              | Stuck => (Stuck, m)
              end
          | Throw _ => (Ok false, with_data m d1)
          | Stuck => (Stuck, m)
          end
      | Throw _ => (Ok false, m)
      | Stuck => (Stuck, m)
      end
  | Throw _ => (Ok false, m)
  | Stuck => (Stuck, m)
  end.

(** The own enumerable properties an object spread copies. *)
Definition spread_entries (v : value) : props :=
  match v with
  | VObj ps => ps
  | VArr items named =>
      combine (map JsString.of_nat (seq 0 (List.length items))) items ++ named
  | VStr s =>
      map (fun i => (JsString.of_nat i, nth_unit s (N.of_nat i)))
          (seq 0 (String.length s))
  | _ => []
  end.

(** [{ ...a, ...b }] *)
Definition spread2 (a b : value) : value :=
  VObj (fold_left (fun acc kv => upsert (fst kv) (snd kv) acc)
                  (spread_entries a ++ spread_entries b) []).

(** [saveSection(section, sectionData)] *)
Definition saveSection (clk : clock) (section : string) (sectionData : value)
    (m : manager) : outcome bool * manager :=
  let d := data m in
  match get d section with
  | Ok sec =>
      match set d section (spread2 sec sectionData) with
      | Ok d1 =>
          match touch (clk 0) d1 with
          | Ok d2 => (Ok true, debouncedSave (with_data m d2))
          | Throw _ => (Ok false, with_data m d1)
          | Stuck => (Stuck, m)
          end
      | Throw _ => (Ok false, m)
      | Stuck => (Stuck, m)
      end
  | Throw _ => (Ok false, m)
  | Stuck => (Stuck, m)
  end.

(** [getSection(section)] *)
Definition getSection (d : value) (section : string) : outcome value :=
  sec <- get d section ;;
  Ok (or_else sec (VObj [])).

(** [saveCurrentSection(currentSection)]: no handler here, an exception
    leaves the method. *)
Definition saveCurrentSection (currentSection : string) (m : manager)
  : outcome unit * manager :=
  let d := data m in
  match (metadata <- get d "metadata" ;;
         metadata <- set metadata "currentSection" (VStr currentSection) ;;
         Ok (seen_through d "metadata" metadata)) with
  | Ok d1 => (Ok tt, debouncedSave (with_data m d1))
  | Throw e => (Throw e, m)
  | Stuck => (Stuck, m)
  end.

(** [getCurrentSection()] *)
Definition getCurrentSection (d : value) : outcome value :=
  metadata <- get d "metadata" ;;
  cur <- get metadata "currentSection" ;;
  Ok (or_else cur (VStr "welcome")).

(** What [importData] is given: a text (a value whose [typeof] is
    ['string']), or a record parsed already. *)
Inductive import_arg : Type :=
| FromText (t : Utils.json_text)
| FromValue (v : value).

(** [importData(data, merge)]: the flag returned and the manager after the
    call.  The body of the [try] is followed statement by statement; the
    handler reports the error and returns [false], with the manager as the
    statements before the exception left it. *)
Definition importData (clk : clock) (write_ok : bool) (payload : import_arg)
    (merge : bool) (m : manager) : outcome bool * manager :=
  let succeed (m1 : manager) : outcome bool * manager :=
    let m2 := snd (persistData (later (if merge then 3 else 1) clk) write_ok m1) in
    (Ok true, dispatch m2 (JournalImport "success" (Some ""))) in
  let fail (e : error) (m1 : manager) : outcome bool * manager :=
    (Ok false, dispatch m1 (JournalImport "error" (message_of e))) in
  let checked : outcome value :=
    importedData <- match payload with
                    | FromText t => Utils.JSON_parse t
                    | FromValue (VStr _) => Stuck
                    | FromValue v => Ok v
                    end ;;
    valid <- validateDataStructure importedData ;;
    if valid then Ok importedData else Throw (Error "Invalid data structure") in
  match checked with
  | Ok importedData =>
      if merge then
        match mergeWithDefaults clk importedData with
        | Ok merged => succeed (with_data m merged)
        | Throw e => fail e m
        | Stuck => (Stuck, m)
        end
      else
        let m1 := with_data m importedData in
        match touch (clk 0) importedData with
        | Ok stamped => succeed (with_data m1 stamped)
        | Throw e => fail e m1
        | Stuck => (Stuck, m1)
        end
  | Throw e => fail e m
  | Stuck => (Stuck, m)
  end.

(** [clearAllData()] *)
Definition clearAllData (clk : clock) (m : manager) : bool * manager :=
  (true,
   dispatch
     (Manager (getDefaultDataStructure clk) (autosaveEnabled m) (lastSaved m)
              None (savePending m) (events m))
     JournalClear).

(** The seven paths of [getCompletionPercentage]. *)
Definition requiredFields : list string :=
  [ "focus.wantMore"; "influences.energyGivers"; "influences.energyDrainers";
    "connections.ahaReflection"; "patterns.keyLearning"; "goals.goalStatement";
    "commitment.commitmentText" ].

(** [value && typeof value === 'string' && value.trim().length > 0] *)
Definition is_filled (v : value) : bool :=
  (truthy v && String.eqb (typeof v) "string"
   && match v with
      | VStr s => Nat.ltb 0 (String.length (JsString.trim s))
      | _ => false
      end)%bool.

(** The callback of the [forEach]: the count after one path. *)
Definition count_path (d : value) (completedFields : nat) (fieldPath : string)
  : outcome nat :=
  match JsString.split "." fieldPath with
  | section :: field :: _ =>
      v <- getField d section field (VStr "") ;;
      Ok (if is_filled v then S completedFields else completedFields)
  | _ => Stuck
  end.

Fixpoint count_paths (d : value) (completedFields : nat) (paths : list string)
  : outcome nat :=
  match paths with
  | [] => Ok completedFields
  | p :: rest =>
      n <- count_path d completedFields p ;;
      count_paths d n rest
  end.

(** [getCompletionPercentage()] *)
Definition getCompletionPercentage (d : value) : outcome float :=
  completedFields <- count_paths d 0 requiredFields ;;
  Ok (JsMath.round
        (JsMath.of_nat completedFields
         / JsMath.of_nat (List.length requiredFields) * 100)%float).

(** [[a, b].filter(Boolean).join(', ')] *)
Definition join_truthy (a b : value) : outcome string :=
  let kept := filter truthy [a; b] in
  texts <- fold_right (fun v acc => l <- acc ;; t <- to_text v ;; Ok (t :: l))
                      (Ok []) kept ;;
  Ok (JsString.join ", " texts).

(** [getAutoPopulationData(targetSection)]: the own properties of the record
    returned.  The record of all the mappings is built before one of them is
    chosen. *)
Definition getAutoPopulationData (d : value) (targetSection : string)
  : outcome props :=
  let field s f := getField d s f (VStr "") in
  focusAreaRepeat <- field "focus" "wantMore" ;;
  mapFocus <- field "focus" "wantMore" ;;
  giver1 <- field "connections" "energyGiver1" ;;
  giver2 <- field "connections" "energyGiver2" ;;
  mapEnergyGivers <- join_truthy giver1 giver2 ;;
  drainer1 <- field "connections" "energyDrainer1" ;;
  drainer2 <- field "connections" "energyDrainer2" ;;
  mapEnergyDrainers <- join_truthy drainer1 drainer2 ;;
  mapPattern <- field "connections" "strongestPattern" ;;
  leveragePointGoal <- field "mapping" "leveragePoint" ;;
  roadmapGoal <- field "goals" "goalStatement" ;;
  let mappings : props :=
    [ ("connections", VObj [ ("focusAreaRepeat", focusAreaRepeat) ]);
      ("mapping",
       VObj [ ("mapFocus", mapFocus);
              ("mapEnergyGivers", VStr mapEnergyGivers);
              ("mapEnergyDrainers", VStr mapEnergyDrainers);
              ("mapPattern", mapPattern) ]);
      ("goals", VObj [ ("leveragePointGoal", leveragePointGoal) ]);
      ("roadmap", VObj [ ("roadmapGoal", roadmapGoal) ]) ] in
  chosen <- get (VObj mappings) targetSection ;;
  Ok (spread_entries (or_else chosen (VObj []))).

End JournalData.

(** ** [MappingSystem]: the relationship diagram *)

Module MappingSystem.
Import Js.

(** [parseInfluenceText(text)] *)
Definition parseInfluenceText (text : value) : list string :=
  if (negb (truthy text) || negb (String.eqb (typeof text) "string"))%bool then []
  else
    match text with
    | VStr s =>
        firstn 4
          (filter (fun item => Nat.ltb 0 (String.length item))
             (map JsString.trim (JsString.split "," s)))
    | _ => []
    end.

(** Where an element sits.  [Math.cos] and [Math.sin] are approximations the
    host chooses; a point computed with them is kept as the expression the
    source writes, [(cx + Math.cos(angle) * radius, cy + Math.sin(angle) *
    radius)], with every number in it evaluated. *)
Inductive position : Type :=
| At (x y : float)
| Around (cx cy : float) (angle : float) (radius : float).

(** The point of a position, for a cosine and a sine. *)
Definition coordinates (cos sin : float -> float) (p : position) : float * float :=
  match p with
  | At x y => (x, y)
  | Around cx cy angle radius =>
      ((cx + cos angle * radius)%float, (cy + sin angle * radius)%float)
  end.

Record element : Type := Element {
  id : string;
  text : value;
  type : string;
  place : position;
  width : float;
  height : float;
  draggable : bool
}.

(** The drawing surface, by its [offsetWidth] and [offsetHeight]. *)
Record canvas : Type := Canvas { offsetWidth : Z; offsetHeight : Z }.

Definition centerX (c : canvas) : float := (JsMath.of_Z (offsetWidth c) / 2)%float.
Definition centerY (c : canvas) : float := (JsMath.of_Z (offsetHeight c) / 2)%float.

Definition radius : float := 120%float.

(** [createFocusElement(focusText)]: the element pushed. *)
Definition createFocusElement (c : canvas) (focusText : value) : element :=
  Element "focus" focusText "focus" (At (centerX c) (centerY c)) 150 60 false.

(** The angle of the giver of index [index] among [n]:
    [(index * 2 * Math.PI) / Math.max(n, 1) - Math.PI / 2]. *)
Definition giver_angle (index n : nat) : float :=
  (JsMath.of_nat index * 2 * JsMath.PI / JsMath.of_nat (Nat.max n 1)
   - JsMath.PI / 2)%float.

(** The angle of the drainer of index [index] among [n]:
    [(index * 2 * Math.PI) / Math.max(n, 1) + Math.PI / 2]. *)
Definition drainer_angle (index n : nat) : float :=
  (JsMath.of_nat index * 2 * JsMath.PI / JsMath.of_nat (Nat.max n 1)
   + JsMath.PI / 2)%float.

(** [items.forEach((item, index) => ...)], the elements pushed in order. *)
Fixpoint for_each_indexed {A B : Type} (f : A -> nat -> B) (index : nat)
    (items : list A) : list B :=
  match items with
  | [] => []
  | item :: rest => f item index :: for_each_indexed f (S index) rest
  end.

Definition giver_elements (c : canvas) (givers : list string) : list element :=
  for_each_indexed
    (fun giver index =>
       Element ("giver-" ++ JsString.of_nat index)%string (VStr giver) "positive"
               (Around (centerX c) (centerY c)
                       (giver_angle index (List.length givers)) radius)
               100 50 true)
    0 givers.

Definition drainer_elements (c : canvas) (drainers : list string) : list element :=
  for_each_indexed
    (fun drainer index =>
       Element ("drainer-" ++ JsString.of_nat index)%string (VStr drainer) "negative"
               (Around (centerX c) (centerY c)
                       (drainer_angle index (List.length drainers)) radius)
               100 50 true)
    0 drainers.

(** [pattern && pattern.trim()]: only a string has a [trim] to call. *)
Definition pattern_present (pattern : value) : outcome bool :=
  if truthy pattern then
    match pattern with
    | VStr s => Ok (truthy (VStr (JsString.trim s)))
    | _ => Throw TypeError
    end
  else Ok false.

(** [createSurroundingElements(energyGivers, energyDrainers, pattern)]: the
    elements pushed, in order. *)
Definition createSurroundingElements (c : canvas)
    (energyGivers energyDrainers pattern : value) : outcome (list element) :=
  let givers := parseInfluenceText energyGivers in
  let drainers := parseInfluenceText energyDrainers in
  present <- pattern_present pattern ;;
  Ok (giver_elements c givers ++ drainer_elements c drainers
      ++ (if present
          then [Element "pattern" pattern "pattern"
                        (At (centerX c + 140)%float (centerY c - 100)%float)
                        120 50 true]
          else [])).

(** The elements [generateMap] builds when the canvas is there. *)
Definition generateMap_elements (c : canvas) (mappingData : value)
  : outcome (list element) :=
  mapFocus <- get mappingData "mapFocus" ;;
  mapEnergyGivers <- get mappingData "mapEnergyGivers" ;;
  mapEnergyDrainers <- get mappingData "mapEnergyDrainers" ;;
  mapPattern <- get mappingData "mapPattern" ;;
  surrounding <-
    createSurroundingElements c mapEnergyGivers mapEnergyDrainers mapPattern ;;
  Ok (createFocusElement c (or_else mapFocus (VStr "Your Focus")) :: surrounding).

(** The quotation mark of the markup. *)
Definition quot : string := String (ascii_of_nat 34) EmptyString.

(** [createFallbackElements(text, type, prefix)] *)
Definition createFallbackElements (text : value) (type prefix : string) : string :=
  if negb (truthy text) then EmptyString
  else
    let className :=
      if String.eqb type "positive" then "positive-element"
      else "negative-element" in
    JsString.join EmptyString
      (map (fun item =>
              ("<div class=" ++ quot ++ className ++ quot ++ " style=" ++ quot
               ++ "padding: 8px 15px; border-radius: 20px; font-size: 0.9em; box-shadow: 0 2px 4px rgba(0,0,0,0.08);"
               ++ quot ++ ">" ++ prefix ++ item ++ "</div>")%string)
           (parseInfluenceText text)).

(** [truncateText(text, maxLength)].  A text that is no string has no
    [substring] to call; the [length] a record carries is not followed. *)
Definition truncateText (text : value) (maxLength : nat) : outcome value :=
  if negb (truthy text) then Ok (VStr EmptyString)
  else
    match text with
    | VStr s =>
        if Nat.leb (String.length s) maxLength then Ok text
        else Ok (VStr (String.substring 0 (maxLength - 3) s ++ "..."))
    | VArr items _ =>
        if Nat.leb (List.length items) maxLength then Ok text
        else Throw TypeError
    | VObj ps =>
        match lookup "length" ps with
        | None => Throw TypeError
        | Some _ => Stuck
        end
    | _ => Throw TypeError
    end.


Definition is_focus (el : element) : bool := String.eqb (type el) "focus".


Definition move_to (el : element) (x y : float) : element :=
  Element (id el) (text el) (type el) (At x y) (width el) (height el)
          (draggable el).

(** The elements after the first of them that [test] accepts has been moved
    to [(x, y)]: [const el = this.elements.find(test); if (el) { el.x = x;
    el.y = y }]. *)
Fixpoint move_first (test : element -> bool) (x y : float)
    (elements : list element) : list element :=
  match elements with
  | [] => []
  | el :: rest =>
      if test el then move_to el x y :: rest
      else el :: move_first test x y rest
  end.

(** [repositionElements()]: the elements after the resize. *)
Definition repositionElements (c : canvas) (elements : list element)
  : list element :=
  move_first is_focus (centerX c) (centerY c) elements.



End MappingSystem.

(** ** [ProgressTracker]: the progress ledger *)

Module ProgressTracker.
Import Js.

Definition sections : list string :=
  [ "welcome"; "focus"; "influences"; "connections";
    "mapping"; "patterns"; "goals"; "roadmap"; "commitment" ].

(** A [Set] of strings, in insertion order. *)
Definition string_set : Type := list string.

Definition set_has (k : string) (s : string_set) : bool := mem_string k s.

Definition set_add (k : string) (s : string_set) : string_set :=
  if set_has k s then s else s ++ [k].

Definition set_delete (k : string) (s : string_set) : string_set :=
  filter (fun k' => negb (String.eqb k k')) s.

(** The fields of a tracker.  [completedSections] holds the identifiers of
    the visited steps and the composite keys ["section.field"] of the
    required fields that are filled. *)
Record tracker : Type := Tracker {
  currentSectionIndex : nat;
  completedSections : string_set
}.

(** A literal table [{ section: [fields] }] read at the key [section]: a
    member of [Object.prototype] would be found when the table has no such
    key, which the embedding does not follow. *)
Definition table_get (table : list (string * list string)) (section : string)
  : outcome (option (list string)) :=
  match find (fun entry => String.eqb section (fst entry)) table with
  | Some entry => Ok (Some (snd entry))
  | None => if mem_string section object_prototype_names then Stuck else Ok None
  end.

(** [isRequiredField(section, fieldId)] *)
Definition isRequiredField (section fieldId : string) : outcome bool :=
  let requiredFields :=
    [ ("focus", ["wantMore"]);
      ("influences", ["energyGivers"; "energyDrainers"]);
      ("connections", ["ahaReflection"]);
      ("patterns", ["keyLearning"]);
      ("goals", ["goalStatement"]);
      ("commitment", ["commitmentText"]) ] in
  fields <- table_get requiredFields section ;;
  Ok (match fields with
      | Some l => mem_string fieldId l
      | None => false
      end).

(** [getRequiredFieldsForSection(section)] *)
Definition getRequiredFieldsForSection (section : string) : outcome (list string) :=
  let requiredFields :=
    [ ("focus", ["wantMore"]);
      ("influences", ["energyGivers"; "energyDrainers"]);
      ("connections", ["ahaReflection"]);
      ("patterns", ["keyLearning"]);
      ("goals", ["goalStatement"]);
      ("roadmap", ["milestone1"]);
      ("commitment", ["commitmentText"]) ] in
  fields <- table_get requiredFields section ;;
  Ok (match fields with
      | Some l => l
      | None => []
      end).

(** The composite key [`${section}.${field}`]. *)
Definition composite (section field : string) : string :=
  (section ++ "." ++ field)%string.

(** [requiredFields.filter(field => this.completedSections.has(`${section}.${field}`))] *)
Definition completed_of (t : tracker) (section : string) (requiredFields : list string)
  : list string :=
  filter (fun field => set_has (composite section field) (completedSections t))
         requiredFields.

(** The class [updateSectionIndicator(section, progress)] gives the
    navigation button of the step, when the page has one. *)
Definition progress_class (progress : float) : string :=
  if PrimFloat.leb 100 progress then "progress-100"
  else if PrimFloat.leb 75 progress then "progress-75"
  else if PrimFloat.leb 50 progress then "progress-50"
  else if PrimFloat.leb 25 progress then "progress-25"
  else "progress-0".

(** [updateSectionProgress(section)]: the [sectionProgress] it computes and
    hands to [updateSectionIndicator].  The tracker itself is not changed. *)
Definition updateSectionProgress (section : string) (t : tracker) : outcome float :=
  requiredFields <- getRequiredFieldsForSection section ;;
  let completedFields := completed_of t section requiredFields in
  Ok (if Nat.ltb 0 (List.length requiredFields)
      then (JsMath.of_nat (List.length completedFields)
            / JsMath.of_nat (List.length requiredFields) * 100)%float
      else 0%float).

(** [updateFieldCompletionStatus(section, fieldId, isCompleted)]: the tracker
    after the call and the progress recomputed for the step. *)
Definition updateFieldCompletionStatus (section fieldId : string)
    (isCompleted : bool) (t : tracker) : outcome (tracker * float) :=
  let key := composite section fieldId in
  let t' :=
    Tracker (currentSectionIndex t)
      (if isCompleted then set_add key (completedSections t)
       else set_delete key (completedSections t)) in
  progress <- updateSectionProgress section t' ;;
  Ok (t', progress).

(** [getCurrentSection()]: [this.sections[this.currentSectionIndex]] *)
Definition getCurrentSection (t : tracker) : option string :=
  nth_error sections (currentSectionIndex t).

(** What [trackFieldCompletion] reads of the form field it is given. *)
Record field : Type := Field {
  field_id : string;
  field_value : string;
  has_required_attribute : bool;
  has_required_class : bool
}.

(** [trackFieldCompletion(field)]: the tracker after the call, and the
    progress recomputed for the current step when the edit is a tracked one. *)
Definition trackFieldCompletion (f : field) (t : tracker)
  : outcome (tracker * option float) :=
  let fieldId := field_id f in
  let v := JsString.trim (field_value f) in
  match getCurrentSection t with
  | None => Ok (t, None)
  | Some section =>
      if (JsString.is_empty section || JsString.is_empty fieldId)%bool
      then Ok (t, None)
      else
        isRequired <-
          (if (has_required_attribute f || has_required_class f)%bool then Ok true
           else isRequiredField section fieldId) ;;
        if isRequired then
          r <- updateFieldCompletionStatus section fieldId
                 (Nat.ltb 0 (String.length v)) t ;;
          Ok (fst r, Some (snd r))
        else Ok (t, None)
  end.

(** [markSectionVisited] and the index update of [updateProgress(sectionId)];
    the bar and the storage are left out. *)
Definition index_of (k : string) (l : list string) : option nat :=
  (fix go (i : nat) (l : list string) : option nat :=
     match l with
     | [] => None
     | x :: r => if String.eqb x k then Some i else go (S i) r
     end) 0 l.

Definition updateProgress (sectionId : string) (t : tracker) : tracker :=
  match index_of sectionId sections with
  | None => t
  | Some sectionIndex =>
      Tracker sectionIndex (set_add sectionId (completedSections t))
  end.

(** One entry of [getCompletionSummary().sections]. *)
Record section_summary : Type := SectionSummary {
  section : string;
  total : nat;
  completed : nat;
  percentage : float
}.

Definition summarize (t : tracker) (s : string) : outcome section_summary :=
  requiredFields <- getRequiredFieldsForSection s ;;
  let completedFields := completed_of t s requiredFields in
  Ok (SectionSummary s (List.length requiredFields) (List.length completedFields)
        (if Nat.ltb 0 (List.length requiredFields)
         then JsMath.round
                (JsMath.of_nat (List.length completedFields)
                 / JsMath.of_nat (List.length requiredFields) * 100)%float
         else 100%float)).

(** [getCompletionSummary().sections] *)
Definition getCompletionSummary_sections (t : tracker)
  : outcome (list section_summary) :=
  fold_right
    (fun s acc => rest <- acc ;; entry <- summarize t s ;; Ok (entry :: rest))
    (Ok []) sections.

(** [key.includes('.')] *)
Definition has_dot (key : string) : bool := JsString.includes key ".".

(** The [reduce] of [getOverallCompletion]: the number of required fields of
    all the steps. *)
Definition totalRequiredFields : outcome nat :=
  fold_left
    (fun acc s =>
       total <- acc ;;
       fields <- getRequiredFieldsForSection s ;;
       Ok (total + List.length fields))
    sections (Ok 0).

(** [getOverallCompletion()] *)
Definition getOverallCompletion (t : tracker) : outcome float :=
  total <- totalRequiredFields ;;
  let completedRequiredFields :=
    List.length (filter has_dot (completedSections t)) in
  Ok (if Nat.ltb 0 total
      then JsMath.round
             (JsMath.of_nat completedRequiredFields / JsMath.of_nat total * 100)%float
      else 0%float).

(** [getCompletionSummary()] *)
Record completion_summary : Type := CompletionSummary {
  overall : float;
  summary_sections : list section_summary;
  visitedSections : list string;
  summary_currentSection : option string
}.

Definition getCompletionSummary (t : tracker) : outcome completion_summary :=
  sectionSummary <- getCompletionSummary_sections t ;;
  overall <- getOverallCompletion t ;;
  Ok (CompletionSummary overall sectionSummary
        (filter (fun key => negb (has_dot key)) (completedSections t))
        (getCurrentSection t)).

(** The width [updateProgressBar()] gives the bar, in per cent. *)
Definition progressPercentage (t : tracker) : float :=
  (JsMath.of_nat (currentSectionIndex t + 1)
   / JsMath.of_nat (List.length sections) * 100)%float.

(** [goToNextSection()]: the identifier returned ([None] when the method
    returns nothing to go to) and the tracker after the call. *)
Definition goToNextSection (t : tracker) : option string * tracker :=
  if Nat.ltb (currentSectionIndex t) (List.length sections - 1) then
    match nth_error sections (currentSectionIndex t + 1) with
    | Some nextSection => (Some nextSection, updateProgress nextSection t)
    | None => (None, t)
    end
  else (None, t).

(** [goToPreviousSection()] *)
Definition goToPreviousSection (t : tracker) : option string * tracker :=
  if Nat.ltb 0 (currentSectionIndex t) then
    match nth_error sections (currentSectionIndex t - 1) with
    | Some prevSection => (Some prevSection, updateProgress prevSection t)
    | None => (None, t)
    end
  else (None, t).

(** [canNavigateToSection(sectionId)] *)
Definition canNavigateToSection (sectionId : string) (t : tracker) : bool :=
  match index_of sectionId sections with
  | None => false
  | Some targetIndex =>
      (Nat.leb targetIndex (currentSectionIndex t + 1)
       || set_has sectionId (completedSections t))%bool
  end.

(** [saveProgress()]: the record handed to [Utils.storage.set]. *)
Definition saveProgress (clk : clock) (t : tracker) : value :=
  VObj [ ("currentSectionIndex", VNum (JsMath.of_nat (currentSectionIndex t)));
         ("completedSections", VArr (map VStr (completedSections t)) []);
         ("timestamp", VStr (clk 0)) ].

(** [new Set(iterable)] for a set of strings: the items of an array or the
    units of a string, each added once; another value cannot be iterated.  A
    set that holds something else than strings is not followed. *)
Fixpoint add_all (items : list value) (s : string_set) : outcome string_set :=
  match items with
  | [] => Ok s
  | VStr k :: rest => add_all rest (set_add k s)
  | _ :: _ => Stuck
  end.

Definition new_Set (iterable : value) : outcome string_set :=
  match iterable with
  | VUndef | VNull => Ok []
  | VArr items _ => add_all items []
  | VStr s =>
      add_all (map (fun c => VStr (String c EmptyString)) (list_ascii_of_string s)) []
  | _ => Throw TypeError
  end.

(** The index a stored value gives the tracker; an index that is no natural
    number is not followed. *)
Definition as_index (v : value) : outcome nat :=
  match v with
  | VNum n => match JsMath.to_nat n with
              | Some i => Ok i
              | None => Stuck
              end
  | _ => Stuck
  end.

(** [loadProgress()], given what [Utils.storage.get('clarityMap_progress')]
    returned: the tracker after the call. *)
Definition loadProgress (saved : value) (t : tracker) : outcome tracker :=
  if truthy saved then
    index <- get saved "currentSectionIndex" ;;
    index <- as_index (or_else index (VNum 0)) ;;
    completed <- get saved "completedSections" ;;
    completed <- new_Set (or_else completed (VArr [] [])) ;;
    Ok (Tracker index completed)
  else Ok t.

(** [resetProgress()] *)
Definition resetProgress (t : tracker) : tracker := Tracker 0 [].

End ProgressTracker.

(** ** [AIIntegration]: the insight requestor *)

Module AIIntegration.
Import Js.

(** The fields of an [AIIntegration]: the credential read from the storage
    (or [null]) and the flag set with it. *)
Record integration : Type := Integration {
  apiKey : value;
  isEnabled : bool
}.

Definition baseUrl : string :=
  "https://generativelanguage.googleapis.com/v1beta/models/gemini-pro:generateContent".

(** [initializeAPI()], given what [getStoredAPIKey()] returned *)
Definition initializeAPI (stored : value) : integration :=
  Integration stored (truthy stored).

(** [isAvailable()] *)
Definition isAvailable (ai : integration) : bool :=
  (isEnabled ai && truthy (apiKey ai))%bool.

(** The kinds of message [getFallbackMessage] knows. *)
Definition insights_message : string :=
  "Take a moment to reflect on the patterns you've identified. What connections do you notice between your energy givers and drainers? Often, the things that drain us point toward what we value most. Your insights are forming—trust the process.".

Definition reflection_message : string :=
  "You've completed a meaningful journey of self-discovery. The patterns you've uncovered and the commitment you've made are stepping stones toward the life you want. Trust your insights and take the next small step when you're ready.".

Definition insights_error_message : string :=
  "AI insights aren't available right now, but your own reflections are the most valuable part of this process. Take a moment to look for patterns in what you've written—what surprises you most?".

Definition reflection_error_message : string :=
  "While AI summary isn't available, you've done the real work of understanding your patterns and making a commitment to change. That's what creates lasting transformation.".

(** [getFallbackMessage(type)], for the types the class passes.  The two
    dashes of the messages are above the code units a [string] holds here;
    the literals keep them as written in the file. *)
Definition getFallbackMessage (type : string) : string :=
  if String.eqb type "insights" then insights_message
  else if String.eqb type "reflection" then reflection_message
  else if String.eqb type "insights_error" then insights_error_message
  else if String.eqb type "reflection_error" then reflection_error_message
  else "Your insights are the most important part of this journey.".

(** The text of [${v || 'Not specified'}] *)
Definition or_not_specified (v : value) : outcome string :=
  to_text (or_else v (VStr "Not specified")).

Definition newline : string := String (ascii_of_nat 10) EmptyString.

(** [buildInfluencesPrompt(data)] *)
Definition buildInfluencesPrompt (d : value) : outcome string :=
  energyGivers <- get d "energyGivers" ;;
  energyDrainers <- get d "energyDrainers" ;;
  stuckRoutines <- get d "stuckRoutines" ;;
  expectations <- get d "expectations" ;;
  pressures <- get d "pressures" ;;
  g <- or_not_specified energyGivers ;;
  dr <- or_not_specified energyDrainers ;;
  st <- or_not_specified stuckRoutines ;;
  ex <- or_not_specified expectations ;;
  pr <- or_not_specified pressures ;;
  Ok ("As a supportive life coach, analyze these personal patterns and provide gentle, actionable insights:"
      ++ newline ++ newline
      ++ "ENERGY GIVERS: " ++ g ++ newline
      ++ "ENERGY DRAINERS: " ++ dr ++ newline
      ++ "STUCK ROUTINES: " ++ st ++ newline
      ++ "EXTERNAL EXPECTATIONS: " ++ ex ++ newline
      ++ "PRESSURES: " ++ pr ++ newline ++ newline
      ++ "Please provide 2-3 compassionate insights that help this person understand hidden patterns in their life. Focus on:"
      ++ newline
      ++ "1. Connections they might not have noticed" ++ newline
      ++ "2. One specific, gentle suggestion for change" ++ newline
      ++ "3. Validation of their experience" ++ newline ++ newline
      ++ "Keep the tone warm, non-judgmental, and encouraging. Limit response to 150 words.")%string.

(** A request made with [fetch]: a POST of the prompt to the address. *)
Record request : Type := Request {
  url : string;
  prompt : string
}.

(** How the network answers a request: [fetch] rejects, or a response comes
    with its status and a body that [response.json()] parses or not. *)
Inductive answer : Type :=
| NetworkFailure
| Response (ok : bool) (status : nat) (statusText : string)
           (body : Utils.json_text).

(** The end of [makeAPIRequest], on the body [data] of the response: the
    test of the three links and the text returned. *)
Definition candidate_text (d : value) : outcome value :=
  candidates <- get d "candidates" ;;
  first <- (if truthy candidates then get candidates "0" else Ok candidates) ;;
  content <- (if truthy first then get first "content" else Ok first) ;;
  if truthy content then
    parts <- get content "parts" ;;
    part <- get parts "0" ;;
    get part "text"
  else Throw (Error "Unexpected API response format").

(** What [makeAPIRequest] makes of the answer of the network. *)
Definition read_answer (net : answer) : outcome value :=
  match net with
  | NetworkFailure => Throw TypeError
  | Response ok status statusText body =>
      if negb ok then
        Throw (Error ("API request failed: " ++ JsString.of_nat status
                      ++ " " ++ statusText)%string)
      else
        d <- Utils.JSON_parse body ;;
        candidate_text d
  end.

(** [makeAPIRequest(prompt)]: the request sent and what the promise does. *)
Definition makeAPIRequest (ai : integration) (p : string) (net : answer)
  : outcome (request * outcome value) :=
  key <- to_text (apiKey ai) ;;
  Ok (Request (baseUrl ++ "?key=" ++ key)%string p, read_answer net).

(** [formatInsightsResponse(response)] *)
Definition formatInsightsResponse (response : value) : outcome string :=
  match response with
  | VStr s =>
      let formatted := JsString.trim s in
      let lower := JsString.toLowerCase formatted in
      Ok (if (negb (JsString.includes lower "notice")
              && negb (JsString.includes lower "see"))%bool
          then ("Here's what I notice from your reflections:" ++ newline
                ++ newline ++ formatted)%string
          else formatted)
  | _ => Throw TypeError
  end.

(** [generateInfluencesInsights(influencesData)]: the requests made, and what
    the promise returned does ([Ok]: it resolves to the text; [Throw]: it
    rejects). *)
Definition generateInfluencesInsights (ai : integration) (influencesData : value)
    (net : answer) : list request * outcome string :=
  if negb (isAvailable ai) then ([], Ok (getFallbackMessage "insights"))
  else
    match buildInfluencesPrompt influencesData with
    | Ok p =>
        match makeAPIRequest ai p net with
        | Ok (sent, answered) =>
            ([sent],
             try_catch (response <- answered ;; formatInsightsResponse response)
                       (fun _ => Ok (getFallbackMessage "insights_error")))
        | Throw _ => ([], Ok (getFallbackMessage "insights_error"))
        | Stuck => ([], Stuck)
        end
    | Throw e => ([], Throw e)
    | Stuck => ([], Stuck)
    end.

(** [setAPIKey(apiKey)]: the flag returned, the integration after the call
    and what is written to the storage. *)
Definition setAPIKey (key : value) (ai : integration)
  : bool * integration * option value :=
  if (negb (truthy key) || negb (String.eqb (typeof key) "string"))%bool
  then (false, ai, None)
  else (true, Integration key true, Some key).

(** [data.step?.field || ''] *)
Definition optional_field (d : value) (step field : string) : outcome value :=
  s <- get d step ;;
  v <- match s with
       | VUndef | VNull => Ok VUndef
       | _ => get s field
       end ;;
  Ok (or_else v (VStr EmptyString)).

(** [buildReflectionPrompt(data)] *)
Definition buildReflectionPrompt (d : value) : outcome string :=
  focus <- optional_field d "focus" "wantMore" ;;
  keyLearning <- optional_field d "patterns" "keyLearning" ;;
  commitment <- optional_field d "commitment" "commitmentText" ;;
  f <- to_text focus ;;
  k <- to_text keyLearning ;;
  c <- to_text commitment ;;
  Ok ("As a supportive coach, create a personalized reflection summary for someone who has completed a self-discovery journey:"
      ++ newline ++ newline
      ++ "THEIR FOCUS: " ++ f ++ newline
      ++ "KEY LEARNING: " ++ k ++ newline
      ++ "COMMITMENT: " ++ c ++ newline ++ newline
      ++ "Create a brief, encouraging reflection that:" ++ newline
      ++ "1. Acknowledges their growth through this process" ++ newline
      ++ "2. Highlights their key insight" ++ newline
      ++ "3. Offers gentle encouragement for their next steps" ++ newline
      ++ newline
      ++ "Keep it personal, warm, and hopeful. Limit to 120 words.")%string.

(** [formatReflectionResponse(response)] *)
Definition formatReflectionResponse (response : value) : outcome string :=
  match response with
  | VStr s =>
      let formatted := JsString.trim s in
      Ok (if negb (JsString.includes (JsString.toLowerCase formatted) "you")
          then ("Your journey through this process shows real insight. "
                ++ formatted)%string
          else formatted)
  | _ => Throw TypeError
  end.

(** [generateFinalReflection(journalData)] *)
Definition generateFinalReflection (ai : integration) (journalData : value)
    (net : answer) : list request * outcome string :=
  if negb (isAvailable ai) then ([], Ok (getFallbackMessage "reflection"))
  else
    match buildReflectionPrompt journalData with
    | Ok p =>
        match makeAPIRequest ai p net with
        | Ok (sent, answered) =>
            ([sent],
             try_catch (response <- answered ;; formatReflectionResponse response)
                       (fun _ => Ok (getFallbackMessage "reflection_error")))
        | Throw _ => ([], Ok (getFallbackMessage "reflection_error"))
        | Stuck => ([], Stuck)
        end
    | Throw e => ([], Throw e)
    | Stuck => ([], Stuck)
    end.

End AIIntegration.

(** ** [ClarityMapApp]: the step controller and the form fields *)

Module App.
Import Js.

(** *** The elements of the page that carry an identifier

    The page is the list of these elements in document order.  Each step is
    a [DIV] whose identifier is the one of the step, followed by the elements
    of its template.  The static page around the steps is taken to carry none
    of the identifiers used below. *)
Inductive tag : Type := DIV | SPAN | INPUT | TEXTAREA | SELECT.

Record node : Type := Node {
  n_section : string;     (* the step whose template holds the element *)
  n_id : string;
  n_tag : tag;
  n_type : string;        (* the type attribute of an input *)
  n_name : string;
  n_value : value;        (* [.value]: a string for a form control *)
  n_checked : bool;
  n_options : list string;
  n_text : string         (* [.textContent] *)
}.

Definition page : Type := list node.

Definition div (s i : string) : node := Node s i DIV "" "" VUndef false [] "".
Definition span (s i : string) : node := Node s i SPAN "" "" VUndef false [] "".
Definition input (s ty i : string) : node :=
  Node s i INPUT ty "" (VStr "") false [] "".
Definition checkbox (s i nm v : string) : node :=
  Node s i INPUT "checkbox" nm (VStr v) false [] "".
Definition textarea (s i : string) : node :=
  Node s i TEXTAREA "" "" (VStr "") false [] "".
Definition select (s i : string) (opts : list string) : node :=
  Node s i SELECT "" "" (VStr (hd "" opts)) false opts "".

(** [getSectionContent(sectionId)]: the identified elements of the template
    of each step, in document order. *)
Definition getSectionContent (s : string) : list node :=
  if String.eqb s "focus" then
    textarea s "lifeChallenge"
    :: map (fun a => checkbox s ("area-" ++ a)%string "lifeAreas" a)
         [ "family"; "relationships"; "career"; "energy"; "emotional"; "focus";
           "health"; "time"; "money"; "growth"; "beliefs"; "environment" ]
    ++ [ input s "text" "otherArea"; input s "text" "wantMore" ]
  else if String.eqb s "influences" then
    map (textarea s)
      [ "energyGivers"; "energyDrainers"; "stuckRoutines"; "expectations";
        "pressures"; "repeatedBehaviors" ]
    ++ [ div s "patternsInsight" ]
  else if String.eqb s "connections" then
    [ input s "text" "focusAreaRepeat";
      input s "text" "energyGiver1"; textarea s "energyConnection1";
      input s "text" "energyGiver2"; textarea s "energyConnection2";
      input s "text" "energyDrainer1"; textarea s "drainerConnection1";
      input s "text" "energyDrainer2"; textarea s "drainerConnection2";
      input s "text" "strongestPattern"; textarea s "patternConnection";
      textarea s "ahaReflection" ]
  else if String.eqb s "mapping" then
    [ input s "text" "mapFocus"; div s "mapElements";
      span s "mapEnergyGivers"; span s "mapEnergyDrainers"; span s "mapPattern";
      div s "mappingCanvas";
      textarea s "strongestNegative"; textarea s "strongestPositive";
      textarea s "chainReaction"; textarea s "leveragePoint" ]
  else if String.eqb s "patterns" then
    [ textarea s "mainLoop";
      select s "loopType" [ ""; "helping"; "hurting"; "mixed" ];
      input s "hidden" "selectedPattern";
      input s "text" "connectionToChange"; textarea s "howToChange";
      textarea s "systemImpact"; textarea s "keyLearning";
      textarea s "readyToChange"; textarea s "whyThisChange" ]
  else if String.eqb s "goals" then
    [ input s "text" "leveragePointGoal"; textarea s "goalStatement";
      textarea s "goalImpact"; textarea s "successMetrics";
      textarea s "potentialObstacles" ]
  else if String.eqb s "roadmap" then
    [ input s "text" "roadmapGoal"; textarea s "nowAction";
      textarea s "experimentAction"; textarea s "laterAction";
      textarea s "flexibilityPlan"; textarea s "supportSystem" ]
  else if String.eqb s "commitment" then
    [ span s "pledgeName"; input s "text" "yourName";
      textarea s "commitmentFoundation"; textarea s "patternToInterrupt";
      textarea s "nowColumnImportant"; textarea s "whatToGain";
      textarea s "commitmentText"; textarea s "whenHard";
      textarea s "supportWho"; textarea s "supportEnvironment";
      textarea s "whenStumble"; textarea s "reminderRitual";
      input s "date" "signatureDate"; input s "text" "oneWord";
      textarea s "finalReflection"; div s "summaryInsight" ]
  else [].

(** [Utils.getElementById(id)] *)
Definition getElementById (pg : page) (i : string) : option node :=
  find (fun n => String.eqb (n_id n) i) pg.

(** The page after the element found for [i] has become [n']. *)
Fixpoint replace_node (i : string) (n' : node) (pg : page) : page :=
  match pg with
  | [] => []
  | n :: rest =>
      if String.eqb (n_id n) i then n' :: rest
      else n :: replace_node i n' rest
  end.

Definition with_value (n : node) (v : value) : node :=
  Node (n_section n) (n_id n) (n_tag n) (n_type n) (n_name n) v
       (n_checked n) (n_options n) (n_text n).

Definition with_checked (n : node) (b : bool) : node :=
  Node (n_section n) (n_id n) (n_tag n) (n_type n) (n_name n) (n_value n)
       b (n_options n) (n_text n).

Definition with_text (n : node) (t : string) : node :=
  Node (n_section n) (n_id n) (n_tag n) (n_type n) (n_name n) (n_value n)
       (n_checked n) (n_options n) t.

Definition is_line_break (c : ascii) : bool :=
  (Nat.eqb (nat_of_ascii c) 10 || Nat.eqb (nat_of_ascii c) 13)%bool.

Fixpoint strip_newlines (s : string) : string :=
  match s with
  | EmptyString => EmptyString
  | String c r =>
      if is_line_break c then strip_newlines r else String c (strip_newlines r)
  end.

Fixpoint has_carriage_return (s : string) : bool :=
  match s with
  | EmptyString => false
  | String c r => (Nat.eqb (nat_of_ascii c) 13 || has_carriage_return r)%bool
  end.

(** The text a nullable string attribute is given: [null] is the empty
    string, anything else its text. *)
Definition dom_text (v : value) : outcome string :=
  match v with
  | VNull => Ok EmptyString
  | _ => to_text v
  end.

Definition digit (c : ascii) : option nat :=
  let n := nat_of_ascii c in
  if (Nat.leb 48 n && Nat.leb n 57)%bool then Some (n - 48) else None.

Definition days_in_month (y m : nat) : nat :=
  match m with
  | 2 => if ((Nat.eqb (y mod 4) 0 && negb (Nat.eqb (y mod 100) 0))
             || Nat.eqb (y mod 400) 0)%bool then 29 else 28
  | 4 | 6 | 9 | 11 => 30
  | _ => 31
  end.

(** Whether a text of the shape [YYYY-MM-DD] is a valid date string; [None]
    for a text of another shape, where a longer year is not followed. *)
Definition valid_date (t : string) : option bool :=
  match list_ascii_of_string t with
  | [y1; y2; y3; y4; h1; m1; m2; h2; d1; d2] =>
      match digit y1, digit y2, digit y3, digit y4,
            digit m1, digit m2, digit d1, digit d2 with
      | Some a, Some b, Some c, Some d, Some e, Some f, Some g, Some h =>
          let y := a * 1000 + b * 100 + c * 10 + d in
          let m := e * 10 + f in
          let dd := g * 10 + h in
          Some (Nat.eqb (nat_of_ascii h1) 45 && Nat.eqb (nat_of_ascii h2) 45
                && Nat.ltb 0 y && Nat.leb 1 m && Nat.leb m 12
                && Nat.leb 1 dd && Nat.leb dd (days_in_month y m))%bool
      | _, _, _, _, _, _, _, _ => None
      end
  | _ => None
  end.

(** [element.value = v].  A text input strips the line breaks, a date input
    keeps a valid date string only, a select keeps a text only when one of
    its options has it, an element that is no form control gets a property
    of its own.  The line breaks of a text area and the inputs of another
    type are not followed. *)
Definition set_value (n : node) (v : value) : outcome node :=
  match n_tag n with
  | DIV | SPAN => Ok (with_value n v)
  | INPUT =>
      t <- dom_text v ;;
      if String.eqb (n_type n) "text" then Ok (with_value n (VStr (strip_newlines t)))
      else if (String.eqb (n_type n) "checkbox" || String.eqb (n_type n) "hidden")%bool
      then Ok (with_value n (VStr t))
      else if String.eqb (n_type n) "date" then
        if JsString.is_empty t then Ok (with_value n (VStr t))
        else match valid_date t with
             | Some true => Ok (with_value n (VStr t))
             | Some false => Ok (with_value n (VStr EmptyString))
             | None => Stuck
             end
      else Stuck
  | TEXTAREA =>
      t <- dom_text v ;;
      if has_carriage_return t then Stuck else Ok (with_value n (VStr t))
  | SELECT =>
      t <- to_text v ;;
      Ok (with_value n (VStr (if mem_string t (n_options n) then t else EmptyString)))
  end.

Definition is_checkbox (n : node) : bool :=
  match n_tag n with
  | INPUT => String.eqb (n_type n) "checkbox"
  | _ => false
  end.

Definition is_select (n : node) : bool :=
  match n_tag n with SELECT => true | _ => false end.

Definition is_form_control (n : node) : bool :=
  match n_tag n with INPUT | TEXTAREA | SELECT => true | _ => false end.

(** *** Auto-population and restoring the saved answers *)

(** [JournalDataManager.setupAutoPopulation(section)], on the page.  The
    callback of the [forEach] is [auto_populate_field]. *)
Definition auto_populate_field (pg : page) (fieldId : string) (v : value)
  : outcome page :=
  match getElementById pg fieldId with
  | Some element =>
      if negb (truthy (n_value element)) then
        element' <- set_value element v ;;
        Ok (replace_node fieldId element' pg)
      else Ok pg
  | None => Ok pg
  end.

Fixpoint for_each_entry (f : page -> string -> value -> outcome page)
    (pg : page) (entries : props) : outcome page :=
  match entries with
  | [] => Ok pg
  | (k, v) :: rest => pg' <- f pg k v ;; for_each_entry f pg' rest
  end.

Definition setupAutoPopulation (d : value) (section : string) (pg : page)
  : outcome page :=
  autoData <- JournalData.getAutoPopulationData d section ;;
  for_each_entry auto_populate_field pg autoData.

(** [value.forEach(area => ...)] of the group of check boxes *)
Fixpoint check_areas (pg : page) (areas : list value) : outcome page :=
  match areas with
  | [] => Ok pg
  | area :: rest =>
      t <- to_text area ;;
      let i := ("area-" ++ t)%string in
      check_areas
        (match getElementById pg i with
         | Some box => replace_node i (with_checked box true) pg
         | None => pg
         end)
        rest
  end.

(** The callback of the [forEach] of [populateSectionData]. *)
Definition populate_field (pg : page) (fieldId : string) (v : value)
  : outcome page :=
  match getElementById pg fieldId, v with
  | None, _ => Ok pg
  | Some _, VUndef => Ok pg
  | Some element, _ =>
      if is_checkbox element then
        Ok (replace_node fieldId (with_checked element (truthy v)) pg)
      else if is_select element then
        element' <- set_value element v ;;
        Ok (replace_node fieldId element' pg)
      else
        match v with
        | VArr areas _ =>
            if String.eqb fieldId "lifeAreas" then check_areas pg areas
            else
              element' <- set_value element v ;;
              Ok (replace_node fieldId element' pg)
        | _ =>
            element' <- set_value element v ;;
            Ok (replace_node fieldId element' pg)
        end
  end.

(** [populateSectionData(sectionId)] *)
Definition populateSectionData (d : value) (sectionId : string) (pg : page)
  : outcome page :=
  sectionData <- JournalData.getSection d sectionId ;;
  pg1 <- setupAutoPopulation d sectionId pg ;;
  for_each_entry populate_field pg1 (JournalData.spread_entries sectionData).

(** *** Leaving a step and entering one *)

(** The callback of the [forEach] of [saveCurrentSectionData], on the record
    [sectionData] being built. *)
Definition collect_input (sectionData : props) (n : node) : outcome props :=
  if JsString.is_empty (n_id n) then Ok sectionData
  else if is_checkbox n then
    if String.eqb (n_name n) "lifeAreas" then
      let current := match lookup "lifeAreas" sectionData with
                     | Some x => x
                     | None => VUndef
                     end in
      let started := if truthy current then sectionData
                     else upsert "lifeAreas" (VArr [] []) sectionData in
      if n_checked n then
        match lookup "lifeAreas" started with
        | Some (VArr items named) =>
            Ok (upsert "lifeAreas" (VArr (items ++ [n_value n]) named) started)
        | _ => Throw TypeError
        end
      else Ok started
    else Ok (upsert (n_id n) (VBool (n_checked n)) sectionData)
  else Ok (upsert (n_id n) (n_value n) sectionData).

Fixpoint collect_inputs (sectionData : props) (inputs : list node) : outcome props :=
  match inputs with
  | [] => Ok sectionData
  | n :: rest =>
      sectionData' <- collect_input sectionData n ;;
      collect_inputs sectionData' rest
  end.

(** [section.querySelectorAll('input, textarea, select')] *)
Definition inputs_of (pg : page) (section : string) : list node :=
  filter (fun n => (String.eqb (n_section n) section && is_form_control n)%bool) pg.

(** The state of the application: the step shown, the journal, the page and
    the progress tracker. *)
Record app : Type := Application {
  currentSection : string;
  journalData : JournalData.manager;
  document : page;
  progressTracker : ProgressTracker.tracker
}.

(** [saveCurrentSectionData()] *)
Definition saveCurrentSectionData (clk : clock) (a : app) : outcome app :=
  match getElementById (document a) (currentSection a) with
  | None => Ok a
  | Some _ =>
      sectionData <- collect_inputs [] (inputs_of (document a) (currentSection a)) ;;
      match JournalData.saveSection clk (currentSection a) (VObj sectionData)
                                    (journalData a) with
      | (Ok _, m) =>
          Ok (Application (currentSection a) m (document a) (progressTracker a))
      | (Throw e, _) => Throw e
      | (Stuck, _) => Stuck
      end
  end.

(** [element.textContent = v] *)
Definition set_text (pg : page) (i : string) (v : value) : outcome page :=
  match getElementById pg i with
  | Some element =>
      t <- dom_text v ;;
      Ok (replace_node i (with_text element t) pg)
  | None => Ok pg
  end.

(** [populateMapElements()] *)
Definition populateMapElements (d : value) (pg : page) : outcome page :=
  let field f := JournalData.getField d "connections" f (VStr "") in
  giver1 <- field "energyGiver1" ;;
  giver2 <- field "energyGiver2" ;;
  givers <- JournalData.join_truthy giver1 giver2 ;;
  pg1 <- set_text pg "mapEnergyGivers" (VStr givers) ;;
  drainer1 <- field "energyDrainer1" ;;
  drainer2 <- field "energyDrainer2" ;;
  drainers <- JournalData.join_truthy drainer1 drainer2 ;;
  pg2 <- set_text pg1 "mapEnergyDrainers" (VStr drainers) ;;
  pattern <- field "strongestPattern" ;;
  set_text pg2 "mapPattern" pattern.

(** [setupNameUpdater()] and [setCurrentDate()], the features of the last
    step; [today] is [new Date().toISOString().split('T')[0]]. *)
Definition commitment_features (d : value) (today : string) (pg : page)
  : outcome page :=
  pg1 <-
    match getElementById pg "yourName", getElementById pg "pledgeName" with
    | Some nameInput, Some _ =>
        savedName <- JournalData.getField d "commitment" "yourName" (VStr "") ;;
        if truthy savedName then
          nameInput' <- set_value nameInput savedName ;;
          set_text (replace_node "yourName" nameInput' pg) "pledgeName" savedName
        else Ok pg
    | _, _ => Ok pg
    end ;;
  match getElementById pg1 "signatureDate" with
  | Some dateInput =>
      if negb (truthy (n_value dateInput)) then
        dateInput' <- set_value dateInput (VStr today) ;;
        Ok (replace_node "signatureDate" dateInput' pg1)
      else Ok pg1
  | None => Ok pg1
  end.

(** [renderSection(sectionId)]: the step is built on its first visit, then
    its features are set up.  The page has its main content element. *)
Definition renderSection (clk : clock) (d : value) (sectionId : string) (pg : page)
  : outcome page :=
  let pg1 :=
    match getElementById pg sectionId with
    | Some _ => pg
    | None => pg ++ div sectionId sectionId :: getSectionContent sectionId
    end in
  if String.eqb sectionId "mapping" then populateMapElements d pg1
  else if String.eqb sectionId "commitment" then
    commitment_features d (hd "" (JsString.split "T" (clk 0))) pg1
  else Ok pg1.

(** [showSection(sectionId)].  The highlighting of the navigation, the event
    and the scrolling are left out; when an exception leaves the method the
    state it leaves behind is not represented. *)
Definition showSection (clk : clock) (sectionId : string) (a : app) : outcome app :=
  if negb (mem_string sectionId ProgressTracker.sections) then Ok a
  else
    a1 <- saveCurrentSectionData clk a ;;
    let d1 := JournalData.data (journalData a1) in
    pg1 <- renderSection (later 1 clk) d1 sectionId (document a1) ;;
    match JournalData.saveCurrentSection sectionId (journalData a1) with
    | (Ok _, m2) =>
        let tracker2 := ProgressTracker.updateProgress sectionId (progressTracker a1) in
        pg2 <- populateSectionData (JournalData.data m2) sectionId pg1 ;;
        Ok (Application sectionId m2 pg2 tracker2)
    | (Throw e, _) => Throw e
    | (Stuck, _) => Stuck
    end.

(** The user types [text] into the form control [i]. *)
Definition type_into (i : string) (t : string) (a : app) : app :=
  Application (currentSection a) (journalData a)
    (match getElementById (document a) i with
     | Some element => replace_node i (with_value element (VStr t)) (document a)
     | None => document a
     end)
    (progressTracker a).

(** [element.value], read on the page. *)
Definition value_of (a : app) (i : string) : option value :=
  option_map n_value (getElementById (document a) i).

(** [loadCurrentSection()] *)
Definition loadCurrentSection (clk : clock) (a : app) : outcome app :=
  savedSection <- JournalData.getCurrentSection (JournalData.data (journalData a)) ;;
  let current :=
    match savedSection with
    | VStr s => if mem_string s ProgressTracker.sections then s
                else currentSection a
    | _ => currentSection a
    end in
  showSection clk current
    (Application current (journalData a) (document a) (progressTracker a)).

Definition with_tracker (a : app) (t : ProgressTracker.tracker) : app :=
  Application (currentSection a) (journalData a) (document a) t.

(** [navigateNext()] *)
Definition navigateNext (clk : clock) (a : app) : outcome app :=
  match ProgressTracker.goToNextSection (progressTracker a) with
  | (Some nextSection, t) => showSection clk nextSection (with_tracker a t)
  | (None, t) => Ok (with_tracker a t)
  end.

(** [navigatePrevious()] *)
Definition navigatePrevious (clk : clock) (a : app) : outcome app :=
  match ProgressTracker.goToPreviousSection (progressTracker a) with
  | (Some prevSection, t) => showSection clk prevSection (with_tracker a t)
  | (None, t) => Ok (with_tracker a t)
  end.

(** [handleFieldChange(field)] *)
Definition handleFieldChange (clk : clock) (field : node) (a : app) : outcome app :=
  if JsString.is_empty (n_id field) then Ok a
  else
    let v := if is_checkbox field then VBool (n_checked field)
             else n_value field in
    match JournalData.saveField clk (currentSection a) (n_id field) v
                                (journalData a) with
    | (Ok _, m) =>
        Ok (Application (currentSection a) m (document a) (progressTracker a))
    | (Throw e, _) => Throw e
    | (Stuck, _) => Stuck
    end.

End App.

(** * Notions used in the statements *)

(** ** Texts *)

Module TextNotions.
Import JsString.

Fixpoint has_unit (c : ascii) (s : string) : bool :=
  match s with
  | EmptyString => false
  | String c' r => (Ascii.eqb c' c || has_unit c r)%bool
  end.

Definition starts_white (s : string) : bool :=
  match s with
  | EmptyString => false
  | String c _ => is_white_space c
  end.

Fixpoint ends_white (s : string) : bool :=
  match s with
  | EmptyString => false
  | String c EmptyString => is_white_space c
  | String _ r => ends_white r
  end.

End TextNotions.
Import TextNotions.

(** ** Values *)

Module ValueNotions.
Import Js.

(** The own named properties of an object or of an array. *)
Definition own_props (v : value) : option props :=
  match v with
  | VObj ps => Some ps
  | VArr _ named => Some named
  | _ => None
  end.

(** The object or the array [v] with [ps] for its own named properties. *)
Definition with_props (v : value) (ps : props) : value :=
  match v with
  | VObj _ => VObj ps
  | VArr items _ => VArr items ps
  | other => other
  end.

Definition lookup_or_undefined (k : string) (ps : props) : value :=
  match lookup k ps with
  | Some x => x
  | None => VUndef
  end.

(** A key that is no index, not [length], and that no prototype knows. *)
Definition plain_key (k : string) : bool :=
  match index_of_key k with
  | Some _ => false
  | None =>
      (negb (String.eqb k "length") && negb (String.eqb k "__proto__")
       && negb (mem_string k object_prototype_names)
       && mem_string k plain_names)%bool
  end.

End ValueNotions.
Import ValueNotions.

(** ** Documents *)

Module DocumentNotions.
Import Js JournalData.

(** A clock that always reads the same instant, and the manager of a journal
    that has just been created, for the examples. *)
Definition still_clock : clock := fun _ => "2026-01-01T00:00:00.000Z".

Definition fresh_manager : manager :=
  Manager (getDefaultDataStructure still_clock) true None None false [].

(** A record that has the four keys the shape check asks for, with [null]
    where the metadata should be. *)
Definition headless_document : value :=
  VObj [ ("metadata", VNull); ("focus", VObj []); ("influences", VObj []);
         ("connections", VObj []) ].


(** A journal of an older shape: some fields only, and a step the default
    structure does not know. *)
Definition legacy_document : value :=
  VObj [ ("metadata", VObj [ ("version", VStr "0.9") ]);
         ("focus", VObj [ ("wantMore", VStr "more calm") ]);
         ("influences", VObj []);
         ("connections", VObj []);
         ("notes", VObj [ ("first", VStr "a note") ]) ].

(** The keys of the default structure: each step with its fields. *)
Definition default_shape : list (string * list string) :=
  match getDefaultDataStructure still_clock with
  | VObj secs =>
      map (fun kv => (fst kv, match snd kv with
                              | VObj fs => keys fs
                              | _ => []
                              end))
          secs
  | _ => []
  end.

Definition is_default_section (k : string) : bool :=
  mem_string k (map fst default_shape).


(** A flat mapping: a record none of whose fields holds a record. *)
Definition flat_field (kv : string * value) : bool :=
  (negb (is_plain_object (snd kv)) && negb (String.eqb (fst kv) "__proto__"))%bool.

Definition flat_mapping (v : value) : bool :=
  match v with
  | VObj fs => forallb flat_field fs
  | _ => false
  end.

Fixpoint distinct (l : list string) : bool :=
  match l with
  | [] => true
  | k :: r => (negb (mem_string k r) && distinct r)%bool
  end.

(** A top-level entry of a partial document: its key is no member of
    [Object.prototype]; it holds a flat mapping, or, under a key the default
    structure does not know, a value that is no record. *)
Definition entry_ok (kv : string * value) : bool :=
  (negb (mem_string (fst kv) object_prototype_names)
   && (flat_mapping (snd kv)
       || (negb (is_default_section (fst kv))
           && negb (is_plain_object (snd kv)))))%bool.

(** A partial document: a record with distinct keys whose entries are as
    above. *)
Definition partial_document (stored : value) : bool :=
  match stored with
  | VObj ps => (distinct (keys ps) && forallb entry_ok ps)%bool
  | _ => false
  end.

(** The seven anchor fields, by step and field. *)
Definition anchors : list (string * string) :=
  [ ("focus", "wantMore"); ("influences", "energyGivers");
    ("influences", "energyDrainers"); ("connections", "ahaReflection");
    ("patterns", "keyLearning"); ("goals", "goalStatement");
    ("commitment", "commitmentText") ].

Definition path_of (a : string * string) : string :=
  (fst a ++ "." ++ snd a)%string.

(** What is stored for a field of a step, [dflt] when nothing is: the field
    is an own property of the record of the step. *)
Definition member_or (sec : value) (f : string) (dflt : value) : value :=
  match own_props sec with
  | Some fs =>
      if has_key "hasOwnProperty" fs then dflt
      else match lookup f fs with
           | Some x => x
           | None => dflt
           end
  | None => dflt
  end.

Definition field_of (d : value) (s f : string) (dflt : value) : value :=
  match own_props d with
  | Some ps =>
      match lookup s ps with
      | Some sec => member_or sec f dflt
      | None => dflt
      end
  | None => dflt
  end.

(** An anchor field counts when a text with something else than white space
    is stored for it. *)
Definition filled_at (d : value) (a : string * string) : bool :=
  is_filled (field_of d (fst a) (snd a) (VStr "")).

Definition filled_count (d : value) : nat :=
  List.length (filter (filled_at d) anchors).

(** The percentage for [k] anchor fields out of seven. *)
Definition percent_of (k : nat) : float :=
  JsMath.round (JsMath.of_nat k / JsMath.of_nat 7 * 100)%float.

(** The journal in which each anchor field holds an answer. *)
Definition answered_manager : manager :=
  fold_left (fun m a => snd (saveField still_clock (fst a) (snd a)
                                       (VStr "an answer") m))
            anchors fresh_manager.

(** The journal in which each anchor field holds one space. *)
Definition spaced_manager : manager :=
  fold_left (fun m a => snd (saveField still_clock (fst a) (snd a) (VStr " ") m))
            anchors fresh_manager.

(** The document [d2] is [d] after [value] has been assigned to the field
    [f] of the step [s]. *)
Definition assigned (d : value) (s f : string) (v : value) (d2 : value) : Prop :=
  exists ps,
    own_props d = Some ps
    /\ ((exists sec fs,
            lookup s ps = Some sec /\ own_props sec = Some fs
            /\ d2 = with_props d (upsert s (with_props sec (upsert f v fs)) ps))
        \/ (truthy (lookup_or_undefined s ps) = false
            /\ d2 = with_props d (upsert s (VObj [(f, v)])
                                         (upsert s (VObj []) ps)))).

End DocumentNotions.
Import DocumentNotions.

(** ** The layout of the diagram, in the words of the specification *)

Module LayoutNotions.
Import Js MappingSystem.

(** The elements of a group: the item of index [i] among [n] sits on the
    radius around the centre, at the angle [base + i * (2 * pi / n)]. *)
Definition placed (c : canvas) (prefix type : string) (base : float)
    (items : list string) : list element :=
  for_each_indexed
    (fun item index =>
       Element (prefix ++ JsString.of_nat index)%string (VStr item) type
               (Around (centerX c) (centerY c)
                       (base + JsMath.of_nat index
                               * (2 * JsMath.PI / JsMath.of_nat (List.length items)))%float
                       radius)
               100 50 true)
    0 items.

(** The element of the pattern, up and to the right of the centre. *)
Definition pattern_element (c : canvas) (pattern : value) : element :=
  Element "pattern" pattern "pattern"
          (At (centerX c + 140)%float (centerY c - 100)%float) 120 50 true.

End LayoutNotions.
Import LayoutNotions.

(** ** The journey of the specification *)

Module JourneyNotions.
Import Js App.

(** The application when it starts on an empty storage. *)
Definition new_app (clk : clock) : app :=
  Application "welcome"
    (JournalData.Manager (JournalData.getDefaultDataStructure clk)
                         true None None false [])
    [] (ProgressTracker.Tracker 0 []).

(** The application starts and shows the welcome step; the user goes to the
    focus step, types an answer to what they want more of, and goes to the
    mapping step. *)
Definition journey (clk : clock) (wantMore : string) : outcome app :=
  a1 <- showSection clk "welcome" (new_app clk) ;;
  a2 <- showSection clk "focus" a1 ;;
  showSection clk "mapping" (type_into "wantMore" wantMore a2).

End JourneyNotions.
Import JourneyNotions.

(** ** The answer of the text service *)

Module AnswerNotions.
Import Js AIIntegration.

Definition follow (v : option value) (k : string) : option value :=
  match v with
  | Some x => match get x k with
              | Ok y => Some y
              | _ => None
              end
  | None => None
  end.

(** The text found at [candidates[0].content.parts[0].text] of a body, when
    the path leads to a string. *)
Definition text_at (d : value) : option string :=
  match follow (follow (follow (follow (follow (follow (Some d)
          "candidates") "0") "content") "parts") "0") "text" with
  | Some (VStr s) => Some s
  | _ => None
  end.

(** An answer from which no text can be taken: the network fails, the
    status is not a success, the body does not parse, or the path to the
    text is missing. *)
Definition unusable (net : answer) : Prop :=
  match net with
  | NetworkFailure => True
  | Response ok _ _ body =>
      ok = false
      \/ match body with
         | Utils.JsonText None => True
         | Utils.JsonText (Some d) => text_at d = None
         end
  end.

End AnswerNotions.
Import AnswerNotions.

(** ** Journals that take answers *)

Module RecordNotions.
Import Js JournalData.

(** A journal whose metadata is a record. *)
Definition has_metadata (d : value) : bool :=
  match d with
  | VObj ps =>
      match lookup "metadata" ps with
      | Some (VObj _) => true
      | _ => false
      end
  | _ => false
  end.


(** The last modification a journal records. *)
Definition lastModified_of (d : value) : outcome value :=
  metadata <- get d "metadata" ;; get metadata "lastModified".

(** The four keys the shape check asks for. *)
Definition has_four_keys (ps : props) : bool :=
  (has_key "metadata" ps && has_key "focus" ps && has_key "influences" ps
   && has_key "connections" ps)%bool.

(** What a storage slot holds does not pass for a journal: the slot is
    empty, its item does not parse, or it parses to a value that is neither
    a record nor an array, or to one that lacks one of the four keys. *)
Definition no_journal (item : option Utils.json_text) : bool :=
  match item with
  | None => true
  | Some (Utils.JsonText None) => true
  | Some (Utils.JsonText (Some v)) =>
      match own_props v with
      | Some ps =>
          (negb (has_key "hasOwnProperty" ps) && negb (has_four_keys ps))%bool
      | None => true
      end
  end.

(** The record [sec] after the fields of [fs] have been assigned to it one
    after the other. *)
Definition assign_all (fs sec : props) : props :=
  fold_left (fun acc kv => upsert (fst kv) (snd kv) acc) fs sec.

(** The record a step has in a record of steps, empty when it has none. *)
Definition section_of (tps : props) (k : string) : props :=
  match lookup k tps with
  | Some (VObj sec) => sec
  | _ => []
  end.

End RecordNotions.
Import RecordNotions.

(** ** Trackers in order *)

Module TrackerNotions.
Import Js ProgressTracker.

(** A tracker in order: its index is the one of a step, and its ledger
    holds no key twice. *)
Definition in_order (t : tracker) : bool :=
  (Nat.ltb (currentSectionIndex t) (List.length sections)
   && distinct (completedSections t))%bool.

(** The tracker a new [ProgressTracker] starts from on an empty storage. *)
Definition new_tracker : tracker := Tracker 0 [].


(** An entry of the summary is sound: no more fields filled than required,
    a percentage between 0 and 100, and 100 exactly when every required
    field is filled. *)
Definition sound_entry (e : section_summary) : bool :=
  (Nat.leb (completed e) (total e)
   && PrimFloat.leb 0 (percentage e) && PrimFloat.leb (percentage e) 100
   && Bool.eqb (PrimFloat.eqb (percentage e) 100)
               (Nat.eqb (completed e) (total e)))%bool.

End TrackerNotions.
Import TrackerNotions.

(** ** The bounds of a drag *)

Module DragNotions.
Import Js MappingSystem.

Local Open Scope float_scope.



End DragNotions.
Import DragNotions.

(** ** Typing an answer and leaving the step *)

Module StepNotions.
Import Js App.

(** The controls of the template of a step that hold a text: the inputs
    that are no check boxes, the text areas and the selects. *)
Definition text_controls (s : string) : list string :=
  map n_id
      (filter (fun n => (is_form_control n && negb (is_checkbox n))%bool)
              (getSectionContent s)).

(** The application starts on an empty storage and shows the welcome step;
    the user goes to the step [s], types [t] into the control [i], and goes
    to the step [s']. *)
Definition visit_type_leave (clk : clock) (s i t s' : string) : outcome app :=
  a1 <- showSection clk "welcome" (new_app clk) ;;
  a2 <- showSection clk s a1 ;;
  showSection clk s' (type_into i t a2).


(** A check box of the group of the life areas. *)
Definition area_box (n : node) : bool :=
  (is_checkbox n && String.eqb (n_name n) "lifeAreas"
   && negb (JsString.is_empty (n_id n)))%bool.

End StepNotions.
Import StepNotions.

(** * Properties *)

(** ** Splitting and trimming *)

Section StringFacts.
Import JsString.

Lemma split_not_nil (sep : ascii) (s : string) : split sep s <> [].
Proof.
  destruct s as [|c r]; simpl; [discriminate|].
  destruct (Ascii.eqb c sep); [discriminate|].
  destruct (split sep r); discriminate.
Qed.

(** Joining the pieces with the separator gives the text back. *)
Lemma join_split (sep : ascii) (s : string) :
  join (String sep EmptyString) (split sep s) = s.
Proof.
  unfold join.
  induction s as [|c r IH]; simpl; [reflexivity|].
  destruct (Ascii.eqb c sep) eqn:E.
  - apply Ascii.eqb_eq in E; subst c.
    destruct (split sep r) as [|p ps] eqn:S; [now apply split_not_nil in S|].
    cbn [String.concat]. simpl. now rewrite <- IH.
  - destruct (split sep r) as [|p ps] eqn:S; [now apply split_not_nil in S|].
    rewrite <- IH. destruct ps; reflexivity.
Qed.

(** No piece holds the separator. *)
Lemma split_pieces (sep : ascii) (s : string) :
  Forall (fun piece => has_unit sep piece = false) (split sep s).
Proof.
  induction s as [|c r IH]; simpl.
  - now constructor.
  - destruct (Ascii.eqb c sep) eqn:E.
    + now constructor.
    + destruct (split sep r) as [|p ps]; inversion IH; subst;
        constructor; simpl; try rewrite E; auto.
Qed.

Lemma trimStart_starts (s : string) : starts_white (trimStart s) = false.
Proof.
  induction s as [|c r IH]; simpl; [reflexivity|].
  destruct (is_white_space c) eqn:E; [exact IH | simpl; exact E].
Qed.

Lemma trimEnd_ends (s : string) : ends_white (trimEnd s) = false.
Proof.
  induction s as [|c r IH]; simpl; [reflexivity|].
  destruct (trimEnd r) as [|c' r'] eqn:T.
  - destruct (is_white_space c) eqn:E; simpl; [reflexivity | exact E].
  - rewrite andb_false_r. exact IH.
Qed.

Lemma trimEnd_starts (s : string) :
  starts_white s = false -> starts_white (trimEnd s) = false.
Proof.
  destruct s as [|c r]; simpl; [reflexivity|].
  intros E. rewrite E. simpl. exact E.
Qed.

Lemma trimStart_units (c : ascii) (s : string) :
  has_unit c s = false -> has_unit c (trimStart s) = false.
Proof.
  induction s as [|c' r IH]; simpl; [reflexivity|].
  intros H. apply orb_false_iff in H as [H1 H2].
  destruct (is_white_space c'); [auto | simpl; now rewrite H1, H2].
Qed.

Lemma trimEnd_units (c : ascii) (s : string) :
  has_unit c s = false -> has_unit c (trimEnd s) = false.
Proof.
  induction s as [|c' r IH]; simpl; [reflexivity|].
  intros H. apply orb_false_iff in H as [H1 H2].
  destruct (is_white_space c' && is_empty (trimEnd r))%bool; [reflexivity|].
  simpl. rewrite H1. now apply IH.
Qed.

(** What [trim] returns has no white space at either end, and only units of
    the text it was given. *)
Lemma trim_trimmed (s : string) :
  starts_white (trim s) = false /\ ends_white (trim s) = false.
Proof.
  unfold trim. split.
  - apply trimEnd_starts, trimStart_starts.
  - apply trimEnd_ends.
Qed.

Lemma trim_units (c : ascii) (s : string) :
  has_unit c s = false -> has_unit c (trim s) = false.
Proof. intros H. unfold trim. now apply trimEnd_units, trimStart_units. Qed.

End StringFacts.

(** ** The parsing rule of the list fields *)

Section ParsingRule.
Import Js JsString MappingSystem.

Lemma parseInfluenceText_string (s : string) :
  parseInfluenceText (VStr s)
  = firstn 4 (filter (fun item => negb (is_empty item)) (map trim (split "," s))).
Proof.
  unfold parseInfluenceText.
  assert (F : forall l, filter (fun item => Nat.ltb 0 (String.length item)) l
                        = filter (fun item => negb (is_empty item)) l).
  { intros l. apply filter_ext. now intros [|c r]. }
  rewrite F.
  destruct s as [|c r]; reflexivity.
Qed.

Lemma parseInfluenceText_other (v : value) :
  typeof v <> "string" -> parseInfluenceText v = [].
Proof.
  intros H. unfold parseInfluenceText.
  destruct v; cbn [typeof String.eqb Ascii.eqb Bool.eqb negb];
    rewrite ?orb_true_r; try reflexivity.
  now elim H.
Qed.

Lemma in_firstn {A : Type} (n : nat) (l : list A) (x : A) :
  In x (firstn n l) -> In x l.
Proof.
  intros H. rewrite <- (firstn_skipn n l). apply in_or_app. now left.
Qed.

Lemma parseInfluenceText_items (v : value) :
  Forall (fun item => is_empty item = false
                      /\ starts_white item = false
                      /\ ends_white item = false
                      /\ has_unit "," item = false)
         (parseInfluenceText v).
Proof.
  destruct v; try (rewrite parseInfluenceText_other by discriminate; constructor).
  rewrite parseInfluenceText_string.
  apply Forall_forall. intros item Hin.
  apply in_firstn in Hin.
  apply filter_In in Hin as [Hin Hne].
  apply in_map_iff in Hin as [piece [<- Hp]].
  pose proof (split_pieces "," s) as Hs.
  rewrite Forall_forall in Hs. specialize (Hs _ Hp).
  destruct (trim_trimmed piece) as [H1 H2].
  repeat split; auto.
  - now apply negb_true_iff.
  - now apply trim_units.
Qed.

Lemma parseInfluenceText_length (v : value) :
  List.length (parseInfluenceText v) <= 4.
Proof.
  destruct v;
    try (rewrite parseInfluenceText_other by discriminate; simpl; lia).
  rewrite parseInfluenceText_string. apply firstn_le_length.
Qed.

(** C6: [parseInfluenceText] splits its text on commas, trims each piece,
    drops the empty ones and keeps the first four: at most four items come
    out, none is empty, none has white space at an end or holds a comma; and
    [parseInfluenceText("a, b,,  c ,d,e")] is [["a","b","c","d"]]. *)
Theorem C6_parseInfluenceText_rule :
  (forall s,
      parseInfluenceText (VStr s)
      = firstn 4 (filter (fun item => negb (is_empty item))
                         (map trim (split "," s))))
  /\ (forall v, List.length (parseInfluenceText v) <= 4)
  /\ (forall v,
         Forall (fun item => is_empty item = false
                             /\ starts_white item = false
                             /\ ends_white item = false
                             /\ has_unit "," item = false)
                (parseInfluenceText v))
  /\ parseInfluenceText (VStr "a, b,,  c ,d,e") = ["a"; "b"; "c"; "d"].
Proof.
  split; [exact parseInfluenceText_string|].
  split.
  - exact parseInfluenceText_length.
  - split; [exact parseInfluenceText_items | reflexivity].
Qed.

(** C10: a text that is [null], [undefined] or no string at all parses to
    the empty list, nothing is thrown; the fallback rendering of such a text
    is empty, the diagram gets no element for it, and mapping data without
    the list fields give the focus element alone. *)
Theorem C10_parse_total_on_non_strings (v : value) :
  typeof v <> "string" ->
  parseInfluenceText v = []
  /\ (forall type prefix, createFallbackElements v type prefix = EmptyString)
  /\ (forall c, createSurroundingElements c v v VUndef = Ok [])
  /\ (forall c focus,
         generateMap_elements c (VObj [("mapFocus", focus)])
         = Ok [createFocusElement c (or_else focus (VStr "Your Focus"))]).
Proof.
  intros H.
  assert (P : parseInfluenceText v = []) by now apply parseInfluenceText_other.
  split; [exact P|]. split; [|split].
  - intros type prefix. unfold createFallbackElements.
    rewrite P. now destruct (truthy v).
  - intros c. unfold createSurroundingElements. now rewrite P.
  - intros c focus. reflexivity.
Qed.

Lemma C10_witness :
  parseInfluenceText VNull = []
  /\ (forall type prefix, createFallbackElements VNull type prefix = EmptyString)
  /\ (forall c, createSurroundingElements c VNull VNull VUndef = Ok [])
  /\ (forall c focus,
         generateMap_elements c (VObj [("mapFocus", focus)])
         = Ok [createFocusElement c (or_else focus (VStr "Your Focus"))]).
Proof.
  apply (C10_parse_total_on_non_strings VNull). simpl. discriminate.
Defined.

End ParsingRule.

(** ** Reading and assigning properties *)

Section PropertyFacts.
Import Js.

Lemma lookup_upsert_same (k : string) (x : value) (ps : props) :
  lookup k (upsert k x ps) = Some x.
Proof.
  induction ps as [|[k' v'] r IH]; simpl.
  - now rewrite String.eqb_refl.
  - destruct (String.eqb k k') eqn:E; simpl.
    + now rewrite String.eqb_refl.
    + now rewrite E.
Qed.

Lemma lookup_upsert_other (k k' : string) (x : value) (ps : props) :
  k' <> k -> lookup k' (upsert k x ps) = lookup k' ps.
Proof.
  intros N. induction ps as [|[k0 v0] r IH]; simpl.
  - apply String.eqb_neq in N. now rewrite N.
  - destruct (String.eqb k k0) eqn:E; simpl.
    + apply String.eqb_eq in E; subst k0.
      apply String.eqb_neq in N. now rewrite N.
    + destruct (String.eqb k' k0); [reflexivity | exact IH].
Qed.


Lemma has_key_upsert_other (k k' : string) (x : value) (ps : props) :
  k' <> k -> has_key k' (upsert k x ps) = has_key k' ps.
Proof. intros N. unfold has_key. now rewrite lookup_upsert_other. Qed.


(** An assignment that succeeds changes what a read of another key finds in
    nothing. *)
Lemma get_after_set_other (v v' x : value) (k k' : string) :
  set v k x = Ok v' -> k' <> k -> get v' k' = get v k'.
Proof.
  intros S N. destruct v; simpl in S; try discriminate.
  - destruct (String.eqb k "__proto__"); discriminate.
  - destruct (String.eqb k "__proto__"); discriminate.
  - destruct (String.eqb k "__proto__"); discriminate.
  - destruct (String.eqb k "__proto__"); [discriminate|].
    destruct (index_of_key k); [discriminate|].
    destruct (String.eqb k "length"); [discriminate|].
    injection S as <-. simpl.
    destruct (index_of_key k'); [reflexivity|].
    destruct (String.eqb k' "length"); [reflexivity|].
    now rewrite lookup_upsert_other.
  - destruct (String.eqb k "__proto__"); [discriminate|].
    injection S as <-. simpl. now rewrite lookup_upsert_other.
Qed.

Lemma get_after_set_same (v v' x : value) (k : string) :
  set v k x = Ok v' -> get v' k = Ok x.
Proof.
  intros S. destruct v; simpl in S; try discriminate.
  - destruct (String.eqb k "__proto__"); discriminate.
  - destruct (String.eqb k "__proto__"); discriminate.
  - destruct (String.eqb k "__proto__"); discriminate.
  - destruct (String.eqb k "__proto__"); [discriminate|].
    destruct (index_of_key k) eqn:I; [discriminate|].
    destruct (String.eqb k "length") eqn:L; [discriminate|].
    injection S as <-. simpl. rewrite I, L. now rewrite lookup_upsert_same.
  - destruct (String.eqb k "__proto__"); [discriminate|].
    injection S as <-. simpl. now rewrite lookup_upsert_same.
Qed.

(** The same for a change seen through a reference held under a key that is
    no index. *)
Lemma get_seen_through_other (v x : value) (k k' : string) :
  index_of_key k = None -> k' <> k ->
  get (seen_through v k x) k' = get v k'.
Proof.
  intros I N. destruct v; simpl; try reflexivity.
  - rewrite I. simpl.
    destruct (index_of_key k'); [reflexivity|].
    destruct (String.eqb k' "length"); [reflexivity|].
    now rewrite lookup_upsert_other.
  - now rewrite lookup_upsert_other.
Qed.

Lemma get_seen_through_same (v x : value) (k : string) :
  index_of_key k = None -> String.eqb k "length" = false ->
  own_props v <> None ->
  get (seen_through v k x) k = Ok x.
Proof.
  intros I L O. destruct v; simpl in *; try (now elim O).
  - rewrite I. simpl. rewrite I, L. now rewrite lookup_upsert_same.
  - now rewrite lookup_upsert_same.
Qed.

(** What a read of a plain key finds. *)
Lemma get_plain (v : value) (k : string) :
  plain_key k = true ->
  get v k = match v with
            | VUndef | VNull => Throw TypeError
            | _ => Ok (match own_props v with
                       | Some ps => match lookup k ps with
                                    | Some x => x
                                    | None => VUndef
                                    end
                       | None => VUndef
                       end)
            end.
Proof.
  unfold plain_key. intros P.
  destruct (index_of_key k) eqn:I; [discriminate|].
  apply andb_true_iff in P as [P P4]. apply andb_true_iff in P as [P P3].
  apply andb_true_iff in P as [P1 P2].
  apply negb_true_iff in P1, P2, P3.
  destruct v; cbn -[mem_string]; unfold inherited;
    rewrite ?I, ?P1, ?P3, ?P4; try reflexivity.
  - destruct (lookup k named); reflexivity.
  - destruct (lookup k props0); reflexivity.
Qed.

(** What an assignment to a plain key does. *)
Lemma set_plain (v x : value) (k : string) :
  plain_key k = true ->
  set v k x = match v with
              | VObj ps => Ok (VObj (upsert k x ps))
              | VArr items named => Ok (VArr items (upsert k x named))
              | _ => Throw TypeError
              end.
Proof.
  unfold plain_key. intros P.
  destruct (index_of_key k) eqn:I; [discriminate|].
  apply andb_true_iff in P as [P P4]. apply andb_true_iff in P as [P P3].
  apply andb_true_iff in P as [P1 P2].
  apply negb_true_iff in P1, P2, P3.
  destruct v; simpl; rewrite ?I, ?P1, ?P2; reflexivity.
Qed.

Lemma seen_through_plain (v x : value) (k : string) :
  plain_key k = true ->
  seen_through v k x = match v with
                       | VObj ps => VObj (upsert k x ps)
                       | VArr items named => VArr items (upsert k x named)
                       | other => other
                       end.
Proof.
  unfold plain_key. intros P.
  destruct (index_of_key k) eqn:I; [discriminate|].
  destruct v; simpl; rewrite ?I; reflexivity.
Qed.

Lemma own_props_with_props (v : value) (ps ps' : props) :
  own_props v = Some ps -> own_props (with_props v ps') = Some ps'.
Proof. destruct v; simpl; intros H; try discriminate; reflexivity. Qed.

Lemma get_own (v : value) (k : string) (ps : props) :
  plain_key k = true -> own_props v = Some ps ->
  get v k = Ok (lookup_or_undefined k ps).
Proof.
  intros P O. rewrite get_plain by exact P.
  destruct v; simpl in O; try discriminate; injection O as <-; reflexivity.
Qed.

Lemma set_own (v x : value) (k : string) (ps : props) :
  plain_key k = true -> own_props v = Some ps ->
  set v k x = Ok (with_props v (upsert k x ps)).
Proof.
  intros P O. rewrite set_plain by exact P.
  destruct v; simpl in O; try discriminate; injection O as <-; reflexivity.
Qed.

Lemma set_not_own (v x : value) (k : string) :
  plain_key k = true -> own_props v = None -> set v k x = Throw TypeError.
Proof.
  intros P O. rewrite set_plain by exact P.
  destruct v; simpl in O; try discriminate; reflexivity.
Qed.

Lemma seen_through_own (v x : value) (k : string) (ps : props) :
  plain_key k = true -> own_props v = Some ps ->
  seen_through v k x = with_props v (upsert k x ps).
Proof.
  intros P O. rewrite seen_through_plain by exact P.
  destruct v; simpl in O; try discriminate; injection O as <-; reflexivity.
Qed.

End PropertyFacts.

(** ** Navigation leaves the answers alone *)

Section NavigationFrame.
Import Js JournalData.

(** C9: [saveCurrentSection] changes [metadata.currentSection] and nothing
    else of the document: every step of the document reads as before, and so
    does every field of [metadata] but [currentSection] ([created], [version]
    and [lastModified] among them); the storage, the time of the last save
    and the events dispatched are as before too.  The call returns or throws:
    it never leaves the part of the language the embedding follows. *)
Theorem C9_saveCurrentSection_frame (currentSection : string) (m : manager) :
  let m' := snd (saveCurrentSection currentSection m) in
  (forall section,
      section <> "metadata" -> get (data m') section = get (data m) section)
  /\ (forall field,
         field <> "currentSection" ->
         (metadata <- get (data m') "metadata" ;; get metadata field)
         = (metadata <- get (data m) "metadata" ;; get metadata field))
  /\ lastSaved m' = lastSaved m
  /\ slot m' = slot m
  /\ events m' = events m
  /\ fst (saveCurrentSection currentSection m) <> Stuck.
Proof.
  assert (Same : forall d md : value,
             get d "metadata" = Ok md ->
             (forall section, section <> "metadata" -> get d section = get d section)
             /\ (forall field, field <> "currentSection" ->
                   (metadata <- get d "metadata" ;; get metadata field)
                   = get md field)).
  { intros d md G. split; [reflexivity|]. intros field _. now rewrite G. }
  unfold saveCurrentSection.
  destruct (get (data m) "metadata") as [md| |] eqn:G; cbn [bind].
  3: { exfalso. rewrite get_plain in G by reflexivity.
       destruct (data m); discriminate. }
  2: { cbn [snd fst]. rewrite G. cbn [bind].
       split; [reflexivity | split; [reflexivity|]].
       repeat split; try reflexivity. discriminate. }
  destruct (set md "currentSection" (VStr currentSection)) as [md'| |] eqn:S;
    cbn [bind snd fst].
  3: { exfalso. rewrite set_plain in S by reflexivity.
       destruct md; discriminate. }
  2: { destruct (Same _ _ G) as [S1 S2].
       split; [exact S1 | split; [exact S2|]].
       repeat split; try reflexivity. discriminate. }
  split; [|split; [|repeat split; try reflexivity; discriminate]].
  - intros section N. now apply get_seen_through_other.
  - intros field N.
    assert (O : own_props (data m) <> None).
    { rewrite get_plain in G by reflexivity.
      rewrite set_plain in S by reflexivity.
      destruct (data m); simpl in *; try discriminate;
        injection G as <-; discriminate. }
    cbn [data debouncedSave with_data].
    rewrite get_seen_through_same by (auto; reflexivity).
    simpl.
    now apply (get_after_set_other md md' (VStr currentSection) "currentSection").
Qed.

Lemma C9_witness :
  get (data (snd (saveCurrentSection "focus" fresh_manager))) "focus"
  = get (data fresh_manager) "focus"
  /\ (metadata <- get (data (snd (saveCurrentSection "focus" fresh_manager)))
                      "metadata" ;;
      get metadata "lastModified")
     = (metadata <- get (data fresh_manager) "metadata" ;;
        get metadata "lastModified").
Proof.
  split.
  - apply (proj1 (C9_saveCurrentSection_frame "focus" fresh_manager)).
    discriminate.
  - apply (proj1 (proj2 (C9_saveCurrentSection_frame "focus" fresh_manager))).
    discriminate.
Defined.

(** By contrast, a field save that succeeds stamps [lastModified] with the
    time of the call. *)
Lemma saveField_stamps (clk : clock) (section fieldId : string) (v : value)
    (m m' : manager) :
  saveField clk section fieldId v m = (Ok true, m') ->
  (metadata <- get (data m') "metadata" ;; get metadata "lastModified")
  = Ok (VStr (clk 0)).
Proof.
  unfold saveField.
  destruct (get (data m) section) as [sec| |]; try discriminate.
  destruct (if truthy sec then Ok (data m) else set (data m) section (VObj []))
    as [d1| |]; try discriminate.
  destruct (sec1 <- get d1 section ;; set sec1 fieldId v) as [sec2| |];
    try discriminate.
  destruct (touch (clk 0) (seen_through d1 section sec2)) as [d3| |] eqn:T;
    try discriminate.
  intros E. injection E as <-. simpl.
  unfold touch in T.
  destruct (get (seen_through d1 section sec2) "metadata") as [md| |] eqn:G;
    try discriminate.
  simpl in T.
  destruct (set md "lastModified" (VStr (clk 0))) as [md'| |] eqn:S;
    try discriminate.
  injection T as <-.
  assert (O : own_props (seen_through d1 section sec2) <> None).
  { rewrite get_plain in G by reflexivity.
    rewrite set_plain in S by reflexivity.
    destruct (seen_through d1 section sec2); simpl in *; try discriminate;
      injection G as <-; discriminate. }
  rewrite get_seen_through_same by (auto; reflexivity).
  simpl. now apply get_after_set_same in S.
Qed.

End NavigationFrame.

(** ** The completion percentage *)

Section Completion.
Import Js JournalData.

Lemma own_props_truthy (v : value) (ps : props) :
  own_props v = Some ps -> truthy v = true.
Proof. destruct v; simpl; congruence. Qed.

Lemma plain_key_facts (k : string) :
  plain_key k = true ->
  index_of_key k = None /\ String.eqb k "length" = false
  /\ String.eqb k "__proto__" = false
  /\ mem_string k object_prototype_names = false
  /\ mem_string k plain_names = true.
Proof.
  unfold plain_key. intros P.
  destruct (index_of_key k); [discriminate|].
  apply andb_true_iff in P as [P P4]. apply andb_true_iff in P as [P P3].
  apply andb_true_iff in P as [P1 P2].
  apply negb_true_iff in P1, P2, P3. auto.
Qed.

(** Reading a field of the record of a step, as [getField] does. *)
Lemma member_read (sec : value) (f : string) (dflt : value) :
  plain_key f = true ->
  try_catch
    (if truthy sec then
       own <- hasOwnProperty sec f ;;
       if own then get sec f else Ok dflt
     else Ok dflt)
    (fun _ => Ok dflt)
  = Ok (member_or sec f dflt).
Proof.
  intros P. destruct (plain_key_facts f P) as (I & L & _ & _ & _).
  unfold member_or.
  destruct sec as [| |b|n|s|items named|fs];
    cbn [truthy own_props hasOwnProperty bind try_catch]; try reflexivity.
  - destruct b; reflexivity.
  - destruct (negb _); reflexivity.
  - rewrite I, L. destruct (negb _); reflexivity.
  - rewrite I, L. cbn [orb].
    destruct (has_key "hasOwnProperty" named); [reflexivity|].
    cbn [bind]. unfold has_key.
    destruct (lookup f named) eqn:E; [|reflexivity].
    cbn [get]. rewrite I, L, E. reflexivity.
  - destruct (has_key "hasOwnProperty" fs); [reflexivity|].
    cbn [bind]. unfold has_key.
    destruct (lookup f fs) eqn:E; [|reflexivity].
    cbn [get]. rewrite E. reflexivity.
Qed.

(** [getField] on plain keys is [field_of]: it returns, whatever the
    document is. *)
Lemma getField_plain (d : value) (s f : string) (dflt : value) :
  plain_key s = true -> plain_key f = true ->
  getField d s f dflt = Ok (field_of d s f dflt).
Proof.
  intros Ps Pf. unfold getField, field_of.
  rewrite (get_plain d s Ps).
  destruct d as [| |b|n|t|items named|ps]; cbn [own_props bind try_catch];
    try reflexivity;
    try (rewrite (member_read VUndef f dflt Pf); reflexivity).
  - rewrite member_read by exact Pf. now destruct (lookup s named).
  - rewrite member_read by exact Pf. now destruct (lookup s ps).
Qed.

Lemma anchors_plain (a : string * string) :
  In a anchors ->
  plain_key (fst a) = true /\ plain_key (snd a) = true
  /\ fst a <> "metadata" /\ snd a <> "hasOwnProperty".
Proof.
  unfold anchors. intros H.
  repeat (destruct H as [<-|H]; [repeat split; (reflexivity || discriminate)|]).
  destruct H.
Qed.

Lemma count_path_anchor (d : value) (n : nat) (a : string * string) :
  In a anchors ->
  count_path d n (path_of a) = Ok (if filled_at d a then S n else n).
Proof.
  intros H. destruct (anchors_plain a H) as (Ps & Pf & _).
  assert (S : JsString.split "." (path_of a) = [fst a; snd a]).
  { unfold anchors in H.
    repeat (destruct H as [<-|H]; [reflexivity|]). destruct H. }
  unfold count_path. rewrite S. rewrite getField_plain by assumption.
  reflexivity.
Qed.

Lemma count_paths_anchors (d : value) (l : list (string * string)) (n : nat) :
  incl l anchors ->
  count_paths d n (map path_of l) = Ok (n + List.length (filter (filled_at d) l)).
Proof.
  revert n. induction l as [|a r IH]; intros n I; simpl.
  - now rewrite Nat.add_0_r.
  - rewrite count_path_anchor by (apply I; now left). cbn [bind].
    rewrite IH by (intros x Hx; apply I; now right).
    destruct (filled_at d a); simpl; f_equal; lia.
Qed.

(** The percentage is the one of the number of anchor fields that count. *)
Lemma getCompletionPercentage_count (d : value) :
  getCompletionPercentage d = Ok (percent_of (filled_count d)).
Proof.
  unfold getCompletionPercentage.
  change requiredFields with (map path_of anchors).
  rewrite count_paths_anchors by apply incl_refl.
  reflexivity.
Qed.

Lemma filled_count_le (d : value) : filled_count d <= 7.
Proof. unfold filled_count. apply (filter_length_le (filled_at d) anchors). Qed.

Lemma percent_of_mono (j k : nat) :
  j <= k -> k <= 7 -> PrimFloat.leb (percent_of j) (percent_of k) = true.
Proof.
  intros H1 H2.
  do 8 (destruct k as [|k]; [do 8 (destruct j as [|j]; [reflexivity || lia|]); lia|]).
  lia.
Qed.

(** *** What a field save changes *)

Lemma touch_cases (now : string) (d d' : value) :
  touch now d = Ok d' ->
  exists ps md',
    own_props d = Some ps /\ d' = with_props d (upsert "metadata" md' ps).
Proof.
  unfold touch. intros T.
  destruct (own_props d) as [ps|] eqn:O.
  - rewrite (get_own d "metadata" ps) in T by (reflexivity || exact O).
    cbn [bind] in T.
    destruct (set (lookup_or_undefined "metadata" ps) "lastModified" (VStr now))
      as [md'| |]; try discriminate.
    cbn [bind] in T. injection T as <-.
    exists ps, md'. split; [reflexivity|].
    now apply seen_through_own.
  - rewrite get_plain in T by reflexivity.
    destruct d; simpl in O; try discriminate; cbn [bind own_props] in T;
      rewrite set_plain in T by reflexivity; discriminate.
Qed.

Lemma field_of_touch (now : string) (d d' : value) (s f : string) (dflt : value) :
  touch now d = Ok d' -> s <> "metadata" ->
  field_of d' s f dflt = field_of d s f dflt.
Proof.
  intros T N. destruct (touch_cases now d d' T) as (ps & md' & O & ->).
  unfold field_of. rewrite (own_props_with_props d ps _ O), O.
  now rewrite lookup_upsert_other.
Qed.

(** What [saveField] leaves in memory: the document as it was, the document
    with the field assigned, or the latter with its time stamp renewed. *)
Lemma saveField_cases (clk : clock) (s f : string) (v : value) (m : manager) :
  plain_key s = true -> plain_key f = true ->
  data (snd (saveField clk s f v m)) = data m
  \/ exists d2,
       assigned (data m) s f v d2
       /\ (data (snd (saveField clk s f v m)) = d2
           \/ touch (clk 0) d2 = Ok (data (snd (saveField clk s f v m)))).
Proof.
  intros Ps Pf. unfold saveField.
  destruct (own_props (data m)) as [ps|] eqn:O.
  - rewrite (get_own _ s ps Ps O).
    destruct (truthy (lookup_or_undefined s ps)) eqn:T.
    + rewrite (get_own _ s ps Ps O). cbn [bind].
      destruct (own_props (lookup_or_undefined s ps)) as [fs|] eqn:Os.
      * rewrite (set_own _ v f fs Pf Os).
        rewrite (seen_through_own _ _ s ps Ps O).
        right. eexists. split.
        { exists ps. split; [exact O|]. left.
          exists (lookup_or_undefined s ps), fs. repeat split; auto.
          unfold lookup_or_undefined in *. destruct (lookup s ps); [reflexivity|].
          discriminate. }
        destruct (touch (clk 0) _) as [d3| |] eqn:Tc; cbn [snd data with_data debouncedSave];
          [right; reflexivity | left; reflexivity |].
        (* the time stamp is a plain assignment: it is never stuck *)
        exfalso. unfold touch in Tc.
        rewrite (get_own _ "metadata" _ eq_refl
                   (own_props_with_props _ ps _ O)) in Tc.
        cbn [bind] in Tc. rewrite set_plain in Tc by reflexivity.
        destruct (lookup_or_undefined "metadata" _); discriminate.
      * rewrite (set_not_own _ v f Pf Os). now left.
    + rewrite (set_own _ (VObj []) s ps Ps O).
      rewrite (get_own _ s _ Ps (own_props_with_props _ ps _ O)).
      assert (Lk : lookup_or_undefined s (upsert s (VObj []) ps) = VObj []).
      { unfold lookup_or_undefined. now rewrite lookup_upsert_same. }
      rewrite Lk. cbn [bind].
      rewrite (set_own (VObj []) v f [] Pf eq_refl).
      change (with_props (VObj []) (upsert f v [])) with (VObj [(f, v)]).
      rewrite (seen_through_own _ _ s _ Ps (own_props_with_props _ ps _ O)).
      assert (E : with_props (with_props (data m) (upsert s (VObj []) ps))
                    (upsert s (VObj [(f, v)]) (upsert s (VObj []) ps))
                  = with_props (data m)
                      (upsert s (VObj [(f, v)]) (upsert s (VObj []) ps))).
      { destruct (data m); simpl in O; try discriminate; reflexivity. }
      rewrite E.
      right.
      exists (with_props (data m)
                (upsert s (VObj [(f, v)]) (upsert s (VObj []) ps))).
      split.
      { exists ps. split; [exact O|]. right. split; [exact T | reflexivity]. }
      destruct (touch (clk 0) _) as [d3| |] eqn:Tc; cbn [snd data with_data debouncedSave];
        [right; reflexivity | left; reflexivity |].
      exfalso. unfold touch in Tc.
      rewrite (get_own _ "metadata" _ eq_refl
                 (own_props_with_props _ ps _ O)) in Tc.
      cbn [bind] in Tc. rewrite set_plain in Tc by reflexivity.
      destruct (lookup_or_undefined "metadata" _); discriminate.
  - left. rewrite get_plain by exact Ps.
    destruct (data m) eqn:D; simpl in O; try discriminate;
      cbn [own_props truthy]; rewrite ?(set_plain _ (VObj []) s Ps);
      cbn [snd]; exact D.
Qed.

Lemma member_or_upsert (sec : value) (fs : props) (f f' : string)
    (v dflt : value) :
  own_props sec = Some fs -> f' <> f -> f <> "hasOwnProperty" ->
  member_or (with_props sec (upsert f v fs)) f' dflt = member_or sec f' dflt.
Proof.
  intros O N H. unfold member_or.
  rewrite (own_props_with_props sec fs _ O), O.
  rewrite has_key_upsert_other by (intros E; now symmetry in E).
  now rewrite lookup_upsert_other.
Qed.

(** The assignment changes the field assigned and no other. *)
Lemma field_of_assigned (d d2 : value) (s f s' f' : string) (v dflt : value) :
  assigned d s f v d2 -> f <> "hasOwnProperty" ->
  (s', f') <> (s, f) ->
  field_of d2 s' f' dflt = field_of d s' f' dflt.
Proof.
  intros (ps & O & A) H N. unfold field_of.
  destruct A as [(sec & fs & L & Os & ->) | (T & ->)];
    rewrite (own_props_with_props d ps _ O), O.
  - destruct (String.eqb s' s) eqn:E.
    + apply String.eqb_eq in E; subst s'.
      rewrite lookup_upsert_same, L.
      apply member_or_upsert; auto. intros ->. now elim N.
    + apply String.eqb_neq in E. now rewrite lookup_upsert_other.
  - destruct (String.eqb s' s) eqn:E.
    + apply String.eqb_eq in E; subst s'.
      rewrite lookup_upsert_same.
      assert (F : f' <> f) by (intros ->; now elim N).
      change (VObj [(f, v)]) with (with_props (VObj []) (upsert f v [])).
      rewrite (member_or_upsert (VObj []) [] f f' v dflt eq_refl F H).
      change (member_or (VObj []) f' dflt) with dflt.
      unfold lookup_or_undefined in T.
      destruct (lookup s ps) as [sec|]; [|reflexivity].
      unfold member_or. destruct (own_props sec) eqn:Os; [|reflexivity].
      apply own_props_truthy in Os. congruence.
    + apply String.eqb_neq in E. now rewrite !lookup_upsert_other.
Qed.

(** A field save changes what is stored for the anchor fields in nothing,
    but for the field saved. *)
Lemma saveField_other_anchor (clk : clock) (m : manager) (a a' : string * string)
    (v : value) :
  In a anchors -> In a' anchors -> a' <> a ->
  filled_at (data (snd (saveField clk (fst a) (snd a) v m))) a'
  = filled_at (data m) a'.
Proof.
  intros Ha Ha' N.
  destruct (anchors_plain a Ha) as (Ps & Pf & _ & Hf).
  destruct (anchors_plain a' Ha') as (_ & _ & Hm & _).
  unfold filled_at. f_equal.
  destruct (saveField_cases clk (fst a) (snd a) v m Ps Pf)
    as [-> | (d2 & A & [-> | T])]; [reflexivity | |].
  - apply (field_of_assigned _ _ _ _ _ _ _ _ A Hf).
    destruct a, a'; simpl. exact N.
  - rewrite (field_of_touch _ _ _ _ _ _ T Hm).
    apply (field_of_assigned _ _ _ _ _ _ _ _ A Hf).
    destruct a, a'; simpl. exact N.
Qed.

Lemma filter_length_mono {A : Type} (p q : A -> bool) (l : list A) :
  (forall x, In x l -> p x = true -> q x = true) ->
  List.length (filter p l) <= List.length (filter q l).
Proof.
  induction l as [|x r IH]; intros H; simpl; [lia|].
  assert (IH' := IH (fun y Hy => H y (or_intror Hy))).
  destruct (p x) eqn:P.
  - rewrite (H x (or_introl eq_refl) P). simpl. lia.
  - destruct (q x); simpl; lia.
Qed.

Lemma percentage_after_save (clk : clock) (m : manager) (a : string * string)
    (v : value) :
  In a anchors -> filled_at (data m) a = false ->
  PrimFloat.leb
    (percent_of (filled_count (data m)))
    (percent_of (filled_count (data (snd (saveField clk (fst a) (snd a) v m)))))
  = true.
Proof.
  intros Ha E. apply percent_of_mono; [|apply filled_count_le].
  unfold filled_count. apply filter_length_mono.
  intros a' Ha' F.
  destruct (string_dec (fst a') (fst a)) as [E1|N1].
  - destruct (string_dec (snd a') (snd a)) as [E2|N2].
    + assert (a' = a) by (destruct a, a'; simpl in *; congruence).
      subst a'. congruence.
    + rewrite saveField_other_anchor; auto. intros ->. now elim N2.
  - rewrite saveField_other_anchor; auto. intros ->. now elim N1.
Qed.

(** C5, as the code has it: the percentage is 0 for the default structure;
    it is 100 when each of the seven anchor fields holds a text with
    something else than white space in it; and saving any value into an
    anchor field that was empty does not lower it. *)
Theorem C5_completion_percentage :
  (forall clk : clock,
      getCompletionPercentage (getDefaultDataStructure clk) = Ok 0%float)
  /\ (forall d : value,
         (forall s f, In (s, f) anchors ->
                      exists t, getField d s f (VStr "") = Ok (VStr t)
                                /\ JsString.trim t <> EmptyString) ->
         getCompletionPercentage d = Ok 100%float)
  /\ (forall (clk : clock) (m : manager) (s f : string) (v : value),
         In (s, f) anchors ->
         getField (data m) s f (VStr "") = Ok (VStr "") ->
         exists p p',
           getCompletionPercentage (data m) = Ok p
           /\ getCompletionPercentage (data (snd (saveField clk s f v m))) = Ok p'
           /\ PrimFloat.leb p p' = true).
Proof.
  split; [|split].
  - intros clk. vm_compute. reflexivity.
  - intros d H. rewrite getCompletionPercentage_count.
    assert (C : filled_count d = 7).
    { unfold filled_count.
      assert (F : forall l, incl l anchors -> filter (filled_at d) l = l).
      { induction l as [|a r IH]; intros I; [reflexivity|]. simpl.
        assert (Ha : In a anchors) by (apply I; now left).
        destruct a as [s f]. destruct (H s f Ha) as (t & G & T).
        destruct (anchors_plain (s, f) Ha) as (Ps & Pf & _).
        rewrite getField_plain in G by assumption.
        injection G as G. unfold filled_at. cbn [fst snd]. rewrite G.
        assert (Fi : is_filled (VStr t) = true).
        { unfold is_filled. cbn [truthy typeof].
          destruct t as [|c t']; [now elim T|].
          destruct (JsString.trim (String c t')); [now elim T | reflexivity]. }
        rewrite Fi. f_equal. apply IH. intros x Hx. apply I. now right. }
      now rewrite F by apply incl_refl. }
    rewrite C. reflexivity.
  - intros clk m s f v Ha G.
    destruct (anchors_plain (s, f) Ha) as (Ps & Pf & _).
    rewrite getField_plain in G by assumption. injection G as G.
    exists (percent_of (filled_count (data m))).
    exists (percent_of (filled_count (data (snd (saveField clk s f v m))))).
    rewrite !getCompletionPercentage_count. repeat split.
    apply (percentage_after_save clk m (s, f) v Ha).
    unfold filled_at. cbn [fst snd]. now rewrite G.
Qed.

Lemma C5_witness :
  getCompletionPercentage (data answered_manager) = Ok 100%float
  /\ exists p p',
      getCompletionPercentage (data fresh_manager) = Ok p
      /\ getCompletionPercentage
           (data (snd (saveField still_clock "focus" "wantMore"
                                 (VStr "I want to feel less rushed")
                                 fresh_manager)))
         = Ok p'
      /\ PrimFloat.leb p p' = true.
Proof.
  split.
  - apply (proj1 (proj2 C5_completion_percentage)).
    intros s f H. unfold anchors in H.
    repeat (destruct H as [H|H];
            [injection H as <- <-; exists "an answer";
             split; [vm_compute; reflexivity | discriminate]|]).
    destruct H.
  - apply (proj2 (proj2 C5_completion_percentage)).
    + simpl. now left.
    + reflexivity.
Defined.

(** The claim of C5 fails where it takes a text that is not empty for a
    filled field: with one space in each of the seven anchor fields, all
    seven hold a string that is not empty, and the percentage is 0. *)
Lemma C5_blank_answers :
  forallb
    (fun a =>
       match getField (data spaced_manager) (fst a) (snd a) (VStr "") with
       | Ok (VStr t) => negb (JsString.is_empty t)
       | _ => false
       end)
    anchors
  = true
  /\ getCompletionPercentage (data spaced_manager) = Ok 0%float.
Proof. split; vm_compute; reflexivity. Qed.

End Completion.

(** ** Loading a stored journal *)

Section Loading.
Import Js JournalData.

Lemma lookup_not_in_keys (k : string) (ps : props) :
  mem_string k (keys ps) = false -> lookup k ps = None.
Proof.
  induction ps as [|[k' v] r IH]; simpl; [reflexivity|].
  intros H. apply orb_false_iff in H as [H1 H2].
  rewrite H1. now apply IH.
Qed.

Lemma mem_string_In (k : string) (l : list string) :
  mem_string k l = true <-> In k l.
Proof.
  unfold mem_string. rewrite existsb_exists. split.
  - intros (x & Hx & E). apply String.eqb_eq in E. now subst.
  - intros H. exists k. split; [exact H | apply String.eqb_refl].
Qed.










End Loading.

(** ** Importing a journal *)

Section ImportFacts.
Import Js JournalData.

(** A text that does not parse is refused, and the manager only gains the
    event that reports it. *)
Lemma importData_malformed (clk : clock) (write_ok merge : bool) (m : manager) :
  importData clk write_ok (FromText (Utils.JsonText None)) merge m
  = (Ok false, dispatch m (JournalImport "error" None)).
Proof. reflexivity. Qed.

(** A record that fails the shape check is refused in the same way. *)
Lemma importData_invalid (clk : clock) (write_ok merge : bool) (m : manager)
    (v : value) :
  validateDataStructure v = Ok false ->
  importData clk write_ok (FromText (Utils.JsonText (Some v))) merge m
  = (Ok false,
     dispatch m (JournalImport "error" (Some "Invalid data structure"))).
Proof. intros V. unfold importData. simpl. rewrite V. reflexivity. Qed.

(** A merging import that fails leaves the document as it was. *)
Lemma importData_merge_atomic (clk : clock) (write_ok : bool)
    (payload : import_arg) (m : manager) :
  fst (importData clk write_ok payload true m) = Ok false ->
  data (snd (importData clk write_ok payload true m)) = data m.
Proof.
  unfold importData.
  match goal with
  | |- context [match ?c with Ok _ => _ | Throw _ => _ | Stuck => _ end] =>
      destruct c as [imported| |]; try reflexivity
  end.
  destruct (mergeWithDefaults clk imported); try reflexivity.
  simpl. discriminate.
Qed.

(** C3, at the input where the code departs from it: a record that passes
    the shape check with [null] for its metadata, imported without merging.
    The import reports the failure ([false], an error event) and the
    document in memory is the imported record, not the one held before. *)
Theorem C3_failed_import_replaces_document :
  (forall (clk : clock) (write_ok : bool) (m : manager),
      importData clk write_ok
                 (FromText (Utils.JsonText (Some headless_document))) false m
      = (Ok false,
         dispatch (with_data m headless_document) (JournalImport "error" None)))
  /\ validateDataStructure headless_document = Ok true
  /\ data (snd (importData still_clock true
                           (FromText (Utils.JsonText (Some headless_document)))
                           false fresh_manager))
     <> data fresh_manager.
Proof.
  split; [reflexivity|]. split; [reflexivity|].
  simpl. unfold headless_document. intros H. injection H as H.
  discriminate.
Qed.

End ImportFacts.

(** ** The local progress of a step *)

Section LocalProgress.
Import Js ProgressTracker.

(** For a step that has required fields, the progress recomputed is the
    share of them whose composite key is in the ledger, times 100. *)
Lemma updateSectionProgress_ratio (t : tracker) (s : string)
    (requiredFields : list string) :
  getRequiredFieldsForSection s = Ok requiredFields ->
  requiredFields <> [] ->
  updateSectionProgress s t
  = Ok (JsMath.of_nat (List.length (completed_of t s requiredFields))
        / JsMath.of_nat (List.length requiredFields) * 100)%float.
Proof.
  intros R N. unfold updateSectionProgress. rewrite R. simpl.
  destruct requiredFields; [now elim N | reflexivity].
Qed.

(** C7, at the input where the code departs from it: for a step without an
    entry in the table of required fields ([mapping], [welcome]),
    [updateSectionProgress] recomputes 0, for every ledger, while
    [getCompletionSummary] reports 100 for the same step; a tracked edit of
    a field of the mapping step ends with the progress 0. *)
Theorem C7_no_required_fields_gives_zero (t : tracker) :
  updateSectionProgress "mapping" t = Ok 0%float
  /\ updateSectionProgress "welcome" t = Ok 0%float
  /\ (s <- summarize t "mapping" ;; Ok (percentage s)) = Ok 100%float
  /\ trackFieldCompletion (Field "leveragePoint" "a small change" true false)
                          (Tracker 4 (completedSections t))
     = Ok (Tracker 4 (set_add "mapping.leveragePoint" (completedSections t)),
           Some 0%float).
Proof. repeat split; reflexivity. Qed.

End LocalProgress.

(** ** The layout of the diagram *)

Section Layout.
Import Js MappingSystem.
Local Open Scope float_scope.

(** For a group of at most four items, the angle the source computes is the
    one of the specification, to the last bit. *)
Lemma giver_elements_placed (c : canvas) (items : list string) :
  List.length items <= 4 ->
  giver_elements c items = placed c "giver-" "positive" (- (JsMath.PI / 2)) items.
Proof.
  intros L.
  destruct items as [|a [|b [|d [|e [|f r]]]]]; try reflexivity.
  simpl in L. lia.
Qed.

Lemma drainer_elements_placed (c : canvas) (items : list string) :
  List.length items <= 4 ->
  drainer_elements c items = placed c "drainer-" "negative" (JsMath.PI / 2) items.
Proof.
  intros L.
  destruct items as [|a [|b [|d [|e [|f r]]]]]; try reflexivity.
  simpl in L. lia.
Qed.

(** C4, as the code has it: the items of a group (at most four, after
    parsing) sit on the radius 120 around the centre of the canvas, the item
    of index [i] among [n] at the angle [base + i * (2 * pi / n)], where
    [base] is a quarter turn before the horizontal ([- pi / 2], the top) for
    the positive items and a quarter turn after it ([pi / 2], the bottom) for
    the negative ones; the two bases are a half turn apart; the pattern, when
    there is one, sits 140 to the right of the centre and 100 above it. *)
Theorem C4_radial_layout (c : canvas) (energyGivers energyDrainers pattern : value) :
  createSurroundingElements c energyGivers energyDrainers pattern
  = (present <- pattern_present pattern ;;
     Ok (placed c "giver-" "positive" (- (JsMath.PI / 2))
                (parseInfluenceText energyGivers)
         ++ placed c "drainer-" "negative" (JsMath.PI / 2)
                   (parseInfluenceText energyDrainers)
         ++ (if present then [pattern_element c pattern] else [])))
  /\ JsMath.PI / 2 = - (JsMath.PI / 2) + JsMath.PI.
Proof.
  split; [|reflexivity].
  unfold createSurroundingElements.
  rewrite giver_elements_placed by apply parseInfluenceText_length.
  rewrite drainer_elements_placed by apply parseInfluenceText_length.
  reflexivity.
Qed.

(** The claim of C4 fails where it says that the two groups are a quarter
    turn apart and do not overlap: with two positive and two negative items,
    the second positive item and the first negative item are given the same
    place (the bottom), and the bases of the two groups differ by a half
    turn, [pi], which is not the quarter turn [pi / 2]. *)
Lemma C4_groups_overlap :
  (els <- createSurroundingElements (Canvas 600 400) (VStr "a,b") (VStr "c,d")
                                    VUndef ;;
   Ok (map (fun e => (id e, place e)) els))
  = Ok [ ("giver-0", Around 300 200 (- (JsMath.PI / 2)) 120);
         ("giver-1", Around 300 200 (JsMath.PI / 2) 120);
         ("drainer-0", Around 300 200 (JsMath.PI / 2) 120);
         ("drainer-1", Around 300 200 (JsMath.PI + JsMath.PI / 2) 120) ]
  /\ drainer_angle 0 2 - giver_angle 0 2 = JsMath.PI
  /\ JsMath.PI <> JsMath.PI / 2.
Proof.
  split; [reflexivity|]. split; [reflexivity|].
  intros H. apply (f_equal (PrimFloat.eqb JsMath.PI)) in H.
  vm_compute in H. discriminate.
Qed.

End Layout.

(** ** Auto-population on entering a step *)

Section AutoPopulation.
Import Js App.

(** A default is written only into an element whose value is empty. *)
Lemma auto_populate_field_keeps (pg : page) (fieldId : string) (v : value)
    (element : node) :
  getElementById pg fieldId = Some element ->
  truthy (n_value element) = true ->
  auto_populate_field pg fieldId v = Ok pg.
Proof. intros G T. unfold auto_populate_field. now rewrite G, T. Qed.

(** A saved text is written into its text input whatever the input holds:
    the saved answer wins over a default, and so does a saved empty text. *)
Lemma populate_field_text_input (pg : page) (fieldId t : string) (element : node) :
  getElementById pg fieldId = Some element ->
  n_tag element = INPUT -> n_type element = "text" ->
  populate_field pg fieldId (VStr t)
  = Ok (replace_node fieldId (with_value element (VStr (strip_newlines t))) pg).
Proof.
  intros G T Y. unfold populate_field. rewrite G.
  unfold is_checkbox, is_select, set_value. rewrite T, Y. reflexivity.
Qed.

(** C1, at the input where the code departs from it: after the journey of
    the specification the answer is stored under [focus.wantMore], the
    default computed for [mapFocus] is that answer, and the [mapFocus] input
    of the mapping step holds the empty text: the default is written first
    and the saved value of the field, the empty text of the default
    structure, is written over it. *)
Theorem C1_mapFocus_left_empty (clk : clock) (wantMore : string) :
  (a <- journey clk wantMore ;;
   JournalData.getField (JournalData.data (journalData a)) "focus" "wantMore"
                        (VStr ""))
  = Ok (VStr wantMore)
  /\ (a <- journey clk wantMore ;;
      autoData <- JournalData.getAutoPopulationData
                    (JournalData.data (journalData a)) "mapping" ;;
      Ok (lookup "mapFocus" autoData))
     = Ok (Some (VStr wantMore))
  /\ (a <- journey clk wantMore ;; Ok (value_of a "mapFocus"))
     = Ok (Some (VStr "")).
Proof. repeat split; vm_compute; reflexivity. Qed.

End AutoPopulation.

(** ** The insight requestor *)

Section Insight.
Import Js AIIntegration.

Lemma get_plain_not_stuck (v : value) (k : string) :
  plain_key k = true -> get v k <> Stuck.
Proof. intros P. rewrite get_plain by exact P. destruct v; discriminate. Qed.

Lemma get_zero_not_stuck (v : value) : get v "0" <> Stuck.
Proof.
  destruct v; try discriminate.
  cbn -[lookup]. destruct (lookup "0" props0); discriminate.
Qed.

Lemma candidate_text_not_stuck (d : value) : candidate_text d <> Stuck.
Proof.
  unfold candidate_text.
  destruct (get d "candidates") as [c| |] eqn:G1; cbn [bind];
    [|discriminate | now apply get_plain_not_stuck in G1].
  assert (H2 : (if truthy c then get c "0" else Ok c) <> Stuck).
  { destruct (truthy c); [apply get_zero_not_stuck | discriminate]. }
  destruct (if truthy c then get c "0" else Ok c) as [f| |];
    cbn [bind]; [|discriminate | now elim H2].
  assert (H3 : (if truthy f then get f "content" else Ok f) <> Stuck).
  { destruct (truthy f); [now apply get_plain_not_stuck | discriminate]. }
  destruct (if truthy f then get f "content" else Ok f) as [ct| |];
    cbn [bind]; [|discriminate | now elim H3].
  destruct (truthy ct); [|discriminate].
  destruct (get ct "parts") as [ps| |] eqn:G4; cbn [bind];
    [|discriminate | now apply get_plain_not_stuck in G4].
  destruct (get ps "0") as [p| |] eqn:G5; cbn [bind];
    [|discriminate | now apply get_zero_not_stuck in G5].
  now apply get_plain_not_stuck.
Qed.

(** When the source takes a text from a body, the text is the one the path
    leads to. *)
Lemma candidate_text_found (d : value) (s : string) :
  candidate_text d = Ok (VStr s) -> text_at d = Some s.
Proof.
  unfold candidate_text, text_at, follow.
  destruct (get d "candidates") as [c| |]; cbn [bind]; try discriminate.
  destruct (truthy c) eqn:Tc.
  - destruct (get c "0") as [f| |]; cbn [bind]; try discriminate.
    destruct (truthy f) eqn:Tf.
    + destruct (get f "content") as [ct| |]; cbn [bind]; try discriminate.
      destruct (truthy ct); [|discriminate].
      destruct (get ct "parts") as [ps| |]; cbn [bind]; try discriminate.
      destruct (get ps "0") as [p| |]; cbn [bind]; try discriminate.
      intros ->. reflexivity.
    + cbn [bind]. rewrite Tf. discriminate.
  - cbn [bind]. rewrite Tc. cbn [bind]. rewrite Tc. discriminate.
Qed.




End Insight.

(** ** The embedding at work *)

Section Examples.
Import Js.

(** An empty storage slot, or an item that does not parse, loads as the
    default structure. *)
Example load_empty_storage (clk : clock) :
  JournalData.loadData clk (Utils.storage_get None)
  = Ok (JournalData.getDefaultDataStructure clk)
  /\ JournalData.loadData clk (Utils.storage_get (Some (Utils.JsonText None)))
     = Ok (JournalData.getDefaultDataStructure clk).
Proof. split; reflexivity. Qed.

(** Loading heals a journal of an older shape: what was stored is kept, the
    fields that were missing read as empty. *)
Example load_legacy_document :
  (d <- JournalData.loadData still_clock legacy_document ;;
   stored <- JournalData.getField d "focus" "wantMore" VUndef ;;
   healed <- JournalData.getField d "goals" "goalStatement" VUndef ;;
   extra <- JournalData.getField d "notes" "first" VUndef ;;
   Ok (stored, healed, extra))
  = Ok (VStr "more calm", VStr "", VStr "a note").
Proof. vm_compute. reflexivity. Qed.

(** An import without merging of a journal that has its metadata succeeds:
    the document is the imported one with its time stamp renewed, and it is
    written to the storage. *)
Example import_replaces :
  let r := JournalData.importData still_clock true
             (JournalData.FromText (Utils.JsonText (Some legacy_document)))
             false fresh_manager in
  fst r = Ok true
  /\ JournalData.getField (JournalData.data (snd r)) "focus" "wantMore" VUndef
     = Ok (VStr "more calm")
  /\ JournalData.slot (snd r) = Some (JournalData.data (snd r)).
Proof. repeat split; vm_compute; reflexivity. Qed.

(** An answer of the service that has the text is returned trimmed, with
    the preamble when it has none of the words looked for. *)
Example insight_success :
  snd (AIIntegration.generateInfluencesInsights
         (AIIntegration.Integration (VStr "key") true) (VObj [])
         (AIIntegration.Response true 200 "OK"
            (Utils.JsonText
               (Some (VObj [ ("candidates",
                              VArr [ VObj [ ("content",
                                             VObj [ ("parts",
                                                     VArr [ VObj [ ("text", VStr "  Rest more. ") ] ] []) ]) ] ]
                                   []) ])))))
  = Ok ("Here's what I notice from your reflections:"
        ++ AIIntegration.newline ++ AIIntegration.newline ++ "Rest more.")%string.
Proof. vm_compute. reflexivity. Qed.

(** A tracked edit of the focus statement fills the only required field of
    its step. *)
Example track_focus_statement :
  ProgressTracker.trackFieldCompletion
    (ProgressTracker.Field "wantMore" " more calm " true false)
    (ProgressTracker.Tracker 1 ["welcome"; "focus"])
  = Ok (ProgressTracker.Tracker 1 ["welcome"; "focus"; "focus.wantMore"],
        Some 100%float).
Proof. vm_compute. reflexivity. Qed.

(** Four positive items, four of the five negative ones and a pattern: nine
    elements around the focus, ten with it. *)
Example ten_elements :
  (els <- MappingSystem.generateMap_elements (MappingSystem.Canvas 600 400)
            (VObj [ ("mapFocus", VStr "calm");
                    ("mapEnergyGivers", VStr "a,b,c,d");
                    ("mapEnergyDrainers", VStr "e,f,g,h,i");
                    ("mapPattern", VStr "rushing") ]) ;;
   Ok (List.length els))
  = Ok 10.
Proof. vm_compute. reflexivity. Qed.

End Examples.

(** ** Saving and reading the answers *)

Section Answers.
Import Js JournalData.

Lemma upsert_upsert (k : string) (x y : value) (ps : props) :
  upsert k y (upsert k x ps) = upsert k y ps.
Proof.
  induction ps as [|[k' z] r IH]; simpl.
  - now rewrite String.eqb_refl.
  - destruct (String.eqb k k') eqn:E; simpl.
    + now rewrite String.eqb_refl.
    + now rewrite E, IH.
Qed.


(** The time stamp of a record whose metadata is a record. *)
Lemma touch_record (now : string) (ps md : props) :
  lookup "metadata" ps = Some (VObj md) ->
  touch now (VObj ps)
  = Ok (VObj (upsert "metadata"
                (VObj (upsert "lastModified" (VStr now) md)) ps)).
Proof.
  intros L. unfold touch. cbn [get]. rewrite L. reflexivity.
Qed.

Lemma has_metadata_record (d : value) :
  has_metadata d = true ->
  exists ps md, d = VObj ps /\ lookup "metadata" ps = Some (VObj md).
Proof.
  destruct d as [| | | | | |ps]; try discriminate. simpl.
  destruct (lookup "metadata" ps) as [[| | | | | |md]|] eqn:L; try discriminate.
  intros _. now exists ps, md.
Qed.






End Answers.

(** ** What a field save leaves alone *)

Section FieldFrame.
Import Js JournalData.






End FieldFrame.

(** ** Saving a step at once *)

Section SectionSave.
Import Js JournalData.

Lemma distinct_cons (k : string) (l : list string) :
  distinct (k :: l) = true -> mem_string k l = false /\ distinct l = true.
Proof.
  cbn [distinct]. intros H. apply andb_true_iff in H as [H1 H2].
  now apply negb_true_iff in H1.
Qed.

(** Assigning the entries of a record with distinct keys one after the
    other: an entry assigned is found, another key reads as before. *)
Lemma fold_upsert_lookup (l acc : props) (k : string) :
  distinct (keys l) = true ->
  lookup k (fold_left (fun acc kv => upsert (fst kv) (snd kv) acc) l acc)
  = match lookup k l with
    | Some x => Some x
    | None => lookup k acc
    end.
Proof.
  revert acc. induction l as [|[k1 v1] r IH]; intros acc D; [reflexivity|].
  cbn [keys map fst] in D. apply distinct_cons in D as [M D].
  cbn [fold_left fst snd lookup]. rewrite (IH _ D).
  destruct (String.eqb k k1) eqn:E.
  - apply String.eqb_eq in E. subst k1.
    rewrite (lookup_not_in_keys k r M). apply lookup_upsert_same.
  - apply String.eqb_neq in E. now rewrite lookup_upsert_other.
Qed.

(** [{ ...a, ...b }] on records: the fields of [b], and those of [a] that
    [b] does not have. *)
Lemma spread2_lookup (a b : props) (k : string) :
  distinct (keys a) = true -> distinct (keys b) = true ->
  match spread2 (VObj a) (VObj b) with
  | VObj merged =>
      lookup k merged = match lookup k b with
                        | Some x => Some x
                        | None => lookup k a
                        end
  | _ => False
  end.
Proof.
  intros Da Db. unfold spread2. cbn [spread_entries].
  rewrite fold_left_app. rewrite (fold_upsert_lookup b _ k Db).
  rewrite (fold_upsert_lookup a [] k Da).
  destruct (lookup k b); [reflexivity|]. now destruct (lookup k a).
Qed.

(** X4: [saveSection] merges the answers given into the record of the step: on
    a journal whose metadata is a record, an answer given is stored, an answer
    the step had and that is not given again is kept, and the journal is
    stamped with the time of the call. *)
Theorem saveSection_merges (clk : clock) (s : string) (old new : props)
    (m : manager) :
  plain_key s = true -> s <> "metadata" ->
  has_metadata (data m) = true ->
  get (data m) s = Ok (VObj old) \/ (get (data m) s = Ok VUndef /\ old = []) ->
  distinct (keys old) = true -> distinct (keys new) = true ->
  let r := saveSection clk s (VObj new) m in
  fst r = Ok true
  /\ lastModified_of (data (snd r)) = Ok (VStr (clk 0))
  /\ savePending (snd r) = true
  /\ exists merged,
       get (data (snd r)) s = Ok (VObj merged)
       /\ forall k, lookup k merged = match lookup k new with
                                      | Some x => Some x
                                      | None => lookup k old
                                      end.
Proof.
  intros Ps Ns H G Do Dn. cbn zeta.
  destruct (has_metadata_record _ H) as (ps & md & D & Lm).
  assert (Sp : exists merged,
             (forall sec, get (data m) s = Ok sec ->
                          spread2 sec (VObj new) = VObj merged)
             /\ forall k, lookup k merged = match lookup k new with
                                            | Some x => Some x
                                            | None => lookup k old
                                            end).
  { destruct G as [G|[G ->]].
    - pose proof (fun k => spread2_lookup old new k Do Dn) as Sp.
      destruct (spread2 (VObj old) (VObj new)) as [| | | | | |merged] eqn:E;
        try (now destruct (Sp EmptyString)).
      exists merged. split; [|exact Sp].
      intros sec Gs. rewrite G in Gs. injection Gs as <-. exact E.
    - pose proof (fun k => spread2_lookup [] new k eq_refl Dn) as Sp.
      destruct (spread2 (VObj []) (VObj new)) as [| | | | | |merged] eqn:E;
        try (now destruct (Sp EmptyString)).
      exists merged. split; [|exact Sp].
      intros sec Gs. rewrite G in Gs. injection Gs as <-. exact E. }
  destruct Sp as (merged & Sp & Lk).
  unfold saveSection.
  destruct (get (data m) s) as [sec| |] eqn:Gs;
    [|destruct G as [G|[G _]]; discriminate
     |destruct G as [G|[G _]]; discriminate].
  rewrite (Sp sec eq_refl). rewrite D.
  rewrite (set_own (VObj ps) _ s ps Ps eq_refl). cbn [with_props].
  rewrite (touch_record _ _ md)
    by (rewrite lookup_upsert_other; [exact Lm | congruence]).
  cbn [fst snd data debouncedSave with_data savePending].
  split; [reflexivity|]. split; [|split; [reflexivity|]].
  - unfold lastModified_of. cbn [get]. rewrite lookup_upsert_same. cbn [bind get].
    now rewrite lookup_upsert_same.
  - exists merged. split; [|exact Lk].
    rewrite (get_own (VObj _) s _ Ps eq_refl). unfold lookup_or_undefined.
    rewrite lookup_upsert_other by congruence. now rewrite lookup_upsert_same.
Qed.

Lemma saveSection_merges_witness :
  let r := saveSection still_clock "goals"
             (VObj [ ("goalStatement", VStr "walk every day") ])
             fresh_manager in
  fst r = Ok true
  /\ lastModified_of (data (snd r)) = Ok (VStr (still_clock 0))
  /\ savePending (snd r) = true
  /\ exists merged,
       get (data (snd r)) "goals" = Ok (VObj merged)
       /\ forall k,
            lookup k merged
            = match lookup k [ ("goalStatement", VStr "walk every day") ] with
              | Some x => Some x
              | None =>
                  lookup k [ blank "leveragePointGoal"; blank "goalStatement";
                             blank "goalImpact"; blank "successMetrics";
                             blank "potentialObstacles" ]
              end.
Proof.
  apply (saveSection_merges still_clock "goals");
    try reflexivity; try discriminate.
  left. reflexivity.
Defined.

(** X5: the step saved by a navigation is the step read back: on a journal
    whose metadata is a record, [getCurrentSection] after
    [saveCurrentSection(step)] returns the step, and the first step when the
    identifier saved is the empty text. *)
Theorem saveCurrentSection_then_getCurrentSection (step : string) (m : manager) :
  has_metadata (data m) = true ->
  fst (saveCurrentSection step m) = Ok tt
  /\ getCurrentSection (data (snd (saveCurrentSection step m)))
     = Ok (VStr (if JsString.is_empty step then "welcome" else step))
  /\ savePending (snd (saveCurrentSection step m)) = true.
Proof.
  intros H. destruct (has_metadata_record _ H) as (ps & md & D & Lm).
  unfold saveCurrentSection. rewrite D. cbn [get]. rewrite Lm.
  cbn [bind set String.eqb Ascii.eqb Bool.eqb seen_through
       fst snd data debouncedSave with_data savePending].
  split; [reflexivity|]. split; [|reflexivity].
  unfold getCurrentSection. cbn [get]. rewrite lookup_upsert_same.
  cbn [bind get]. rewrite lookup_upsert_same. cbn [bind or_else truthy].
  now destruct step.
Qed.

Lemma saveCurrentSection_then_getCurrentSection_witness :
  fst (saveCurrentSection "goals" fresh_manager) = Ok tt
  /\ getCurrentSection (data (snd (saveCurrentSection "goals" fresh_manager)))
     = Ok (VStr "goals")
  /\ savePending (snd (saveCurrentSection "goals" fresh_manager)) = true.
Proof.
  apply (saveCurrentSection_then_getCurrentSection "goals" fresh_manager).
  reflexivity.
Defined.

End SectionSave.

(** ** The shape check and what it lets through *)

Section ShapeCheck.
Import Js JournalData.

Lemma every_own_four (v : value) (ps : props) :
  own_props v = Some ps -> has_key "hasOwnProperty" ps = false ->
  every_own v ["metadata"; "focus"; "influences"; "connections"]
  = Ok (has_four_keys ps).
Proof.
  intros O H. unfold has_four_keys.
  assert (Own : forall k, plain_key k = true ->
                          hasOwnProperty v k = Ok (has_key k ps)).
  { intros k P. destruct (plain_key_facts k P) as (I & L & _).
    destruct v; simpl in O; try discriminate; injection O as ->;
      cbn [hasOwnProperty]; rewrite H; [now rewrite I, L | reflexivity]. }
  cbn [every_own]. rewrite !Own by reflexivity. cbn [bind].
  destruct (has_key "metadata" ps); [|reflexivity].
  destruct (has_key "focus" ps); [|reflexivity].
  destruct (has_key "influences" ps); [|reflexivity].
  destruct (has_key "connections" ps); reflexivity.
Qed.

Lemma validateDataStructure_shape_eq (v : value) :
  validateDataStructure v
  = match own_props v with
    | None => Ok false
    | Some ps =>
        if has_key "hasOwnProperty" ps then Throw TypeError
        else Ok (has_four_keys ps)
    end.
Proof.
  unfold validateDataStructure.
  destruct v as [| |b|n|s|items named|ps]; cbn [own_props truthy typeof negb];
    try reflexivity.
  - now destruct b.
  - now destruct (negb _).
  - now destruct (negb (JsString.is_empty s)).
  - cbn [String.eqb Ascii.eqb Bool.eqb orb].
    destruct (has_key "hasOwnProperty" named) eqn:H.
    + cbn [every_own hasOwnProperty]. now rewrite H.
    + now apply every_own_four.
  - cbn [String.eqb Ascii.eqb Bool.eqb orb].
    destruct (has_key "hasOwnProperty" ps) eqn:H.
    + cbn [every_own hasOwnProperty]. now rewrite H.
    + now apply every_own_four.
Qed.

(** X6: the shape check accepts exactly the records and arrays that have the
    four keys among their own properties and no property named
    [hasOwnProperty] (which would be called in place of the method); on any
    other value it returns [false] or throws a [TypeError]. *)
Theorem validateDataStructure_accepts (v : value) :
  (validateDataStructure v = Ok true
   <-> exists ps, own_props v = Some ps
                  /\ has_key "hasOwnProperty" ps = false
                  /\ has_four_keys ps = true)
  /\ (validateDataStructure v = Ok true
      \/ validateDataStructure v = Ok false
      \/ validateDataStructure v = Throw TypeError).
Proof.
  rewrite validateDataStructure_shape_eq.
  destruct (own_props v) as [ps|].
  - destruct (has_key "hasOwnProperty" ps) eqn:H.
    + split; [|now auto]. split; [discriminate|].
      intros (ps' & E & H' & _). injection E as <-. congruence.
    + split.
      * split.
        -- intros E. injection E as E. now exists ps.
        -- intros (ps' & E & _ & F). injection E as <-. now rewrite F.
      * destruct (has_four_keys ps); auto.
  - split; [|now auto]. split; [discriminate|].
    intros (ps' & E & _). discriminate.
Qed.

(** X7: what the storage slot holds is discarded for the default structure
    when it does not pass for a journal: an empty slot, an item that does not
    parse, a value that is no record, a record that lacks one of the four
    keys. *)
Theorem loadData_falls_back (clk : clock) (item : option Utils.json_text) :
  no_journal item = true ->
  loadData clk (Utils.storage_get item) = Ok (getDefaultDataStructure clk).
Proof.
  destruct item as [[[v|]]|]; [|reflexivity|reflexivity].
  cbn [no_journal Utils.storage_get Utils.JSON_parse]. intros N.
  unfold loadData. destruct (truthy v); [|reflexivity].
  rewrite validateDataStructure_shape_eq.
  destruct (own_props v) as [ps|]; [|reflexivity].
  apply andb_true_iff in N as [N1 N2].
  apply negb_true_iff in N1, N2. now rewrite N1, N2.
Qed.

Lemma loadData_falls_back_witness :
  loadData still_clock
    (Utils.storage_get
       (Some (Utils.JsonText (Some (VObj [ ("focus", VObj []) ])))))
  = Ok (getDefaultDataStructure still_clock).
Proof.
  apply (loadData_falls_back still_clock
           (Some (Utils.JsonText (Some (VObj [ ("focus", VObj []) ]))))).
  reflexivity.
Defined.

End ShapeCheck.

(** ** What loading keeps *)

Section LoadKeeps.
Import Js JournalData.

(** Merging a flat mapping into a record assigns its fields one after the
    other. *)
Lemma flat_merge_assigns (fs sec : props) :
  forallb flat_field fs = true ->
  each_entry mergeObjects (VObj sec) fs = Ok (VObj (assign_all fs sec)).
Proof.
  revert sec. induction fs as [|[f x] r IH]; intros sec F; [reflexivity|].
  simpl in F. apply andb_true_iff in F as [F1 F2].
  unfold flat_field in F1. cbn [fst snd] in F1.
  apply andb_true_iff in F1 as [Fx Fp]. apply negb_true_iff in Fx, Fp.
  cbn [each_entry]. unfold merge_entry. rewrite Fx.
  cbn [set]. rewrite Fp. cbn [bind]. now rewrite IH.
Qed.

(** The merge of a partial document, entry by entry: under the key of a
    flat mapping, the record the target had there with the fields of the
    mapping assigned; under another key of the document, the value stored;
    elsewhere, what the target had. *)
Lemma partial_merge_values (ps tps : props) :
  (forall k v, In k (keys ps) -> lookup k tps = Some v ->
               exists sec, v = VObj sec) ->
  distinct (keys ps) = true ->
  forallb entry_ok ps = true ->
  exists tps',
    each_entry mergeObjects (VObj tps) ps = Ok (VObj tps')
    /\ forall k,
         lookup k tps'
         = match lookup k ps with
           | None => lookup k tps
           | Some (VObj fs) => Some (VObj (assign_all fs (section_of tps k)))
           | Some v => Some v
           end.
Proof.
  revert tps. induction ps as [|[k v] r IH]; intros tps Rec D F.
  - exists tps. split; [reflexivity | now intros k].
  - cbn [keys map fst] in D. apply distinct_cons in D as [Dk Dr].
    cbn [forallb] in F. apply andb_true_iff in F as [Fk Fr].
    unfold entry_ok in Fk. cbn [fst snd] in Fk.
    apply andb_true_iff in Fk as [Fp Fv]. apply negb_true_iff in Fp.
    assert (Np : String.eqb k "__proto__" = false).
    { destruct (String.eqb k "__proto__") eqn:E; [|reflexivity].
      apply String.eqb_eq in E; subst k. discriminate. }
    assert (Step : exists tps1,
               merge_entry (fun tk => mergeObjects tk v) (VObj tps) k v
               = Ok (VObj tps1)
               /\ lookup k tps1
                  = Some (match v with
                          | VObj fs => VObj (assign_all fs (section_of tps k))
                          | _ => v
                          end)
               /\ forall k', k' <> k -> lookup k' tps1 = lookup k' tps).
    { unfold merge_entry.
      destruct (is_plain_object v) eqn:P.
      - assert (Fl : flat_mapping v = true).
        { destruct (flat_mapping v); [reflexivity|].
          cbn [orb negb] in Fv. now rewrite andb_false_r in Fv. }
        destruct v as [| | | | | |fs]; try discriminate. cbn [flat_mapping] in Fl.
        cbn [get]. unfold section_of.
        destruct (lookup k tps) as [tk|] eqn:L.
        + destruct (Rec k tk (or_introl eq_refl) L) as (sec & ->).
          cbn [truthy bind mergeObjects].
          rewrite (flat_merge_assigns fs sec Fl). cbn [bind seen_through].
          eexists. split; [reflexivity|]. split.
          * apply lookup_upsert_same.
          * intros k' N. now apply lookup_upsert_other.
        + rewrite Fp. cbn [truthy bind set]. rewrite Np. cbn [bind mergeObjects].
          rewrite (flat_merge_assigns fs [] Fl). cbn [bind seen_through].
          eexists. split; [reflexivity|]. split.
          * apply lookup_upsert_same.
          * intros k' N. now rewrite !lookup_upsert_other.
      - cbn [set]. rewrite Np.
        eexists. split; [reflexivity|]. split.
        + rewrite lookup_upsert_same. f_equal.
          destruct v; try reflexivity. discriminate.
        + intros k' N. now apply lookup_upsert_other. }
    destruct Step as (tps1 & E1 & Lk & O1).
    assert (Nk : forall k', In k' (keys r) -> k' <> k).
    { intros k' H ->. apply (proj2 (mem_string_In _ _)) in H.
      unfold keys in *. congruence. }
    destruct (IH tps1) as (tps' & E' & V'); auto.
    { intros k' v' H L. rewrite (O1 k' (Nk k' H)) in L.
      apply (Rec k' v'); [now right | exact L]. }
    exists tps'. split.
    { cbn [each_entry]. rewrite E1. cbn [bind]. exact E'. }
    intros k'. rewrite V'. cbn [lookup].
    destruct (String.eqb k' k) eqn:E.
    + apply String.eqb_eq in E. subst k'.
      rewrite (lookup_not_in_keys k r Dk). rewrite Lk.
      now destruct v.
    + apply String.eqb_neq in E.
      unfold section_of. rewrite (O1 k' E). reflexivity.
Qed.

Lemma assign_all_lookup (fs sec : props) (k : string) :
  distinct (keys fs) = true ->
  lookup k (assign_all fs sec) = match lookup k fs with
                                 | Some x => Some x
                                 | None => lookup k sec
                                 end.
Proof. apply fold_upsert_lookup. Qed.

(** The records of the default structure, which the merge starts from. *)
Lemma default_records (clk : clock) :
  exists tps,
    Utils.deepClone (getDefaultDataStructure clk) = VObj tps
    /\ (forall k v, lookup k tps = Some v -> exists sec, v = VObj sec)
    /\ forall k, has_key "hasOwnProperty" (section_of tps k) = false.
Proof.
  eexists. split; [cbn; reflexivity|]. split.
  - intros k v. cbn [lookup].
    repeat match goal with
           | |- (if ?c then _ else _) = _ -> _ =>
               destruct c; [intros E; injection E as <-; eauto|]
           end.
    discriminate.
  - intros k. unfold section_of. cbn [lookup].
    repeat match goal with
           | |- has_key _ (match (if ?c then _ else _) with _ => _ end) = _ =>
               destruct c; [reflexivity|]
           end.
    reflexivity.
Qed.

(** X8: loading keeps the answers: when a partial document passes the shape
    check, every field stored in one of its steps reads in the journal loaded
    as it was stored (the time of the last modification apart, which the load
    renews). *)
Theorem loadData_keeps_answers (clk : clock) (ps fs : props) (s f : string)
    (x : value) :
  partial_document (VObj ps) = true ->
  validateDataStructure (VObj ps) = Ok true ->
  lookup s ps = Some (VObj fs) ->
  distinct (keys fs) = true -> has_key "hasOwnProperty" fs = false ->
  lookup f fs = Some x ->
  (s, f) <> ("metadata", "lastModified") ->
  exists d,
    loadData clk (VObj ps) = Ok d
    /\ forall dflt, getField d s f dflt = Ok x.
Proof.
  intros P V Ls Df Hf Lf Ne.
  cbn [partial_document] in P. apply andb_true_iff in P as [D F].
  unfold loadData. cbn [truthy]. rewrite V. cbn [bind].
  unfold mergeWithDefaults.
  destruct (default_records clk) as (tps & -> & Rec & Hd).
  destruct (partial_merge_values ps tps) as (tps' & E & Vl); auto.
  { intros k v _. apply Rec. }
  cbn [mergeObjects]. rewrite E. cbn [bind get].
  assert (Ms : lookup s tps' = Some (VObj (assign_all fs (section_of tps s)))).
  { rewrite Vl, Ls. reflexivity. }
  assert (Read : forall sec,
             (forall k, k = f -> lookup k sec
                                 = lookup k (assign_all fs (section_of tps s))) ->
             has_key "hasOwnProperty" sec = false ->
             forall tps'' dflt,
               lookup s tps'' = Some (VObj sec) ->
               getField (VObj tps'') s f dflt = Ok x).
  { intros sec Same Hs tps'' dflt L. unfold getField. cbn [get]. rewrite L.
    cbn [bind truthy hasOwnProperty]. rewrite Hs. cbn [bind].
    assert (Lx : lookup f sec = Some x).
    { rewrite (Same f eq_refl), assign_all_lookup by exact Df. now rewrite Lf. }
    unfold has_key. rewrite Lx. cbn [get]. now rewrite Lx. }
  assert (Hm : has_key "hasOwnProperty" (assign_all fs (section_of tps s)) = false).
  { unfold has_key. rewrite assign_all_lookup by exact Df.
    unfold has_key in Hf. destruct (lookup "hasOwnProperty" fs); [discriminate|].
    apply Hd. }
  destruct (lookup "metadata" tps') as [md|] eqn:Lm.
  2:{ (* the metadata is there: the shape check asked for it *)
      exfalso. rewrite Vl in Lm.
      rewrite validateDataStructure_shape_eq in V. cbn [own_props] in V.
      destruct (has_key "hasOwnProperty" ps); [discriminate|].
      injection V as V. unfold has_four_keys in V.
      apply andb_true_iff in V as [V _]. apply andb_true_iff in V as [V _].
      apply andb_true_iff in V as [V _]. unfold has_key in V.
      destruct (lookup "metadata" ps) as [[]|]; discriminate. }
  assert (Rm : exists mds, md = VObj mds).
  { rewrite Vl in Lm. destruct (lookup "metadata" ps) as [v|] eqn:Lp.
    - assert (In ("metadata", v) ps) as I.
      { clear - Lp. induction ps as [|[k y] r IH]; [discriminate|].
        cbn [lookup] in Lp. destruct (String.eqb "metadata" k) eqn:E.
        - apply String.eqb_eq in E. subst k. injection Lp as ->. now left.
        - right. now apply IH. }
      rewrite forallb_forall in F. specialize (F _ I).
      unfold entry_ok in F. cbn [fst snd] in F.
      apply andb_true_iff in F as [_ F].
      change (is_default_section "metadata") with true in F.
      cbn [negb andb] in F. rewrite orb_false_r in F.
      destruct v; try discriminate. injection Lm as <-. eauto.
    - now apply Rec with (k := "metadata"). }
  destruct Rm as (mds & ->).
  cbn [bind set String.eqb Ascii.eqb Bool.eqb seen_through].
  eexists. split; [reflexivity|]. intros dflt.
  destruct (String.eqb s "metadata") eqn:Es.
  - apply String.eqb_eq in Es. subst s.
    rewrite Ms in Lm. injection Lm as <-.
    apply (Read (upsert "lastModified" (VStr (clk 2))
                        (assign_all fs (section_of tps "metadata")))).
    + intros k ->. apply lookup_upsert_other. congruence.
    + rewrite has_key_upsert_other by discriminate. exact Hm.
    + apply lookup_upsert_same.
  - apply String.eqb_neq in Es.
    apply (Read (assign_all fs (section_of tps s))); auto.
    now rewrite lookup_upsert_other.
Qed.

Lemma loadData_keeps_answers_witness :
  exists d,
    loadData still_clock legacy_document = Ok d
    /\ forall dflt, getField d "focus" "wantMore" dflt = Ok (VStr "more calm").
Proof.
  apply (loadData_keeps_answers still_clock _ [ ("wantMore", VStr "more calm") ]);
    (reflexivity || discriminate).
Defined.

End LoadKeeps.

(** ** An import that succeeds *)

Section ImportSuccess.
Import Js JournalData.

(** X9: an import without merging of a record that passes the shape check and
    whose metadata is a record succeeds: the journal is the record imported,
    stamped with the time of the call and otherwise as given; the import is
    reported as a success whether the write to the storage succeeds or not,
    and only a write that succeeds changes the storage. *)
Theorem importData_replaces (clk : clock) (write_ok : bool) (ps md : props)
    (payload : import_arg) (m : manager) :
  payload = FromValue (VObj ps)
  \/ payload = FromText (Utils.JsonText (Some (VObj ps))) ->
  validateDataStructure (VObj ps) = Ok true ->
  lookup "metadata" ps = Some (VObj md) ->
  let r := importData clk write_ok payload false m in
  let imported :=
    VObj (upsert "metadata"
            (VObj (upsert "lastModified" (VStr (clk 0)) md)) ps) in
  fst r = Ok true
  /\ data (snd r) = imported
  /\ slot (snd r) = (if write_ok then Some imported else slot m)
  /\ events (snd r)
     = events m
       ++ (if write_ok then [JournalSave "success" (Some "")] else [])
       ++ [JournalImport "success" (Some "")].
Proof.
  intros P V L. cbn zeta. unfold importData.
  assert (C : (importedData <-
                 match payload with
                 | FromText t => Utils.JSON_parse t
                 | FromValue (VStr _) => Stuck
                 | FromValue v => Ok v
                 end ;;
               valid <- validateDataStructure importedData ;;
               if valid then Ok importedData
               else Throw (Error "Invalid data structure"))
              = Ok (VObj ps)).
  { destruct P as [-> | ->]; cbn [Utils.JSON_parse bind]; now rewrite V. }
  rewrite C. rewrite (touch_record _ _ md L).
  destruct write_ok; cbn [persistData snd fst data slot events dispatch with_data];
    repeat split; try reflexivity.
  now rewrite <- app_assoc.
Qed.

Lemma importData_replaces_witness :
  let r := importData still_clock false (FromValue legacy_document) false
                      fresh_manager in
  let imported :=
    VObj (upsert "metadata"
            (VObj (upsert "lastModified" (VStr (still_clock 0))
                          [ ("version", VStr "0.9") ]))
            [ ("metadata", VObj [ ("version", VStr "0.9") ]);
              ("focus", VObj [ ("wantMore", VStr "more calm") ]);
              ("influences", VObj []);
              ("connections", VObj []);
              ("notes", VObj [ ("first", VStr "a note") ]) ]) in
  fst r = Ok true
  /\ data (snd r) = imported
  /\ slot (snd r) = (if false then Some imported else slot fresh_manager)
  /\ events (snd r)
     = events fresh_manager
       ++ (if false then [JournalSave "success" (Some "")] else [])
       ++ [JournalImport "success" (Some "")].
Proof.
  apply (importData_replaces still_clock false _ [ ("version", VStr "0.9") ]
                             (FromValue legacy_document) fresh_manager).
  - left. reflexivity.
  - reflexivity.
  - reflexivity.
Defined.

(** X10: the completion percentage is a whole number of per cent between 0 and
    100, whatever the journal is: [getCompletionPercentage] returns for every
    value, the percentage of a number of anchor fields between none and seven. *)
Theorem getCompletionPercentage_range (d : value) :
  exists p k,
    getCompletionPercentage d = Ok p
    /\ k <= 7 /\ p = percent_of k
    /\ PrimFloat.leb 0 p = true /\ PrimFloat.leb p 100 = true
    /\ JsMath.round p = p.
Proof.
  exists (percent_of (filled_count d)), (filled_count d).
  split; [apply getCompletionPercentage_count|].
  pose proof (filled_count_le d) as Le. split; [exact Le|]. split; [reflexivity|].
  destruct (filled_count d) as [|[|[|[|[|[|[|[|k]]]]]]]];
    try (repeat split; reflexivity).
  lia.
Qed.

End ImportSuccess.

(** ** The ledger of the progress tracker *)

Section Ledger.
Import Js ProgressTracker.

Lemma set_has_add_same (k : string) (s : string_set) :
  set_has k (set_add k s) = true.
Proof.
  unfold set_add. destruct (set_has k s) eqn:H; [exact H|].
  unfold set_has, mem_string. rewrite existsb_app. simpl.
  rewrite String.eqb_refl. now rewrite orb_true_r.
Qed.

Lemma set_has_add_mono (k k' : string) (s : string_set) :
  set_has k' s = true -> set_has k' (set_add k s) = true.
Proof.
  intros H. unfold set_add. destruct (set_has k s); [exact H|].
  unfold set_has, mem_string in *. rewrite existsb_app. now rewrite H.
Qed.

Lemma mem_string_app (k : string) (l l' : list string) :
  mem_string k (l ++ l') = (mem_string k l || mem_string k l')%bool.
Proof. apply existsb_app. Qed.

Lemma distinct_app_single (l : list string) (k : string) :
  distinct l = true -> mem_string k l = false -> distinct (l ++ [k]) = true.
Proof.
  induction l as [|x r IH]; intros D M; [reflexivity|].
  apply distinct_cons in D as [Dx Dr].
  cbn [mem_string existsb] in M. apply orb_false_iff in M as [Mx Mr].
  cbn [app distinct]. rewrite mem_string_app, Dx. cbn [mem_string existsb].
  rewrite String.eqb_sym, Mx. cbn [orb negb andb]. now apply IH.
Qed.

Lemma set_add_distinct (k : string) (s : string_set) :
  distinct s = true -> distinct (set_add k s) = true.
Proof.
  intros D. unfold set_add. destruct (set_has k s) eqn:H; [exact D|].
  now apply distinct_app_single.
Qed.

Lemma set_delete_distinct (k : string) (s : string_set) :
  distinct s = true -> distinct (set_delete k s) = true.
Proof.
  unfold set_delete. induction s as [|x r IH]; intros D; [reflexivity|].
  apply distinct_cons in D as [Dx Dr]. cbn [filter].
  destruct (negb (String.eqb k x)); [|now apply IH].
  cbn [distinct]. rewrite (IH Dr), andb_true_r. apply negb_true_iff.
  destruct (mem_string x (filter _ r)) eqn:M; [|reflexivity].
  apply mem_string_In in M. apply filter_In in M as [M _].
  apply mem_string_In in M. congruence.
Qed.

Lemma set_delete_absent (k : string) (s : string_set) :
  set_has k s = false -> set_delete k s = s.
Proof.
  unfold set_delete, set_has. induction s as [|x r IH]; intros H; [reflexivity|].
  cbn [mem_string existsb] in H. apply orb_false_iff in H as [Hx Hr].
  cbn [filter]. rewrite Hx. cbn [negb]. f_equal. now apply IH.
Qed.

Lemma set_delete_add (k : string) (s : string_set) :
  set_has k s = false -> set_delete k (set_add k s) = s.
Proof.
  intros H. unfold set_add. rewrite H. unfold set_delete.
  rewrite filter_app. cbn [filter]. rewrite String.eqb_refl. cbn [negb].
  rewrite app_nil_r. now apply set_delete_absent.
Qed.

(** The steps, one by one. *)
Lemma sections_cases (s : string) :
  mem_string s sections = true ->
  exists i, i < 9 /\ index_of s sections = Some i
            /\ nth_error sections i = Some s.
Proof.
  intros H. apply mem_string_In in H. unfold sections in H.
  repeat (destruct H as [<-|H];
          [eexists; split; [|split; reflexivity]; lia|]).
  destruct H.
Qed.

Lemma index_of_unknown (s : string) (l : list string) :
  mem_string s l = false -> index_of s l = None.
Proof.
  unfold index_of. generalize 0.
  induction l as [|x r IH]; intros n H; [reflexivity|].
  cbn [mem_string existsb] in H. apply orb_false_iff in H as [Hx Hr].
  rewrite String.eqb_sym, Hx. now apply IH.
Qed.

Lemma nth_sections (i : nat) :
  i < 9 ->
  exists s, nth_error sections i = Some s /\ index_of s sections = Some i
            /\ mem_string s sections = true /\ has_dot s = false.
Proof.
  intros H.
  do 9 (destruct i as [|i]; [eexists; repeat split; reflexivity|]). lia.
Qed.

(** A visit: [updateProgress] on a step makes it the current one and
    records it; it keeps everything the ledger held and leaves a tracker in
    order as one; on anything else than a step it changes nothing. *)
Theorem updateProgress_visits (sectionId : string) (t : tracker) :
  (if mem_string sectionId sections
   then getCurrentSection (updateProgress sectionId t) = Some sectionId
        /\ set_has sectionId (completedSections (updateProgress sectionId t))
           = true
   else updateProgress sectionId t = t)
  /\ (forall k, set_has k (completedSections t) = true ->
                set_has k (completedSections (updateProgress sectionId t)) = true)
  /\ (in_order t = true -> in_order (updateProgress sectionId t) = true).
Proof.
  unfold updateProgress.
  destruct (mem_string sectionId sections) eqn:M.
  - destruct (sections_cases _ M) as (i & Hi & -> & N).
    cbn [completedSections currentSectionIndex]. unfold getCurrentSection.
    cbn [currentSectionIndex]. split; [split; [exact N|apply set_has_add_same]|].
    split; [intros k; apply set_has_add_mono|].
    unfold in_order. cbn [currentSectionIndex completedSections].
    intros D. apply andb_true_iff in D as [_ D].
    rewrite (set_add_distinct _ _ D), andb_true_r. apply Nat.ltb_lt. exact Hi.
  - rewrite (index_of_unknown _ _ M). split; [reflexivity|].
    split; [now intros k|]. now intros D.
Qed.

(** X12: marking a required field as filled and then as empty again leaves the
    ledger as it was, when the field was not marked before; in between the
    field is marked. *)
Theorem field_completion_round_trip (section fieldId : string) (t : tracker) :
  mem_string section sections = true ->
  set_has (composite section fieldId) (completedSections t) = false ->
  exists t1 p1 p2,
    updateFieldCompletionStatus section fieldId true t = Ok (t1, p1)
    /\ set_has (composite section fieldId) (completedSections t1) = true
    /\ updateFieldCompletionStatus section fieldId false t1 = Ok (t, p2).
Proof.
  intros M H. unfold updateFieldCompletionStatus, updateSectionProgress.
  assert (R : exists l, getRequiredFieldsForSection section = Ok l).
  { apply mem_string_In in M. unfold sections in M.
    repeat (destruct M as [<-|M]; [eexists; reflexivity|]). destruct M. }
  destruct R as (l & ->). cbn [bind].
  do 3 eexists. split; [reflexivity|].
  cbn [completedSections currentSectionIndex].
  split; [apply set_has_add_same|].
  rewrite (set_delete_add _ _ H). destruct t. reflexivity.
Qed.


Lemma field_completion_round_trip_witness :
  exists t1 p1 p2,
    updateFieldCompletionStatus "focus" "wantMore" true
                                (Tracker 1 ["welcome"; "focus"])
    = Ok (t1, p1)
    /\ set_has (composite "focus" "wantMore") (completedSections t1) = true
    /\ updateFieldCompletionStatus "focus" "wantMore" false t1
       = Ok (Tracker 1 ["welcome"; "focus"], p2).
Proof.
  apply (field_completion_round_trip "focus" "wantMore"
                                     (Tracker 1 ["welcome"; "focus"]));
    reflexivity.
Defined.

End Ledger.

(** ** Going from step to step *)

Section Steps.
Import Js ProgressTracker.

Lemma updateProgress_index (s : string) (i : nat) (t : tracker) :
  index_of s sections = Some i ->
  updateProgress s t = Tracker i (set_add s (completedSections t)).
Proof. intros H. unfold updateProgress. now rewrite H. Qed.

(** X13: forward and back: before the last step, [goToNextSection] returns the
    step that follows the current one and makes it the current one, and
    [goToPreviousSection] then returns to the step left; at the last step (and
    beyond) [goToNextSection] returns nothing and changes nothing, as
    [goToPreviousSection] does at the first. *)
Theorem goToNextSection_then_back (t : tracker) :
  (if Nat.ltb (currentSectionIndex t) 8 then
     exists s t1,
       goToNextSection t = (Some s, t1)
       /\ nth_error sections (S (currentSectionIndex t)) = Some s
       /\ getCurrentSection t1 = Some s
       /\ currentSectionIndex t1 = S (currentSectionIndex t)
       /\ fst (goToPreviousSection t1) = getCurrentSection t
       /\ currentSectionIndex (snd (goToPreviousSection t1))
          = currentSectionIndex t
   else goToNextSection t = (None, t))
  /\ (currentSectionIndex t = 0 -> goToPreviousSection t = (None, t)).
Proof.
  split.
  - destruct (Nat.ltb (currentSectionIndex t) 8) eqn:L.
    + apply Nat.ltb_lt in L.
      destruct (nth_sections (S (currentSectionIndex t))) as (s & N & I & _);
        [lia|].
      destruct (nth_sections (currentSectionIndex t)) as (s0 & N0 & I0 & _);
        [lia|].
      exists s, (updateProgress s t).
      unfold goToNextSection. cbn [List.length sections Nat.sub].
      apply Nat.ltb_lt in L. rewrite L. rewrite Nat.add_1_r, N.
      rewrite (updateProgress_index s _ t I).
      unfold getCurrentSection, goToPreviousSection.
      cbn [currentSectionIndex Nat.ltb Nat.leb Nat.sub].
      rewrite Nat.sub_0_r, N0, (updateProgress_index s0 _ _ I0).
      repeat split; auto.
    + unfold goToNextSection. cbn [List.length sections Nat.sub]. now rewrite L.
  - intros Z. unfold goToPreviousSection. now rewrite Z.
Qed.

(** X14: where the tracker lets the reader go: never to something that is no
    step; always to the steps up to the one after the current one, so to the
    step [goToNextSection] returns; and to a step visited once, whatever visit
    follows. *)
Theorem canNavigateToSection_reach (t : tracker) :
  (forall s, mem_string s sections = false -> canNavigateToSection s t = false)
  /\ (forall s i, index_of s sections = Some i ->
                  i <= S (currentSectionIndex t) ->
                  canNavigateToSection s t = true)
  /\ (forall s, fst (goToNextSection t) = Some s ->
                canNavigateToSection s t = true)
  /\ (forall s s', mem_string s sections = true ->
                   set_has s (completedSections t) = true ->
                   canNavigateToSection s (updateProgress s' t) = true)
  /\ (forall s, mem_string s sections = true ->
                canNavigateToSection s (updateProgress s t) = true).
Proof.
  repeat split.
  - intros s M. unfold canNavigateToSection. now rewrite (index_of_unknown _ _ M).
  - intros s i I Le. unfold canNavigateToSection. rewrite I.
    apply orb_true_iff. left. apply Nat.leb_le. lia.
  - intros s N. unfold goToNextSection in N.
    cbn [List.length sections Nat.sub] in N.
    destruct (Nat.ltb (currentSectionIndex t) 8) eqn:L; [|discriminate].
    apply Nat.ltb_lt in L.
    destruct (nth_sections (currentSectionIndex t + 1)) as (s1 & N1 & I1 & _);
      [lia|].
    rewrite N1 in N. cbn [fst] in N. injection N as <-.
    unfold canNavigateToSection. rewrite I1.
    apply orb_true_iff. left. apply Nat.leb_le. lia.
  - intros s s' M V. destruct (sections_cases _ M) as (i & _ & I & _).
    unfold canNavigateToSection. rewrite I.
    apply orb_true_iff. right.
    unfold updateProgress. destruct (index_of s' sections); [|exact V].
    cbn [completedSections]. now apply set_has_add_mono.
  - intros s M. destruct (sections_cases _ M) as (i & _ & I & _).
    unfold canNavigateToSection. rewrite I.
    apply orb_true_iff. right.
    rewrite (updateProgress_index s i t I). apply set_has_add_same.
Qed.

End Steps.

(** ** Saving the progress and loading it again *)

Section ProgressStorage.
Import Js ProgressTracker.

Lemma add_all_strings (l : list string) (acc : string_set) :
  add_all (map VStr l) acc
  = Ok (fold_left (fun s k => set_add k s) l acc).
Proof.
  revert acc. induction l as [|k r IH]; intros acc; [reflexivity|].
  cbn [map add_all fold_left]. apply IH.
Qed.

Lemma fold_set_add_distinct (l acc : list string) :
  distinct (acc ++ l) = true ->
  fold_left (fun s k => set_add k s) l acc = acc ++ l.
Proof.
  revert acc. induction l as [|k r IH]; intros acc D.
  - now rewrite app_nil_r.
  - cbn [fold_left].
    assert (M : set_has k acc = false).
    { clear IH. induction acc as [|x a IHa]; [reflexivity|].
      cbn [app] in D. apply distinct_cons in D as [Dx Da].
      rewrite mem_string_app in Dx. apply orb_false_iff in Dx as [_ Dx].
      cbn [mem_string existsb] in Dx. apply orb_false_iff in Dx as [Dx _].
      unfold set_has. cbn [mem_string existsb].
      rewrite String.eqb_sym, Dx. now apply IHa. }
    unfold set_add at 2. rewrite M.
    rewrite IH; rewrite <- app_assoc; [reflexivity | exact D].
Qed.

(** X15: the progress saved is the progress loaded: for a tracker in order,
    [loadProgress] on the record [saveProgress] hands to the storage gives the
    tracker back, whatever the tracker that loads held. *)
Theorem loadProgress_saveProgress (clk : clock) (t t0 : tracker) :
  in_order t = true ->
  loadProgress (saveProgress clk t) t0 = Ok t.
Proof.
  unfold in_order. intros H. apply andb_true_iff in H as [I D].
  apply Nat.ltb_lt in I. cbn [List.length sections] in I.
  destruct t as [i l]. cbn [currentSectionIndex completedSections] in *.
  unfold loadProgress, saveProgress.
  cbn [truthy get lookup String.eqb Ascii.eqb Bool.eqb bind
       currentSectionIndex completedSections or_else new_Set].
  rewrite add_all_strings, (fold_set_add_distinct l [] D). cbn [app bind].
  do 9 (destruct i as [|i]; [reflexivity|]). lia.
Qed.

Lemma loadProgress_saveProgress_witness :
  loadProgress
    (saveProgress still_clock
       (Tracker 2 ["welcome"; "focus"; "focus.wantMore"; "influences"]))
    new_tracker
  = Ok (Tracker 2 ["welcome"; "focus"; "focus.wantMore"; "influences"]).
Proof.
  apply (loadProgress_saveProgress still_clock
           (Tracker 2 ["welcome"; "focus"; "focus.wantMore"; "influences"])).
  reflexivity.
Defined.

End ProgressStorage.

(** ** The completion the tracker reports *)

Section Overall.
Import Js ProgressTracker.







(** X17: the summary has one entry for each of the nine steps, in their order,
    and each entry is sound: no more fields filled than required, a percentage
    between 0 and 100 that is 100 exactly when every required field of the
    step is filled; the steps it lists as visited are the keys of the ledger
    that are no composite keys. *)
Theorem getCompletionSummary_sound (t : tracker) :
  exists sm,
    getCompletionSummary t = Ok sm
    /\ map section (summary_sections sm) = sections
    /\ forallb sound_entry (summary_sections sm) = true
    /\ forallb (fun key => negb (has_dot key)) (visitedSections sm) = true
    /\ summary_currentSection sm = getCurrentSection t.
Proof.
  eexists. split; [reflexivity|].
  cbn [summary_sections visitedSections summary_currentSection].
  split; [reflexivity|]. split; [|split; [|reflexivity]].
  - cbn [forallb]. unfold sound_entry, completed_of.
    cbn [filter snd fst completed total percentage List.length].
    repeat match goal with
           | |- context [set_has ?k ?s] => destruct (set_has k s)
           end; vm_compute; reflexivity.
  - apply forallb_forall. intros k H. apply filter_In in H. now destruct H.
Qed.

Lemma isRequiredField_cases (section f : string) :
  isRequiredField section f = Ok true ->
  In (section, f)
     [ ("focus", "wantMore"); ("influences", "energyGivers");
       ("influences", "energyDrainers"); ("connections", "ahaReflection");
       ("patterns", "keyLearning"); ("goals", "goalStatement");
       ("commitment", "commitmentText") ].
Proof.
  unfold isRequiredField, table_get. cbn [find fst snd].
  repeat match goal with
         | |- context [String.eqb section ?k] =>
             let E := fresh "E" in
             destruct (String.eqb section k) eqn:E;
             [apply String.eqb_eq in E; subst section;
              cbn [bind mem_string existsb]; intros H; injection H as H;
              repeat (apply orb_true_iff in H as [H|H];
                      [apply String.eqb_eq in H; subst f; cbn; tauto|]);
              discriminate H|]
         end.
  destruct (mem_string section object_prototype_names);
    cbn [bind]; intros H; discriminate H.
Qed.

(** The two tables of required fields agree in one direction: a field
    [isRequiredField] knows is one [getRequiredFieldsForSection] counts for
    its step, so that marking it as filled shows in the progress of the
    step. *)
Theorem required_field_counts (section f : string) (t : tracker) :
  isRequiredField section f = Ok true ->
  exists l t1 p,
    getRequiredFieldsForSection section = Ok l /\ In f l
    /\ updateFieldCompletionStatus section f true t = Ok (t1, p)
    /\ In f (completed_of t1 section l)
    /\ PrimFloat.ltb 0 p = true.
Proof.
  intros H. apply isRequiredField_cases in H.
  repeat (destruct H as [E|H]; [injection E as <- <-|]); [..|destruct H].
  all: do 3 eexists; split; [reflexivity|]; split; [cbn; auto|].
  all: split; [unfold updateFieldCompletionStatus, updateSectionProgress;
               cbn [bind getRequiredFieldsForSection table_get find fst snd
                    String.eqb Ascii.eqb Bool.eqb]; reflexivity|].
  all: unfold completed_of; cbn [completedSections snd].
  all: split; [apply filter_In; split; [cbn; auto|apply set_has_add_same]|].
  all: cbn [filter]; rewrite ?set_has_add_same.
  all: repeat match goal with
              | |- context [set_has ?k (set_add ?k' ?l)] =>
                  destruct (set_has k (set_add k' l))
              end; reflexivity.
Qed.

Lemma required_field_counts_witness :
  exists l t1 p,
    getRequiredFieldsForSection "goals" = Ok l /\ In "goalStatement" l
    /\ updateFieldCompletionStatus "goals" "goalStatement" true new_tracker
       = Ok (t1, p)
    /\ In "goalStatement" (completed_of t1 "goals" l)
    /\ PrimFloat.ltb 0 p = true.
Proof.
  apply (required_field_counts "goals" "goalStatement" new_tracker).
  reflexivity.
Defined.

End Overall.

(** ** The elements of the diagram *)

Section Diagram.
Import Js MappingSystem.

Lemma substring_length (k : nat) (s : string) :
  k <= String.length s -> String.length (String.substring 0 k s) = k.
Proof.
  revert k. induction s as [|c r IH]; intros [|k] H; simpl in *;
    try reflexivity; try lia.
  f_equal. apply IH. lia.
Qed.

Lemma append_length (a b : string) :
  String.length (a ++ b) = String.length a + String.length b.
Proof. induction a as [|c r IH]; simpl; [reflexivity | now rewrite IH]. Qed.

(** X18: a label cut to fit: for a limit of three or more, [truncateText]
    gives a text no longer than the limit; a text within the limit is left as
    it is, a longer one keeps its first [maxLength - 3] units, followed by
    three dots, and has exactly the length of the limit. *)
Theorem truncateText_fits (s : string) (maxLength : nat) :
  3 <= maxLength ->
  exists r,
    truncateText (VStr s) maxLength = Ok (VStr r)
    /\ String.length r <= maxLength
    /\ (String.length s <= maxLength -> r = s)
    /\ (maxLength < String.length s ->
        r = (String.substring 0 (maxLength - 3) s ++ "...")%string
        /\ String.length r = maxLength).
Proof.
  intros H. unfold truncateText.
  destruct s as [|c s'].
  - exists EmptyString. cbn. repeat split; try lia.
  - set (s := String c s'). cbn [truthy JsString.is_empty negb].
    destruct (Nat.leb (String.length s) maxLength) eqn:L.
    + apply Nat.leb_le in L. exists s. repeat split; auto; lia.
    + apply Nat.leb_gt in L.
      assert (Len : String.length (String.substring 0 (maxLength - 3) s ++ "...")
                    = maxLength).
      { rewrite append_length, substring_length by lia. simpl. lia. }
      eexists. split; [reflexivity|]. repeat split; auto; lia.
Qed.

Lemma truncateText_fits_witness :
  exists r,
    truncateText (VStr "saying yes to everything") 10 = Ok (VStr r)
    /\ String.length r <= 10
    /\ (String.length "saying yes to everything" <= 10 ->
        r = "saying yes to everything")
    /\ (10 < String.length "saying yes to everything" ->
        r = (String.substring 0 (10 - 3) "saying yes to everything" ++ "...")%string
        /\ String.length r = 10).
Proof.
  apply (truncateText_fits "saying yes to everything" 10). lia.
Defined.








End Diagram.

(** ** From the connection step to the diagram *)

Section GiversRoundTrip.
Import Js JsString MappingSystem.

Lemma split_without (sep : ascii) (s : string) :
  has_unit sep s = false -> split sep s = [s].
Proof.
  induction s as [|c r IH]; [reflexivity|].
  cbn [has_unit split]. intros H. apply orb_false_iff in H as [H1 H2].
  rewrite H1, (IH H2). reflexivity.
Qed.

Lemma split_at (sep : ascii) (a b : string) :
  has_unit sep a = false ->
  split sep (a ++ String sep b) = a :: split sep b.
Proof.
  induction a as [|c r IH]; intros H.
  - cbn [append split]. now rewrite Ascii.eqb_refl.
  - cbn [has_unit] in H. apply orb_false_iff in H as [H1 H2].
    cbn [append split]. rewrite H1, (IH H2). reflexivity.
Qed.

Lemma trim_empty_iff (s : string) :
  Nat.ltb 0 (String.length (trim s)) = negb (is_empty (trim s)).
Proof. now destruct (trim s). Qed.

(** X11: the two givers (or drainers) of the connection step come back as the
    items of the diagram: the text [getAutoPopulationData] and
    [populateMapElements] make of two answers that hold no comma, [[a,
    b].filter(Boolean).join(', ')], is parsed by [parseInfluenceText] into the
    two answers trimmed, without the ones that are blank. *)
Theorem parse_joined_answers (a b : string) :
  has_unit "," a = false -> has_unit "," b = false ->
  exists joined,
    JournalData.join_truthy (VStr a) (VStr b) = Ok joined
    /\ parseInfluenceText (VStr joined)
       = filter (fun item => Nat.ltb 0 (String.length item)) [trim a; trim b].
Proof.
  intros Ha Hb. unfold JournalData.join_truthy.
  assert (One : forall s, has_unit "," s = false ->
                          parseInfluenceText (VStr s)
                          = filter (fun item => Nat.ltb 0 (String.length item))
                                   [trim s]).
  { intros s H. unfold parseInfluenceText.
    destruct s as [|c r]; [reflexivity|].
    cbn [truthy is_empty negb typeof String.eqb Ascii.eqb Bool.eqb orb].
    rewrite (split_without "," _ H). cbn [map filter].
    now destruct (Nat.ltb 0 (String.length (trim (String c r)))). }
  destruct a as [|ca ra]; destruct b as [|cb rb];
    cbn [filter truthy is_empty negb fold_right bind to_text join String.concat].
  - exists EmptyString. split; reflexivity.
  - eexists. split; [reflexivity|]. rewrite (One _ Hb). reflexivity.
  - eexists. split; [reflexivity|]. rewrite (One _ Ha). cbn [filter].
    now destruct (Nat.ltb 0 (String.length (trim (String ca ra)))).
  - eexists. split; [reflexivity|].
    set (a := String ca ra) in *. set (b := String cb rb) in *.
    assert (T : truthy (VStr (a ++ ", " ++ b)) = true) by reflexivity.
    unfold parseInfluenceText. rewrite T.
    cbn [typeof String.eqb Ascii.eqb Bool.eqb negb orb].
    change (a ++ ", " ++ b)%string with (a ++ String "," (String " " b))%string.
    rewrite (split_at "," a _ Ha).
    rewrite (split_without "," (String " " b)) by exact Hb.
    cbn [map]. change (trim (String " " b)) with (trim b).
    cbn [filter].
    now destruct (Nat.ltb 0 (String.length (trim a))),
                 (Nat.ltb 0 (String.length (trim b))).
Qed.

Lemma parse_joined_answers_witness :
  exists joined,
    JournalData.join_truthy (VStr "morning walks") (VStr " music ") = Ok joined
    /\ parseInfluenceText (VStr joined)
       = filter (fun item => Nat.ltb 0 (String.length item))
                [trim "morning walks"; trim " music "].
Proof.
  apply (parse_joined_answers "morning walks" " music "); reflexivity.
Defined.

End GiversRoundTrip.

(** ** After a resize *)

Section Resize.
Import Js MappingSystem.

Lemma move_first_length (test : element -> bool) (x y : float)
    (els : list element) :
  List.length (move_first test x y els) = List.length els.
Proof.
  induction els as [|el r IH]; [reflexivity|].
  cbn [move_first]. destruct (test el); cbn [List.length]; now rewrite ?IH.
Qed.

(** On a resize only the focus moves: [repositionElements] keeps the number
    and the identifiers of the elements, leaves every element that is no
    focus where it was, and puts the first focus element at the centre of
    the canvas as it is now. *)
Theorem repositionElements_moves_focus (c : canvas) (elements : list element) :
  List.length (repositionElements c elements) = List.length elements
  /\ map id (repositionElements c elements) = map id elements
  /\ (forall i el, nth_error elements i = Some el -> is_focus el = false ->
                   nth_error (repositionElements c elements) i = Some el)
  /\ (forall el, find is_focus elements = Some el ->
                 find is_focus (repositionElements c elements)
                 = Some (move_to el (centerX c) (centerY c))).
Proof.
  unfold repositionElements. split; [apply move_first_length|]. split; [|split].
  - induction elements as [|el r IH]; [reflexivity|].
    cbn [move_first]. destruct (is_focus el); cbn [map]; [reflexivity|].
    now rewrite IH.
  - induction elements as [|el r IH]; intros [|i] e N F; try discriminate.
    + cbn [nth_error] in N. injection N as ->. cbn [move_first]. now rewrite F.
    + cbn [nth_error] in N. cbn [move_first].
      destruct (is_focus el); [exact N|]. cbn [nth_error]. now apply IH.
  - induction elements as [|e r IH]; intros el F; [discriminate|].
    cbn [find] in F. cbn [move_first].
    destruct (is_focus e) eqn:E.
    + injection F as <-. cbn [find]. unfold is_focus in *. cbn [move_to type].
      now rewrite E.
    + cbn [find]. rewrite E. now apply IH.
Qed.

End Resize.

(** ** Numbers in order *)

Section FloatOrder.
Local Open Scope float_scope.











End FloatOrder.

(** ** Dragging an element *)

Section Dragging.
Import Js MappingSystem.
Local Open Scope float_scope.




End Dragging.

(** ** The credential *)

Section Credential.
Import Js AIIntegration.

(** [setAPIKey] accepts exactly the texts that are not empty (a blank one
    too).  A key accepted is held and is written to the storage, the
    integration is available from then on, and an integration initialised
    later from what was written is available too; a key refused changes
    nothing and nothing is written. *)
Theorem setAPIKey_enables (key : value) (ai : integration) :
  let r := setAPIKey key ai in
  let flag := fst (fst r) in
  let ai' := snd (fst r) in
  let written := snd r in
  (flag = true <-> exists s, key = VStr s /\ s <> EmptyString)
  /\ (flag = true ->
      apiKey ai' = key /\ isAvailable ai' = true /\ written = Some key
      /\ isAvailable (initializeAPI key) = true)
  /\ (flag = false -> ai' = ai /\ written = None).
Proof.
  cbn zeta. unfold setAPIKey.
  destruct key as [| |b|n|s|items named|ps];
    cbn [truthy typeof negb orb String.eqb Ascii.eqb Bool.eqb fst snd];
    try (destruct b);
    try (split; [split; [discriminate|intros (s' & E & _); discriminate]|];
         split; [discriminate|now split]).
  - destruct (negb _);
      (split; [split; [discriminate|intros (s' & E & _); discriminate]|];
       split; [discriminate|now split]).
  - destruct s as [|c r]; cbn [JsString.is_empty negb orb fst snd].
    + split; [split; [discriminate|intros (s' & E & N); injection E as <-; now elim N]|].
      split; [discriminate|now split].
    + split; [split; [intros _; eexists; split; [reflexivity|discriminate]|reflexivity]|].
      split; [now repeat split|discriminate].
Qed.

End Credential.

(** ** A text that comes back from the service *)

Section Formatting.
Import Js JsString AIIntegration.





End Formatting.

(** ** An answer that has the text *)

Section Success.
Import Js AIIntegration.

(** A value from which a read succeeds and leads somewhere is truthy. *)
Lemma get_leads (v x y : value) (k k' : string) :
  get v k = Ok x -> get x k' = Ok y -> k = "0" \/ plain_key k = true ->
  truthy v = true.
Proof.
  intros G G' K.
  destruct v as [| |b|n|s|items named|ps]; try discriminate; try reflexivity.
  - (* a boolean has nothing to read *)
    exfalso. cbn [get] in G. unfold inherited in G.
    destruct K as [-> | K].
    + cbn in G. injection G as <-. discriminate.
    + destruct (plain_key_facts k K) as (I & _ & _ & _ & M).
      rewrite I, M in G. injection G as <-. discriminate.
  - destruct (truthy (VNum n)) eqn:T; [reflexivity|].
    exfalso. cbn [get] in G. unfold inherited in G.
    destruct K as [-> | K].
    + cbn in G. injection G as <-. discriminate.
    + destruct (plain_key_facts k K) as (I & _ & _ & _ & M).
      rewrite I, M in G. injection G as <-. discriminate.
  - destruct s as [|c r]; [|reflexivity].
    exfalso. cbn [get] in G. unfold inherited in G.
    destruct K as [-> | K].
    + cbn in G. injection G as <-. discriminate.
    + destruct (plain_key_facts k K) as (I & L & _ & _ & M).
      rewrite I, L, M in G. injection G as <-. discriminate.
Qed.

(** When the path leads to a text, the source takes that text. *)
Lemma candidate_text_taken (d : value) (s : string) :
  text_at d = Some s -> candidate_text d = Ok (VStr s).
Proof.
  unfold text_at, follow, candidate_text.
  destruct (get d "candidates") as [c| |] eqn:G1; try discriminate.
  destruct (get c "0") as [f| |] eqn:G2; try discriminate.
  destruct (get f "content") as [ct| |] eqn:G3; try discriminate.
  destruct (get ct "parts") as [ps| |] eqn:G4; try discriminate.
  destruct (get ps "0") as [p| |] eqn:G5; try discriminate.
  destruct (get p "text") as [t| |] eqn:G6; try discriminate.
  destruct t; try discriminate. intros E. injection E as ->.
  cbn [bind].
  rewrite (get_leads c f ct "0" "content" G2 G3 (or_introl eq_refl)).
  rewrite G2. cbn [bind].
  rewrite (get_leads f ct ps "content" "parts" G3 G4 (or_intror eq_refl)).
  rewrite G3. cbn [bind].
  rewrite (get_leads ct ps p "parts" "0" G4 G5 (or_intror eq_refl)).
  rewrite G4. cbn [bind]. rewrite G5. cbn [bind]. exact G6.
Qed.

(** X23: with a credential and an answer of the service that has the text, one
    request is made, to the address of the service with the credential,
    carrying the prompt built from the journal, and the promise resolves to
    the text formatted: for the insights on the influences and for the final
    reflection alike. *)
Theorem insight_from_answer (key : string) (d : value) (s : string)
    (status : nat) (statusText : string) :
  key <> EmptyString -> text_at d = Some s ->
  let ai := Integration (VStr key) true in
  let net := Response true status statusText (Utils.JsonText (Some d)) in
  (forall influencesData p,
      buildInfluencesPrompt influencesData = Ok p ->
      generateInfluencesInsights ai influencesData net
      = ([Request (baseUrl ++ "?key=" ++ key)%string p],
         formatInsightsResponse (VStr s)))
  /\ (forall journalData p,
         buildReflectionPrompt journalData = Ok p ->
         generateFinalReflection ai journalData net
         = ([Request (baseUrl ++ "?key=" ++ key)%string p],
            formatReflectionResponse (VStr s))).
Proof.
  intros K T. cbn zeta.
  assert (A : isAvailable (Integration (VStr key) true) = true).
  { destruct key; [now elim K | reflexivity]. }
  split.
  - intros data p B. unfold generateInfluencesInsights.
    rewrite A, B. cbn [negb makeAPIRequest apiKey to_text bind read_answer
                       Utils.JSON_parse].
    rewrite (candidate_text_taken d s T). reflexivity.
  - intros data p B. unfold generateFinalReflection.
    rewrite A, B. cbn [negb makeAPIRequest apiKey to_text bind read_answer
                       Utils.JSON_parse].
    rewrite (candidate_text_taken d s T). reflexivity.
Qed.

Lemma insight_from_answer_witness :
  let d := VObj [ ("candidates",
                   VArr [ VObj [ ("content",
                                  VObj [ ("parts",
                                          VArr [ VObj [ ("text", VStr "You rest too little.") ] ]
                                               []) ]) ] ]
                        []) ] in
  let ai := Integration (VStr "key") true in
  let net := Response true 200 "OK" (Utils.JsonText (Some d)) in
  (forall influencesData p,
      buildInfluencesPrompt influencesData = Ok p ->
      generateInfluencesInsights ai influencesData net
      = ([Request (baseUrl ++ "?key=" ++ "key")%string p],
         formatInsightsResponse (VStr "You rest too little.")))
  /\ (forall journalData p,
         buildReflectionPrompt journalData = Ok p ->
         generateFinalReflection ai journalData net
         = ([Request (baseUrl ++ "?key=" ++ "key")%string p],
            formatReflectionResponse (VStr "You rest too little."))).
Proof.
  apply (insight_from_answer "key" _ "You rest too little." 200 "OK").
  - discriminate.
  - reflexivity.
Defined.

(** X24: the final reflection falls back as the insights do: without a
    credential the promise resolves to the fallback text and no request is
    made; with one, every unusable answer makes it resolve to the error
    fallback text after the one request; and the prompt is built for every
    journal that is a record, with nothing for the answers of a step the
    journal lacks. *)
Theorem generateFinalReflection_fallbacks :
  (forall (ai : integration) (journalData : value) (net : answer),
      isAvailable ai = false ->
      generateFinalReflection ai journalData net
      = ([], Ok reflection_message))
  /\ (forall (key : string) (journalData : value) (p : string) (net : answer),
         key <> EmptyString ->
         buildReflectionPrompt journalData = Ok p ->
         unusable net ->
         generateFinalReflection (Integration (VStr key) true) journalData net
         = ([Request (baseUrl ++ "?key=" ++ key)%string p],
            Ok reflection_error_message))
  /\ (forall ps : props,
         lookup "focus" ps = None -> lookup "patterns" ps = None ->
         lookup "commitment" ps = None ->
         buildReflectionPrompt (VObj ps)
         = buildReflectionPrompt (VObj [])).
Proof.
  split; [|split].
  - intros ai d net A. unfold generateFinalReflection. now rewrite A.
  - intros key d p net K B U. unfold generateFinalReflection.
    assert (A : isAvailable (Integration (VStr key) true) = true).
    { destruct key; [now elim K | reflexivity]. }
    rewrite A, B. cbn [negb makeAPIRequest apiKey to_text bind].
    f_equal.
    destruct net as [|ok status statusText body]; [reflexivity|].
    simpl in U. unfold read_answer.
    destruct ok; [|reflexivity]. cbn [negb].
    destruct U as [U|U]; [discriminate|].
    destruct body as [[v|]]; [|reflexivity].
    cbn [Utils.JSON_parse bind].
    destruct (candidate_text v) as [x| |] eqn:C; cbn [bind try_catch];
      [|reflexivity | now apply candidate_text_not_stuck in C].
    destruct x; try reflexivity.
    apply candidate_text_found in C. congruence.
  - intros ps F P C. unfold buildReflectionPrompt, optional_field.
    cbn [get]. rewrite F, P, C. reflexivity.
Qed.

End Success.

(** ** The steps of the application *)

Section StepsOfTheApp.
Import Js App.

(** X25: what is typed is what is saved: the application starts on an empty
    storage; in any step before the last the user types a text into any
    control of the step that holds a text, and goes to any other step before
    the last. The journal then holds the text typed, as typed, for that field
    of that step. *)
Theorem typed_answer_is_saved (clk : clock) (s i t s' : string) :
  In s (removelast ProgressTracker.sections) ->
  In i (text_controls s) ->
  In s' (removelast ProgressTracker.sections) ->
  s' <> s ->
  (a <- visit_type_leave clk s i t s' ;;
   JournalData.getField (JournalData.data (journalData a)) s i VUndef)
  = Ok (VStr t).
Proof.
  intros Hs Hi Hs' N. cbn [removelast ProgressTracker.sections] in Hs, Hs'.
  repeat (destruct Hs as [<-|Hs]; [|]); try (now destruct Hs).
  all: cbv [text_controls getSectionContent] in Hi; cbn in Hi.
  all: repeat (destruct Hi as [<-|Hi]; [|]); try (now destruct Hi).
  all: repeat (destruct Hs' as [<-|Hs']; [|]); try (now destruct Hs');
       try (now elim N).
  all: destruct t; vm_compute; reflexivity.
Qed.

Lemma typed_answer_is_saved_witness :
  (a <- visit_type_leave still_clock "goals" "goalStatement"
          "walk every day" "roadmap" ;;
   JournalData.getField (JournalData.data (journalData a))
                        "goals" "goalStatement" VUndef)
  = Ok (VStr "walk every day").
Proof.
  apply (typed_answer_is_saved still_clock "goals" "goalStatement"
                               "walk every day" "roadmap").
  - cbn. tauto.
  - cbn. tauto.
  - cbn. tauto.
  - discriminate.
Defined.


End StepsOfTheApp.

(** ** Collecting the inputs of a step *)

Section Collecting.
Import Js App.

Lemma collect_area_boxes (boxes : list node) (sd : props) (items : list value)
    (named : props) :
  forallb area_box boxes = true ->
  lookup "lifeAreas" sd = Some (VArr items named) ->
  collect_inputs sd boxes
  = Ok (upsert "lifeAreas"
          (VArr (items ++ map n_value (filter n_checked boxes)) named) sd).
Proof.
  revert sd items. induction boxes as [|n r IH]; intros sd items F L.
  - cbn [collect_inputs filter map]. rewrite app_nil_r. f_equal.
    clear - L. induction sd as [|[k x] q IHq]; [discriminate|].
    cbn [lookup] in L. cbn [upsert].
    destruct (String.eqb "lifeAreas" k) eqn:E.
    + apply String.eqb_eq in E. subst k. now injection L as ->.
    + f_equal. now apply IHq.
  - cbn [forallb] in F. apply andb_true_iff in F as [Fn Fr].
    unfold area_box in Fn. apply andb_true_iff in Fn as [Fn Fi].
    apply andb_true_iff in Fn as [Fc Fm]. apply negb_true_iff in Fi.
    cbn [collect_inputs]. unfold collect_input. rewrite Fi, Fc, Fm, L.
    cbn [truthy]. rewrite L.
    destruct (n_checked n) eqn:C; cbn [bind filter]; rewrite C.
    + rewrite (IH _ (items ++ [n_value n]) Fr) by apply lookup_upsert_same.
      rewrite upsert_upsert. cbn [map]. now rewrite <- app_assoc.
    + now rewrite (IH _ items Fr L).
Qed.

(** X27: the group of check boxes is collected into an array: for the boxes of
    the life areas, [saveCurrentSectionData] builds a record whose field
    [lifeAreas] is the array of the values of the boxes that are checked, in
    the order of the page, and the empty array when none is. *)
Theorem collect_inputs_life_areas (n : node) (boxes : list node) (sd : props) :
  forallb area_box (n :: boxes) = true ->
  lookup "lifeAreas" sd = None ->
  collect_inputs sd (n :: boxes)
  = Ok (upsert "lifeAreas"
          (VArr (map n_value (filter n_checked (n :: boxes))) []) sd).
Proof.
  intros F L. pose proof F as F'.
  cbn [forallb] in F. apply andb_true_iff in F as [Fn Fr].
  unfold area_box in Fn. apply andb_true_iff in Fn as [Fn Fi].
  apply andb_true_iff in Fn as [Fc Fm]. apply negb_true_iff in Fi.
  cbn [collect_inputs]. unfold collect_input. rewrite Fi, Fc, Fm, L.
  cbn [truthy]. rewrite lookup_upsert_same.
  destruct (n_checked n) eqn:C; cbn [bind filter]; rewrite C.
  - rewrite (collect_area_boxes boxes _ [n_value n] [] Fr)
      by apply lookup_upsert_same.
    now rewrite !upsert_upsert.
  - rewrite (collect_area_boxes boxes _ [] [] Fr) by apply lookup_upsert_same.
    now rewrite upsert_upsert.
Qed.

Lemma collect_inputs_life_areas_witness :
  collect_inputs []
    [ with_checked (checkbox "focus" "area-family" "lifeAreas" "family") true;
      checkbox "focus" "area-career" "lifeAreas" "career";
      with_checked (checkbox "focus" "area-health" "lifeAreas" "health") true ]
  = Ok (upsert "lifeAreas"
          (VArr (map n_value
                   (filter n_checked
                      [ with_checked
                          (checkbox "focus" "area-family" "lifeAreas" "family")
                          true;
                        checkbox "focus" "area-career" "lifeAreas" "career";
                        with_checked
                          (checkbox "focus" "area-health" "lifeAreas" "health")
                          true ]))
                [])
          []).
Proof.
  apply (collect_inputs_life_areas
           (with_checked (checkbox "focus" "area-family" "lifeAreas" "family") true)
           [ checkbox "focus" "area-career" "lifeAreas" "career";
             with_checked (checkbox "focus" "area-health" "lifeAreas" "health")
                          true ]
           []);
    reflexivity.
Defined.

End Collecting.

(** ** The step shown and the step recorded *)

Section Shown.
Import Js App.

Lemma updateProgress_known (s : string) (t : ProgressTracker.tracker) :
  mem_string s ProgressTracker.sections = true ->
  ProgressTracker.getCurrentSection (ProgressTracker.updateProgress s t) = Some s
  /\ ProgressTracker.set_has s
       (ProgressTracker.completedSections (ProgressTracker.updateProgress s t))
     = true.
Proof.
  intros M. destruct (sections_cases _ M) as (i & _ & I & N).
  rewrite (updateProgress_index s i t I). split; [exact N|].
  apply set_has_add_same.
Qed.

(** The step a navigation saved in the journal is read back. *)
Lemma saveCurrentSection_read (s : string) (m m2 : JournalData.manager) (u : unit) :
  JournalData.saveCurrentSection s m = (Ok u, m2) ->
  JournalData.getCurrentSection (JournalData.data m2)
  = Ok (VStr (if JsString.is_empty s then "welcome" else s)).
Proof.
  unfold JournalData.saveCurrentSection.
  destruct (get (JournalData.data m) "metadata") as [md| |] eqn:G;
    cbn [bind]; try discriminate.
  destruct (set md "currentSection" (VStr s)) as [md'| |] eqn:S;
    cbn [bind]; try discriminate.
  intros E. injection E as _ <-.
  cbn [JournalData.data JournalData.debouncedSave JournalData.with_data].
  unfold JournalData.getCurrentSection.
  assert (O : own_props (JournalData.data m) <> None).
  { destruct (JournalData.data m) as [| |b|n|t|items named|ps];
      try discriminate; exfalso; cbn in G; injection G as <-; discriminate. }
  rewrite get_seen_through_same by (reflexivity || exact O). cbn [bind].
  rewrite (get_after_set_same _ _ _ _ S). cbn [bind or_else truthy].
  now destruct s.
Qed.

(** What [showSection] leaves when it returns. *)
Lemma showSection_result (clk : clock) (s : string) (a a' : app) :
  showSection clk s a = Ok a' ->
  mem_string s ProgressTracker.sections = true ->
  currentSection a' = s
  /\ ProgressTracker.getCurrentSection (progressTracker a') = Some s
  /\ ProgressTracker.set_has s
       (ProgressTracker.completedSections (progressTracker a')) = true
  /\ JournalData.getCurrentSection (JournalData.data (journalData a'))
     = Ok (VStr s).
Proof.
  intros H M. unfold showSection in H. rewrite M in H. cbn [negb] in H.
  destruct (saveCurrentSectionData clk a) as [a1| |]; try discriminate.
  cbn [bind] in H.
  destruct (renderSection _ _ s (document a1)) as [pg1| |]; try discriminate.
  cbn [bind] in H.
  destruct (JournalData.saveCurrentSection s (journalData a1))
    as [[u| |] m2] eqn:Sv; try discriminate.
  destruct (populateSectionData _ s pg1) as [pg2| |]; try discriminate.
  cbn [bind] in H. injection H as <-.
  cbn [currentSection progressTracker journalData].
  destruct (updateProgress_known s (progressTracker a1) M) as (C & V).
  repeat split; auto.
  rewrite (saveCurrentSection_read s _ _ u Sv).
  destruct s; [discriminate M|reflexivity].
Qed.

(** X28: the step shown is the step recorded everywhere: when [showSection]
    returns for a step, the application, the progress tracker and the metadata
    of the journal all have that step for the current one, and the tracker has
    it among the steps visited; for anything that is no step, [showSection]
    returns at once and changes nothing. *)
Theorem showSection_records_step (clk : clock) (s : string) (a a' : app) :
  showSection clk s a = Ok a' ->
  if mem_string s ProgressTracker.sections then
    currentSection a' = s
    /\ ProgressTracker.getCurrentSection (progressTracker a') = Some s
    /\ ProgressTracker.set_has s
         (ProgressTracker.completedSections (progressTracker a')) = true
    /\ JournalData.getCurrentSection (JournalData.data (journalData a'))
       = Ok (VStr s)
  else a' = a.
Proof.
  intros H. destruct (mem_string s ProgressTracker.sections) eqn:M.
  - now apply (showSection_result clk s a a').
  - unfold showSection in H. rewrite M in H. cbn [negb] in H. congruence.
Qed.

Lemma showSection_records_step_witness :
  exists a',
    showSection still_clock "focus" (new_app still_clock) = Ok a'
    /\ currentSection a' = "focus"
    /\ ProgressTracker.getCurrentSection (progressTracker a') = Some "focus"
    /\ ProgressTracker.set_has "focus"
         (ProgressTracker.completedSections (progressTracker a')) = true
    /\ JournalData.getCurrentSection (JournalData.data (journalData a'))
       = Ok (VStr "focus").
Proof.
  eexists. split; [vm_compute; reflexivity|].
  refine (showSection_records_step still_clock "focus" (new_app still_clock) _ _).
  vm_compute. reflexivity.
Defined.

(** X29: next and previous: when [navigateNext] returns, before the last step
    the step that follows is shown and recorded, and at the last step nothing
    has changed; when [navigatePrevious] returns, at the first step nothing
    has changed, and after it the step before is shown and recorded. *)
Theorem navigate_moves (clk : clock) (a a' : app) :
  ProgressTracker.currentSectionIndex (progressTracker a) < 9 ->
  let i := ProgressTracker.currentSectionIndex (progressTracker a) in
  (navigateNext clk a = Ok a' ->
   if Nat.ltb i 8 then
     nth_error ProgressTracker.sections (S i) = Some (currentSection a')
     /\ ProgressTracker.currentSectionIndex (progressTracker a') = S i
   else a' = a)
  /\ (navigatePrevious clk a = Ok a' ->
      if Nat.ltb 0 i then
        nth_error ProgressTracker.sections (i - 1) = Some (currentSection a')
        /\ ProgressTracker.currentSectionIndex (progressTracker a') = i - 1
      else a' = a).
Proof.
  intros Lt. cbn zeta.
  assert (Idx : forall s j b b',
             showSection clk s b = Ok b' ->
             nth_error ProgressTracker.sections j = Some s ->
             ProgressTracker.index_of s ProgressTracker.sections = Some j ->
             mem_string s ProgressTracker.sections = true ->
             nth_error ProgressTracker.sections j = Some (currentSection b')
             /\ ProgressTracker.currentSectionIndex (progressTracker b') = j).
  { intros s j b b' H N I M.
    pose proof (showSection_result clk s b b' H M) as (C & _).
    rewrite C. split; [exact N|].
    unfold showSection in H. rewrite M in H. cbn [negb] in H.
    destruct (saveCurrentSectionData clk b) as [a1| |]; try discriminate.
    cbn [bind] in H.
    destruct (renderSection _ _ s (document a1)) as [pg1| |]; try discriminate.
    cbn [bind] in H.
    destruct (JournalData.saveCurrentSection s (journalData a1))
      as [[u| |] m2]; try discriminate.
    destruct (populateSectionData _ s pg1) as [pg2| |]; try discriminate.
    cbn [bind] in H. injection H as <-. cbn [progressTracker].
    now rewrite (updateProgress_index s j _ I). }
  split.
  - unfold navigateNext, ProgressTracker.goToNextSection.
    cbn [List.length ProgressTracker.sections Nat.sub].
    destruct (Nat.ltb _ 8) eqn:L.
    + apply Nat.ltb_lt in L.
      destruct (nth_sections (ProgressTracker.currentSectionIndex (progressTracker a) + 1))
        as (s & N & I & M & _); [lia|].
      rewrite N. intros H. rewrite Nat.add_1_r in N, I.
      now apply (Idx s _ _ a' H).
    + intros H. injection H as <-. now destruct a.
  - unfold navigatePrevious, ProgressTracker.goToPreviousSection.
    destruct (Nat.ltb 0 _) eqn:L.
    + apply Nat.ltb_lt in L.
      destruct (nth_sections (ProgressTracker.currentSectionIndex (progressTracker a) - 1))
        as (s & N & I & M & _); [lia|].
      rewrite N. intros H. destruct (Idx s _ _ a' H N I M) as (E1 & E2).
      split; [congruence|exact E2].
    + intros H. injection H as <-. now destruct a.
Qed.

Lemma navigate_moves_witness :
  match navigateNext still_clock (new_app still_clock) with
  | Ok a' =>
      nth_error ProgressTracker.sections 1 = Some (currentSection a')
      /\ ProgressTracker.currentSectionIndex (progressTracker a') = 1
  | _ => False
  end.
Proof.
  pose proof (navigate_moves still_clock (new_app still_clock)) as H.
  destruct (navigateNext still_clock (new_app still_clock)) as [a'| |] eqn:E.
  - apply (proj1 (H a' (Nat.lt_0_succ 8))). reflexivity.
  - vm_compute in E. discriminate E.
  - vm_compute in E. discriminate E.
Defined.

(** X30: where the application resumes: when [loadCurrentSection] returns, the
    step shown is the one the journal has for the current step when that is
    the identifier of a step, and the step the application started with
    otherwise; the application, the tracker and the journal record it. *)
Theorem loadCurrentSection_resumes (clk : clock) (a a' : app) (saved : value) :
  mem_string (currentSection a) ProgressTracker.sections = true ->
  JournalData.getCurrentSection (JournalData.data (journalData a)) = Ok saved ->
  loadCurrentSection clk a = Ok a' ->
  let resumed :=
    match saved with
    | VStr s => if mem_string s ProgressTracker.sections then s
                else currentSection a
    | _ => currentSection a
    end in
  currentSection a' = resumed
  /\ ProgressTracker.getCurrentSection (progressTracker a') = Some resumed
  /\ JournalData.getCurrentSection (JournalData.data (journalData a'))
     = Ok (VStr resumed).
Proof.
  intros M G H. cbn zeta. unfold loadCurrentSection in H. rewrite G in H.
  cbn [bind] in H.
  match type of H with
  | showSection clk ?s ?b = _ =>
      assert (Ms : mem_string s ProgressTracker.sections = true)
  end.
  { destruct saved; try exact M.
    destruct (mem_string s ProgressTracker.sections) eqn:E; [exact E|exact M]. }
  destruct (showSection_result clk _ _ a' H Ms) as (C & T & _ & J).
  now repeat split.
Qed.

Lemma loadCurrentSection_resumes_witness :
  match loadCurrentSection still_clock
          (Application "welcome"
             (snd (JournalData.saveCurrentSection "goals" fresh_manager))
             [] new_tracker) with
  | Ok a' =>
      currentSection a' = "goals"
      /\ ProgressTracker.getCurrentSection (progressTracker a') = Some "goals"
      /\ JournalData.getCurrentSection (JournalData.data (journalData a'))
         = Ok (VStr "goals")
  | _ => False
  end.
Proof.
  pose proof (loadCurrentSection_resumes still_clock
                (Application "welcome"
                   (snd (JournalData.saveCurrentSection "goals" fresh_manager))
                   [] new_tracker)) as H.
  destruct (loadCurrentSection still_clock _) as [a'| |] eqn:E.
  - apply (H a' (VStr "goals")); reflexivity.
  - vm_compute in E. discriminate E.
  - vm_compute in E. discriminate E.
Defined.

End Shown.
